(** * Authentication and session lifecycle of the MERN backend

    A shallow embedding of [backend/src/models/User.js],
    [backend/src/middleware/auth.js] and
    [backend/src/controllers/authController.js].

    The MongoDB collection is a list of user records in natural order.
    Mongoose documents are records paired with the set of paths modified
    since they were loaded; [save] writes exactly those paths back, together
    with the bookkeeping of [timestamps: true] and of the version key, and
    [updateOne] acts on the stored record.  Every handler is a function from
    the collection, the clock ([Date.now()], in milliseconds) and the request
    to the new collection and the reply.  The libraries the code calls
    (jsonwebtoken, bcryptjs, crypto, the regular-expression engine, the
    string methods behind the schema's setters, ObjectId generation) and the
    [config] module are the fields of an [Env]. *)

From Stdlib Require Import ZArith List String Ascii Bool Lia DecimalString.
Import ListNotations.
Open Scope string_scope.
Open Scope Z_scope.

(** ** JavaScript primitives *)

Module Js.

(** Truthiness of a string; the empty string also stands for [undefined]. *)
Definition truthy (s : string) : bool := negb (s =? "")%string.

(** Truthiness of a property that may be absent. *)
Definition truthy_opt (o : option string) : bool :=
  match o with
  | Some s => truthy s
  | None => false
  end.

Definition startsWith (s p : string) : bool := String.prefix p s.

(** [s.split(sep)] for a one-character separator. *)
Fixpoint split (sep : ascii) (s : string) : list string :=
  match s with
  | EmptyString => [EmptyString]
  | String c rest =>
      if Ascii.eqb c sep then EmptyString :: split sep rest
      else match split sep rest with
           | [] => [String c EmptyString]
           | w :: ws => String c w :: ws
           end
  end.

(** [xs[i]], [None] for [undefined]. *)
Definition index {A} (xs : list A) (i : nat) : option A := nth_error xs i.

(** [parseInt(ms / 1000, 10)]: the quotient truncated toward zero. *)
Definition parseInt_div (ms d : Z) : Z := Z.quot ms d.

(** [xs.slice(-n)]: the last [n] elements. *)
Definition slice_last {A} (n : nat) (xs : list A) : list A :=
  skipn (List.length xs - n) xs.

(** [Number.MAX_SAFE_INTEGER]: up to this magnitude every integer is a
    number of its own, and sums, differences and comparisons of integers
    are exact. *)
Definition MAX_SAFE_INTEGER : Z := 2 ^ 53 - 1.

Definition isSafeInteger (n : Z) : Prop :=
  - MAX_SAFE_INTEGER <= n <= MAX_SAFE_INTEGER.

(** [new Date(ms)] for an integer [ms]: the time value, or [None] for an
    Invalid Date, which is what a magnitude above 8.64e15 gives. *)
Definition newDate (ms : Z) : option Z :=
  if Z.abs ms <=? 8640000000000000 then Some ms else None.

End Js.

(** ** Data model ([models/User.js]) *)

Record RefreshEntry := {
  token : string;
  createdAt : Z
}.

Record Notifications := {
  notif_email : bool;
  notif_push : bool
}.

Record Preferences := {
  notifications : Notifications;
  theme : string;
  language : string
}.

Record Profile := {
  bio : string;
  website : string;
  location : string;
  dateOfBirth : option Z;
  phone : string
}.

(** A stored user.  Dates are milliseconds since the epoch; an unset
    optional path is [None]; an unset string path is the empty string.
    [loginAttempts] reads as its schema default 0 when it has been unset.
    [user_createdAt] and [updatedAt] are the paths [createdAt] and
    [updatedAt] of the schema option [timestamps: true]; [__v] is the
    version key. *)
Record User := {
  _id : string;
  firstName : string;
  lastName : string;
  email : string;
  username : string;
  avatar : option string;
  role : string;
  password : string;
  passwordConfirm : string;
  passwordChangedAt : option Z;
  passwordResetToken : option string;
  passwordResetExpires : option Z;
  emailVerificationToken : option string;
  emailVerified : bool;
  emailVerificationExpires : option Z;
  active : bool;
  lastLogin : option Z;
  loginAttempts : Z;
  lockUntil : option Z;
  refreshTokens : list RefreshEntry;
  preferences : Preferences;
  profile : Profile;
  user_createdAt : Z;
  updatedAt : Z;
  __v : Z
}.

(** Field updates: [set_f v u] is [u] with path [f] set to [v]. *)

Definition set_password (v : string) (u : User) : User :=
  {| _id := _id u; firstName := firstName u; lastName := lastName u;
     email := email u; username := username u; avatar := avatar u;
     role := role u; password := v; passwordConfirm := passwordConfirm u;
     passwordChangedAt := passwordChangedAt u;
     passwordResetToken := passwordResetToken u;
     passwordResetExpires := passwordResetExpires u;
     emailVerificationToken := emailVerificationToken u;
     emailVerified := emailVerified u;
     emailVerificationExpires := emailVerificationExpires u;
     active := active u; lastLogin := lastLogin u;
     loginAttempts := loginAttempts u; lockUntil := lockUntil u;
     refreshTokens := refreshTokens u; preferences := preferences u;
     profile := profile u;
     user_createdAt := user_createdAt u; updatedAt := updatedAt u;
     __v := __v u |}.

Definition set_passwordConfirm (v : string) (u : User) : User :=
  {| _id := _id u; firstName := firstName u; lastName := lastName u;
     email := email u; username := username u; avatar := avatar u;
     role := role u; password := password u; passwordConfirm := v;
     passwordChangedAt := passwordChangedAt u;
     passwordResetToken := passwordResetToken u;
     passwordResetExpires := passwordResetExpires u;
     emailVerificationToken := emailVerificationToken u;
     emailVerified := emailVerified u;
     emailVerificationExpires := emailVerificationExpires u;
     active := active u; lastLogin := lastLogin u;
     loginAttempts := loginAttempts u; lockUntil := lockUntil u;
     refreshTokens := refreshTokens u; preferences := preferences u;
     profile := profile u;
     user_createdAt := user_createdAt u; updatedAt := updatedAt u;
     __v := __v u |}.

Definition set_passwordChangedAt (v : option Z) (u : User) : User :=
  {| _id := _id u; firstName := firstName u; lastName := lastName u;
     email := email u; username := username u; avatar := avatar u;
     role := role u; password := password u;
     passwordConfirm := passwordConfirm u; passwordChangedAt := v;
     passwordResetToken := passwordResetToken u;
     passwordResetExpires := passwordResetExpires u;
     emailVerificationToken := emailVerificationToken u;
     emailVerified := emailVerified u;
     emailVerificationExpires := emailVerificationExpires u;
     active := active u; lastLogin := lastLogin u;
     loginAttempts := loginAttempts u; lockUntil := lockUntil u;
     refreshTokens := refreshTokens u; preferences := preferences u;
     profile := profile u;
     user_createdAt := user_createdAt u; updatedAt := updatedAt u;
     __v := __v u |}.

Definition set_passwordResetToken (v : option string) (u : User) : User :=
  {| _id := _id u; firstName := firstName u; lastName := lastName u;
     email := email u; username := username u; avatar := avatar u;
     role := role u; password := password u;
     passwordConfirm := passwordConfirm u;
     passwordChangedAt := passwordChangedAt u; passwordResetToken := v;
     passwordResetExpires := passwordResetExpires u;
     emailVerificationToken := emailVerificationToken u;
     emailVerified := emailVerified u;
     emailVerificationExpires := emailVerificationExpires u;
     active := active u; lastLogin := lastLogin u;
     loginAttempts := loginAttempts u; lockUntil := lockUntil u;
     refreshTokens := refreshTokens u; preferences := preferences u;
     profile := profile u;
     user_createdAt := user_createdAt u; updatedAt := updatedAt u;
     __v := __v u |}.

Definition set_passwordResetExpires (v : option Z) (u : User) : User :=
  {| _id := _id u; firstName := firstName u; lastName := lastName u;
     email := email u; username := username u; avatar := avatar u;
     role := role u; password := password u;
     passwordConfirm := passwordConfirm u;
     passwordChangedAt := passwordChangedAt u;
     passwordResetToken := passwordResetToken u; passwordResetExpires := v;
     emailVerificationToken := emailVerificationToken u;
     emailVerified := emailVerified u;
     emailVerificationExpires := emailVerificationExpires u;
     active := active u; lastLogin := lastLogin u;
     loginAttempts := loginAttempts u; lockUntil := lockUntil u;
     refreshTokens := refreshTokens u; preferences := preferences u;
     profile := profile u;
     user_createdAt := user_createdAt u; updatedAt := updatedAt u;
     __v := __v u |}.

Definition set_emailVerificationToken (v : option string) (u : User) : User :=
  {| _id := _id u; firstName := firstName u; lastName := lastName u;
     email := email u; username := username u; avatar := avatar u;
     role := role u; password := password u;
     passwordConfirm := passwordConfirm u;
     passwordChangedAt := passwordChangedAt u;
     passwordResetToken := passwordResetToken u;
     passwordResetExpires := passwordResetExpires u;
     emailVerificationToken := v; emailVerified := emailVerified u;
     emailVerificationExpires := emailVerificationExpires u;
     active := active u; lastLogin := lastLogin u;
     loginAttempts := loginAttempts u; lockUntil := lockUntil u;
     refreshTokens := refreshTokens u; preferences := preferences u;
     profile := profile u;
     user_createdAt := user_createdAt u; updatedAt := updatedAt u;
     __v := __v u |}.

Definition set_emailVerified (v : bool) (u : User) : User :=
  {| _id := _id u; firstName := firstName u; lastName := lastName u;
     email := email u; username := username u; avatar := avatar u;
     role := role u; password := password u;
     passwordConfirm := passwordConfirm u;
     passwordChangedAt := passwordChangedAt u;
     passwordResetToken := passwordResetToken u;
     passwordResetExpires := passwordResetExpires u;
     emailVerificationToken := emailVerificationToken u; emailVerified := v;
     emailVerificationExpires := emailVerificationExpires u;
     active := active u; lastLogin := lastLogin u;
     loginAttempts := loginAttempts u; lockUntil := lockUntil u;
     refreshTokens := refreshTokens u; preferences := preferences u;
     profile := profile u;
     user_createdAt := user_createdAt u; updatedAt := updatedAt u;
     __v := __v u |}.

Definition set_emailVerificationExpires (v : option Z) (u : User) : User :=
  {| _id := _id u; firstName := firstName u; lastName := lastName u;
     email := email u; username := username u; avatar := avatar u;
     role := role u; password := password u;
     passwordConfirm := passwordConfirm u;
     passwordChangedAt := passwordChangedAt u;
     passwordResetToken := passwordResetToken u;
     passwordResetExpires := passwordResetExpires u;
     emailVerificationToken := emailVerificationToken u;
     emailVerified := emailVerified u; emailVerificationExpires := v;
     active := active u; lastLogin := lastLogin u;
     loginAttempts := loginAttempts u; lockUntil := lockUntil u;
     refreshTokens := refreshTokens u; preferences := preferences u;
     profile := profile u;
     user_createdAt := user_createdAt u; updatedAt := updatedAt u;
     __v := __v u |}.

Definition set_active (v : bool) (u : User) : User :=
  {| _id := _id u; firstName := firstName u; lastName := lastName u;
     email := email u; username := username u; avatar := avatar u;
     role := role u; password := password u;
     passwordConfirm := passwordConfirm u;
     passwordChangedAt := passwordChangedAt u;
     passwordResetToken := passwordResetToken u;
     passwordResetExpires := passwordResetExpires u;
     emailVerificationToken := emailVerificationToken u;
     emailVerified := emailVerified u;
     emailVerificationExpires := emailVerificationExpires u; active := v;
     lastLogin := lastLogin u; loginAttempts := loginAttempts u;
     lockUntil := lockUntil u; refreshTokens := refreshTokens u;
     preferences := preferences u; profile := profile u;
     user_createdAt := user_createdAt u; updatedAt := updatedAt u;
     __v := __v u |}.

Definition set_lastLogin (v : option Z) (u : User) : User :=
  {| _id := _id u; firstName := firstName u; lastName := lastName u;
     email := email u; username := username u; avatar := avatar u;
     role := role u; password := password u;
     passwordConfirm := passwordConfirm u;
     passwordChangedAt := passwordChangedAt u;
     passwordResetToken := passwordResetToken u;
     passwordResetExpires := passwordResetExpires u;
     emailVerificationToken := emailVerificationToken u;
     emailVerified := emailVerified u;
     emailVerificationExpires := emailVerificationExpires u;
     active := active u; lastLogin := v; loginAttempts := loginAttempts u;
     lockUntil := lockUntil u; refreshTokens := refreshTokens u;
     preferences := preferences u; profile := profile u;
     user_createdAt := user_createdAt u; updatedAt := updatedAt u;
     __v := __v u |}.

Definition set_loginAttempts (v : Z) (u : User) : User :=
  {| _id := _id u; firstName := firstName u; lastName := lastName u;
     email := email u; username := username u; avatar := avatar u;
     role := role u; password := password u;
     passwordConfirm := passwordConfirm u;
     passwordChangedAt := passwordChangedAt u;
     passwordResetToken := passwordResetToken u;
     passwordResetExpires := passwordResetExpires u;
     emailVerificationToken := emailVerificationToken u;
     emailVerified := emailVerified u;
     emailVerificationExpires := emailVerificationExpires u;
     active := active u; lastLogin := lastLogin u; loginAttempts := v;
     lockUntil := lockUntil u; refreshTokens := refreshTokens u;
     preferences := preferences u; profile := profile u;
     user_createdAt := user_createdAt u; updatedAt := updatedAt u;
     __v := __v u |}.

Definition set_lockUntil (v : option Z) (u : User) : User :=
  {| _id := _id u; firstName := firstName u; lastName := lastName u;
     email := email u; username := username u; avatar := avatar u;
     role := role u; password := password u;
     passwordConfirm := passwordConfirm u;
     passwordChangedAt := passwordChangedAt u;
     passwordResetToken := passwordResetToken u;
     passwordResetExpires := passwordResetExpires u;
     emailVerificationToken := emailVerificationToken u;
     emailVerified := emailVerified u;
     emailVerificationExpires := emailVerificationExpires u;
     active := active u; lastLogin := lastLogin u;
     loginAttempts := loginAttempts u; lockUntil := v;
     refreshTokens := refreshTokens u; preferences := preferences u;
     profile := profile u;
     user_createdAt := user_createdAt u; updatedAt := updatedAt u;
     __v := __v u |}.

Definition set_refreshTokens (v : list RefreshEntry) (u : User) : User :=
  {| _id := _id u; firstName := firstName u; lastName := lastName u;
     email := email u; username := username u; avatar := avatar u;
     role := role u; password := password u;
     passwordConfirm := passwordConfirm u;
     passwordChangedAt := passwordChangedAt u;
     passwordResetToken := passwordResetToken u;
     passwordResetExpires := passwordResetExpires u;
     emailVerificationToken := emailVerificationToken u;
     emailVerified := emailVerified u;
     emailVerificationExpires := emailVerificationExpires u;
     active := active u; lastLogin := lastLogin u;
     loginAttempts := loginAttempts u; lockUntil := lockUntil u;
     refreshTokens := v; preferences := preferences u; profile := profile u;
     user_createdAt := user_createdAt u; updatedAt := updatedAt u;
     __v := __v u |}.

Definition set_updatedAt (v : Z) (u : User) : User :=
  {| _id := _id u; firstName := firstName u; lastName := lastName u;
     email := email u; username := username u; avatar := avatar u;
     role := role u; password := password u;
     passwordConfirm := passwordConfirm u;
     passwordChangedAt := passwordChangedAt u;
     passwordResetToken := passwordResetToken u;
     passwordResetExpires := passwordResetExpires u;
     emailVerificationToken := emailVerificationToken u;
     emailVerified := emailVerified u;
     emailVerificationExpires := emailVerificationExpires u;
     active := active u; lastLogin := lastLogin u;
     loginAttempts := loginAttempts u; lockUntil := lockUntil u;
     refreshTokens := refreshTokens u; preferences := preferences u;
     profile := profile u; user_createdAt := user_createdAt u;
     updatedAt := v; __v := __v u |}.

Definition set___v (v : Z) (u : User) : User :=
  {| _id := _id u; firstName := firstName u; lastName := lastName u;
     email := email u; username := username u; avatar := avatar u;
     role := role u; password := password u;
     passwordConfirm := passwordConfirm u;
     passwordChangedAt := passwordChangedAt u;
     passwordResetToken := passwordResetToken u;
     passwordResetExpires := passwordResetExpires u;
     emailVerificationToken := emailVerificationToken u;
     emailVerified := emailVerified u;
     emailVerificationExpires := emailVerificationExpires u;
     active := active u; lastLogin := lastLogin u;
     loginAttempts := loginAttempts u; lockUntil := lockUntil u;
     refreshTokens := refreshTokens u; preferences := preferences u;
     profile := profile u; user_createdAt := user_createdAt u;
     updatedAt := updatedAt u; __v := v |}.

(** ** Collaborators outside the repository's source *)

(** The [config] module: secrets, lifetimes (seconds) and the bcrypt cost. *)
Record Config := {
  jwt_secret : string;
  jwt_expiresIn : Z;
  jwt_refreshSecret : string;
  jwt_refreshExpiresIn : Z;
  bcryptRounds : Z;
  cookie_maxAge : Z
}.

(** The payload [jwt.verify] returns: the subject and the issue and expiry
    times in seconds. *)
Record Payload := {
  payload_id : string;
  iat : Z;
  exp : Z
}.

(** - [jwt_sign id secret expiresIn now] is
      [jwt.sign({ id }, secret, { expiresIn })] when the clock reads [now];
    - [jwt_verify token secret now] is [jwt.verify(token, secret)], [None]
      when it throws;
    - [bcrypt_hash], [bcrypt_compare] and [sha256] are the digests;
    - [newObjectId] is the identifier MongoDB gives a new document;
    - the [_pattern] fields are the [match] regular expressions of the
      schema;
    - [toLowerCase] and [trim] are the string methods of these names, which
      the schema options [lowercase: true] and [trim: true] install as
      setters. *)
Record Env := {
  config : Config;
  jwt_sign : string -> string -> Z -> Z -> string;
  jwt_verify : string -> string -> Z -> option Payload;
  bcrypt_hash : string -> Z -> string;
  bcrypt_compare : string -> string -> bool;
  sha256 : string -> string;
  newObjectId : list User -> string;
  email_pattern : string -> bool;
  username_pattern : string -> bool;
  website_pattern : string -> bool;
  phone_pattern : string -> bool;
  toLowerCase : string -> string;
  trim : string -> string
}.

(** ** Errors, requests and replies *)

(** What reaches [next(err)]: an [ApiError] built by a handler, or an
    exception of a library that [catchAsync] forwards. *)
Inductive Err :=
| ApiError (statusCode : Z) (message : string)
| Thrown (name : string) (message : string).

(** ** Mongoose documents *)

(** The paths the authentication code assigns on a document. *)
Inductive Path :=
| p_password
| p_passwordConfirm
| p_passwordChangedAt
| p_passwordResetToken
| p_passwordResetExpires
| p_emailVerificationToken
| p_emailVerified
| p_emailVerificationExpires
| p_lastLogin
| p_refreshTokens.

Definition Path_eq_dec (p q : Path) : {p = q} + {p <> q}.
Proof. decide equality. Defined.

(** A document: the loaded values, the paths assigned since, whether it has
    never been saved, and whether the query selected [password] (which is
    [select: false] in the schema). *)
Record Doc := {
  fields : User;
  modifiedPaths : list Path;
  isNew : bool;
  selectedPassword : bool
}.

Definition isModified (p : Path) (d : Doc) : bool :=
  if in_dec Path_eq_dec p (modifiedPaths d) then true else false.

(** [doc.path = value], the value being new to the path, which is thereby
    marked as modified.  A selected path that receives the value it already
    holds is not marked: see [assign_password] and [assign_refreshTokens]
    below. *)
Definition assign (p : Path) (f : User -> User) (d : Doc) : Doc :=
  {| fields := f (fields d);
     modifiedPaths := p :: modifiedPaths d;
     isNew := isNew d;
     selectedPassword := selectedPassword d |}.

(** [doc.password = value]: a selected path that receives the value it
    already holds is not marked as modified. *)
Definition assign_password (v : string) (d : Doc) : Doc :=
  if selectedPassword d && (password (fields d) =? v)%string then d
  else assign p_password (set_password v) d.

(** Equality of two lists of stored refresh tokens. *)
Fixpoint sameEntries (xs ys : list RefreshEntry) : bool :=
  match xs, ys with
  | [], [] => true
  | x :: xs', y :: ys' =>
      (token x =? token y)%string && (createdAt x =? createdAt y)
      && sameEntries xs' ys'
  | _, _ => false
  end.

(** [doc.refreshTokens = value]: an array equal to the one the document
    holds does not mark the path as modified. *)
Definition assign_refreshTokens (v : list RefreshEntry) (d : Doc) : Doc :=
  if sameEntries v (refreshTokens (fields d)) then d
  else assign p_refreshTokens (set_refreshTokens v) d.

(** The value a query hands to the handler.  Without [+password] the
    document carries no password. *)
Definition hydrate (withPassword : bool) (u : User) : Doc :=
  {| fields := if withPassword then u else set_password "" u;
     modifiedPaths := [];
     isNew := false;
     selectedPassword := withPassword |}.

(** Copies one path of the document into the stored record. *)
Definition writePath (d : User) (p : Path) (stored : User) : User :=
  match p with
  | p_password => set_password (password d) stored
  | p_passwordConfirm => set_passwordConfirm (passwordConfirm d) stored
  | p_passwordChangedAt => set_passwordChangedAt (passwordChangedAt d) stored
  | p_passwordResetToken => set_passwordResetToken (passwordResetToken d) stored
  | p_passwordResetExpires =>
      set_passwordResetExpires (passwordResetExpires d) stored
  | p_emailVerificationToken =>
      set_emailVerificationToken (emailVerificationToken d) stored
  | p_emailVerified => set_emailVerified (emailVerified d) stored
  | p_emailVerificationExpires =>
      set_emailVerificationExpires (emailVerificationExpires d) stored
  | p_lastLogin => set_lastLogin (lastLogin d) stored
  | p_refreshTokens => set_refreshTokens (refreshTokens d) stored
  end.

(** ** The collection *)

Definition Db := list User.

(** [userSchema.pre(/^find/)]: every find query also requires
    [active: { $ne: false }]. *)
Definition preFind (q : User -> bool) (u : User) : bool :=
  q u && negb (Bool.eqb (active u) false).

Definition findOne (q : User -> bool) (db : Db) : option User :=
  find (preFind q) db.

Definition findById (id : string) (db : Db) : option User :=
  findOne (fun u => (_id u =? id)%string) db.

(** An update addressed by [_id]; update queries do not run the find hook. *)
Definition updateById (id : string) (f : User -> User) (db : Db) : Db :=
  map (fun x => if (_id x =? id)%string then f x else x) db.

(** [doc.updateOne(update)]; with [timestamps: true] Mongoose adds
    [$set: { updatedAt }] to the update. *)
Definition updateOne (d : Doc) (f : User -> User) (now : Z) (db : Db) : Db :=
  updateById (_id (fields d)) (fun x => set_updatedAt now (f x)) db.

(** The bookkeeping a save adds to its update: [updatedAt] becomes the
    clock, and the version key grows by one when the array [refreshTokens]
    is among the modified paths. *)
Definition stamp (d : Doc) (now : Z) (x : User) : User :=
  let x1 := set_updatedAt now x in
  if isModified p_refreshTokens d then set___v (__v x1 + 1) x1 else x1.

(** The write of a saved document: its modified paths and the bookkeeping,
    nothing else. *)
Definition writeBack (d : Doc) (now : Z) (db : Db) : Db :=
  updateById (_id (fields d))
    (fun x =>
       stamp d now (fold_right (writePath (fields d)) x (modifiedPaths d)))
    db.

(** ** Schema validation *)

Definition required (s : string) : bool := Js.truthy s.

Definition maxlength (n : nat) (s : string) : bool :=
  (String.length s <=? n)%nat.

Definition minlength (n : nat) (s : string) : bool :=
  (n <=? String.length s)%nat.

(** Validators other than [required] are skipped on an absent value. *)
Definition absent_or (s : string) (b : bool) : bool := (s =? "")%string || b.

Definition one_of (xs : list string) (s : string) : bool :=
  existsb (String.eqb s) xs.

Section Model.

Variable E : Env.

(** The setters of the schema's string paths.  Mongoose applies them to the
    values a document receives and to the values of a query filter; a value
    that is absent is left alone.  [email] has [lowercase: true] and
    [trim: true]; [firstName], [lastName] and [username] have
    [trim: true]. *)
Definition castEmail (s : string) : string :=
  if Js.truthy s then toLowerCase E (trim E s) else s.

Definition castName (s : string) : string :=
  if Js.truthy s then trim E s else s.

(** The filter [{ email }] of a query, after casting. *)
Definition byEmail (given : string) (u : User) : bool :=
  (email u =? castEmail given)%string.

(** The validators of the paths the authentication code never assigns. *)
Definition fieldsValid (u : User) : bool :=
  required (firstName u) && maxlength 50 (firstName u)
  && required (lastName u) && maxlength 50 (lastName u)
  && required (email u) && email_pattern E (email u)
  && absent_or (username u)
       (minlength 3 (username u) && maxlength 30 (username u)
        && username_pattern E (username u))
  && one_of ["user"; "admin"; "moderator"] (role u)
  && one_of ["light"; "dark"; "auto"] (theme (preferences u))
  && absent_or (bio (profile u)) (maxlength 500 (bio (profile u)))
  && absent_or (website (profile u)) (website_pattern E (website (profile u)))
  && absent_or (location (profile u)) (maxlength 100 (location (profile u)))
  && absent_or (phone (profile u)) (phone_pattern E (phone (profile u))).

(** The validators of [password] (run when the path is selected or
    modified) and of [passwordConfirm]. *)
Definition passwordValid (d : Doc) : bool :=
  let u := fields d in
  (if selectedPassword d || isModified p_password d
   then required (password u) && minlength 8 (password u)
   else true)
  && required (passwordConfirm u)
  && (passwordConfirm u =? password u)%string.

(** The validators of the schema, as [save()] runs them on a document. *)
Definition validate (d : Doc) : bool :=
  fieldsValid (fields d) && passwordValid d.

(** ** Save middleware *)

(** First [pre('save')] hook: hash a modified password. *)
Definition preSave_hash (d : Doc) : Err + Doc :=
  if negb (isModified p_password d) then inr d
  else if negb (Js.truthy (password (fields d)))
  then inl (Thrown "Error" "Password is required")
  else
    let hashed :=
      bcrypt_hash E (password (fields d)) (bcryptRounds (config E)) in
    inr (assign p_passwordConfirm (set_passwordConfirm "")
           (assign p_password (set_password hashed) d)).

(** Second [pre('save')] hook: stamp [passwordChangedAt]. *)
Definition preSave_changedAt (now : Z) (d : Doc) : Doc :=
  if negb (isModified p_password d) || isNew d then d
  else assign p_passwordChangedAt
         (set_passwordChangedAt (Some (now - 1000))) d.

(** The document after a successful save. *)
Definition saved (d : Doc) : Doc :=
  {| fields := fields d;
     modifiedPaths := [];
     isNew := false;
     selectedPassword := selectedPassword d |}.

(** The document after the save of an update: the bookkeeping is applied to
    the document as well. *)
Definition updated (now : Z) (d : Doc) : Doc :=
  {| fields := stamp d now (fields d);
     modifiedPaths := [];
     isNew := false;
     selectedPassword := selectedPassword d |}.

(** The unique indexes on [email] and [username]. *)
Definition duplicateKey (u : User) (db : Db) : bool :=
  existsb (fun x => (email x =? email u)%string
                    || (username x =? username u)%string) db.

(** [doc.save({ validateBeforeSave })]: validation, the two hooks, then
    the insert of a new document or the write of the modified paths.  A
    loaded document without a modified path sends no update. *)
Definition save (validateBeforeSave : bool) (d : Doc) (now : Z) (db : Db)
  : Err + (Doc * Db) :=
  if validateBeforeSave && negb (validate d)
  then inl (Thrown "ValidationError" "User validation failed")
  else
    match preSave_hash d with
    | inl e => inl e
    | inr d1 =>
        let d2 := preSave_changedAt now d1 in
        if isNew d2 then
          if duplicateKey (fields d2) db
          then inl (Thrown "MongoServerError" "E11000 duplicate key error")
          else inr (saved d2, (db ++ [fields d2])%list)
        else
          match modifiedPaths d2 with
          | [] => inr (d2, db)
          | _ :: _ => inr (updated now d2, writeBack d2 now db)
          end
    end.

(** ** Instance methods *)

(** The [isLocked] virtual. *)
Definition isLocked (u : User) (now : Z) : bool :=
  match lockUntil u with
  | Some l => now <? l
  | None => false
  end.

Definition correctPassword (candidatePassword userPassword : string) : bool :=
  bcrypt_compare E candidatePassword userPassword.

Definition changedPasswordAfter (u : User) (JWTTimestamp : Z) : bool :=
  match passwordChangedAt u with
  | Some changed =>
      let changedTimestamp := Js.parseInt_div changed 1000 in
      JWTTimestamp <? changedTimestamp
  | None => false
  end.

(** [random] is the hexadecimal string of [crypto.randomBytes(32)]. *)
Definition createPasswordResetToken (random : string) (now : Z) (d : Doc)
  : string * Doc :=
  let resetToken := random in
  let d1 := assign p_passwordResetToken
              (set_passwordResetToken (Some (sha256 E resetToken))) d in
  let d2 := assign p_passwordResetExpires
              (set_passwordResetExpires (Some (now + 10 * 60 * 1000))) d1 in
  (resetToken, d2).

Definition createEmailVerificationToken (random : string) (now : Z) (d : Doc)
  : string * Doc :=
  let verificationToken := random in
  let d1 := assign p_emailVerificationToken
              (set_emailVerificationToken
                 (Some (sha256 E verificationToken))) d in
  let d2 := assign p_emailVerificationExpires
              (set_emailVerificationExpires
                 (Some (now + 24 * 60 * 60 * 1000))) d1 in
  (verificationToken, d2).

(** The update [incLoginAttempts] builds from the document: restart at 1
    after an expired lock, else [$inc] and, from the fifth failure on an
    unlocked account, [$set] the lock. *)
Definition loginAttemptsUpdate (u : User) (now : Z) : User -> User :=
  let expired :=
    match lockUntil u with
    | Some l => l <? now
    | None => false
    end in
  if expired then
    fun x => set_loginAttempts 1 (set_lockUntil None x)
  else
    let inc x := set_loginAttempts (loginAttempts x + 1) x in
    if (5 <=? loginAttempts u + 1) && negb (isLocked u now)
    then fun x => set_lockUntil (Some (now + 2 * 60 * 60 * 1000)) (inc x)
    else inc.

Definition incLoginAttempts (d : Doc) (now : Z) (db : Db) : Db :=
  updateOne d (loginAttemptsUpdate (fields d) now) now db.

Definition resetLoginAttempts (d : Doc) (now : Z) (db : Db) : Db :=
  updateOne d (fun x => set_loginAttempts 0 (set_lockUntil None x)) now db.

End Model.

(** ** Requests and replies *)

(** The fields of [req.body] the handlers read; an absent field is the
    empty string. *)
Record Body := {
  body_firstName : string;
  body_lastName : string;
  body_email : string;
  body_username : string;
  body_password : string;
  body_passwordConfirm : string;
  body_passwordCurrent : string
}.

Record Request := {
  headers_authorization : option string;
  cookies_jwt : option string;
  cookies_refreshToken : option string;
  params_token : string;
  body : Body;
  user : option Doc
}.

(** [req.user = value]. *)
Definition set_user (v : option Doc) (req : Request) : Request :=
  {| headers_authorization := headers_authorization req;
     cookies_jwt := cookies_jwt req;
     cookies_refreshToken := cookies_refreshToken req;
     params_token := params_token req;
     body := body req;
     user := v |}.

(** The JSON bodies of the authentication routes.  The user projection of
    [createSendToken] is represented by the identifier. *)
Inductive JsonBody :=
| TokenBody (accessToken refreshToken userId : string)
| MessageBody (status message : string).

(** How a middleware or handler ends: [next()], [next(err)], or a response
    with its status code, the cookies it sets and its body. *)
Inductive Reply :=
| Next (req : Request)
| NextErr (e : Err)
| Json (statusCode : Z) (cookies : list (string * string)) (json : JsonBody).

Section Handlers.

Variable E : Env.

(** ** Token issuer ([authController.js]) *)

Definition signToken (id : string) (now : Z) : string :=
  jwt_sign E id (jwt_secret (config E)) (jwt_expiresIn (config E)) now.

Definition signRefreshToken (id : string) (now : Z) : string :=
  jwt_sign E id (jwt_refreshSecret (config E))
    (jwt_refreshExpiresIn (config E)) now.

(** The bookkeeping of [createSendToken]: push, then keep the last five. *)
Definition pushRefreshToken (e : RefreshEntry) (rts : list RefreshEntry)
  : list RefreshEntry :=
  let pushed := (rts ++ [e])%list in
  if (5 <? List.length pushed)%nat then Js.slice_last 5 pushed else pushed.

(** The save of [createSendToken] is not awaited: the response is sent
    whatever becomes of it. *)
Definition createSendToken (u : Doc) (statusCode : Z) (now : Z) (db : Db)
  : Db * Reply :=
  let accessToken := signToken (_id (fields u)) now in
  let refreshToken := signRefreshToken (_id (fields u)) now in
  let entry := {| token := refreshToken; createdAt := now |} in
  let u1 := assign p_refreshTokens
              (fun x => set_refreshTokens
                          (pushRefreshToken entry (refreshTokens x)) x) u in
  let db1 := match save E false u1 now db with
             | inr (_, db') => db'
             | inl _ => db
             end in
  (db1,
   Json statusCode
     [("jwt", accessToken); ("refreshToken", refreshToken)]
     (TokenBody accessToken refreshToken (_id (fields u)))).

(** ** Session guard ([middleware/auth.js]) *)

(** Step 1 of [protect] and [optionalAuth]: the bearer header, else the
    [jwt] cookie.  [None] is [undefined]. *)
Definition extractToken (req : Request) : option string :=
  let fromCookie :=
    if Js.truthy_opt (cookies_jwt req) then cookies_jwt req else None in
  match headers_authorization req with
  | Some h =>
      if Js.truthy h && Js.startsWith h "Bearer"
      then Js.index (Js.split " "%char h) 1
      else fromCookie
  | None => fromCookie
  end.

Definition protect (db : Db) (now : Z) (req : Request) : Reply :=
  let token := extractToken req in
  if negb (Js.truthy_opt token) then
    NextErr (ApiError 401
      "You are not logged in! Please log in to get access.")
  else
    match jwt_verify E (match token with Some t => t | None => "" end)
            (jwt_secret (config E)) now with
    | None => NextErr (Thrown "JsonWebTokenError" "jwt.verify")
    | Some decoded =>
        match findById (payload_id decoded) db with
        | None =>
            NextErr (ApiError 401
              "The user belonging to this token does no longer exist.")
        | Some stored =>
            let currentUser := hydrate false stored in
            if changedPasswordAfter (fields currentUser) (iat decoded) then
              NextErr (ApiError 401
                "User recently changed password! Please log in again.")
            else if negb (active (fields currentUser)) then
              NextErr (ApiError 401
                "Your account has been deactivated. Please contact support.")
            else Next (set_user (Some currentUser) req)
        end
    end.

Definition restrictTo (roles : list string) (req : Request) : Reply :=
  match user req with
  | None => NextErr (Thrown "TypeError" "req.user is undefined")
  | Some u =>
      if negb (existsb (String.eqb (role (fields u))) roles) then
        NextErr (ApiError 403
          "You do not have permission to perform this action")
      else Next req
  end.

Definition isLoggedIn (db : Db) (now : Z) (req : Request) : Reply :=
  if Js.truthy_opt (cookies_jwt req) then
    match jwt_verify E (match cookies_jwt req with Some t => t | None => "" end)
            (jwt_secret (config E)) now with
    | None => Next req
    | Some decoded =>
        match findById (payload_id decoded) db with
        | None => Next req
        | Some stored =>
            let currentUser := hydrate false stored in
            if changedPasswordAfter (fields currentUser) (iat decoded)
            then Next req
            else Next (set_user (Some currentUser) req)
        end
    end
  else Next req.

Definition optionalAuth (db : Db) (now : Z) (req : Request) : Reply :=
  let token := extractToken req in
  if Js.truthy_opt token then
    match jwt_verify E (match token with Some t => t | None => "" end)
            (jwt_secret (config E)) now with
    | None => Next (set_user None req)
    | Some decoded =>
        match findById (payload_id decoded) db with
        | Some stored =>
            let currentUser := hydrate false stored in
            if active (fields currentUser)
               && negb (changedPasswordAfter (fields currentUser)
                          (iat decoded))
            then Next (set_user (Some currentUser) req)
            else Next req
        | None => Next req
        end
    end
  else Next req.

(** ** Controllers ([authController.js]) *)

(** The document [User.create] builds from the request body: the values
    pass the setters of their paths, the other paths take the schema
    defaults, and the timestamps of the first save are the clock. *)
Definition newUser (b : Body) (now : Z) (db : Db) : Doc :=
  {| fields :=
       {| _id := newObjectId E db;
          firstName := castName E (body_firstName b);
          lastName := castName E (body_lastName b);
          email := castEmail E (body_email b);
          username := castName E (body_username b);
          avatar := None;
          role := "user";
          password := body_password b;
          passwordConfirm := body_passwordConfirm b;
          passwordChangedAt := Some now;
          passwordResetToken := None;
          passwordResetExpires := None;
          emailVerificationToken := None;
          emailVerified := false;
          emailVerificationExpires := None;
          active := true;
          lastLogin := None;
          loginAttempts := 0;
          lockUntil := None;
          refreshTokens := [];
          preferences :=
            {| notifications := {| notif_email := true; notif_push := true |};
               theme := "auto";
               language := "en" |};
          profile :=
            {| bio := ""; website := ""; location := "";
               dateOfBirth := None; phone := "" |};
          user_createdAt := now;
          updatedAt := now;
          __v := 0 |};
     modifiedPaths := [p_password; p_passwordConfirm];
     isNew := true;
     selectedPassword := true |}.

Definition signup (random : string) (db : Db) (now : Z) (req : Request)
  : Db * Reply :=
  let b := body req in
  let existingUser :=
    findOne (fun u => byEmail E (body_email b) u
                      || (username u =? castName E (body_username b))%string)
      db in
  match existingUser with
  | Some existing =>
      let field :=
        if (email existing =? body_email b)%string
        then "email" else "username" in
      (db, NextErr (ApiError 400
             ("User with this " ++ field ++ " already exists")))
  | None =>
      match save E true (newUser b now db) now db with
      | inl e => (db, NextErr e)
      | inr (created, db1) =>
          let (verifyToken, d1) :=
            createEmailVerificationToken E random now created in
          match save E false d1 now db1 with
          | inl e => (db1, NextErr e)
          | inr (d2, db2) => createSendToken d2 201 now db2
          end
      end
  end.

Definition login (db : Db) (now : Z) (req : Request) : Db * Reply :=
  let b := body req in
  if negb (Js.truthy (body_email b)) || negb (Js.truthy (body_password b))
  then (db, NextErr (ApiError 400 "Please provide email and password!"))
  else
    let found :=
      option_map (hydrate true) (findOne (byEmail E (body_email b)) db) in
    if match found with
       | Some u => isLocked (fields u) now
       | None => false
       end
    then
      (db, NextErr (ApiError 423
         "Account temporarily locked due to too many failed login attempts"))
    else
      match found with
      | None => (db, NextErr (ApiError 401 "Incorrect email or password"))
      | Some u =>
          if negb (correctPassword E (body_password b) (password (fields u)))
          then (incLoginAttempts u now db,
                NextErr (ApiError 401 "Incorrect email or password"))
          else
            let db1 := resetLoginAttempts u now db in
            let u1 := assign p_lastLogin (set_lastLogin (Some now)) u in
            match save E false u1 now db1 with
            | inl e => (db1, NextErr e)
            | inr (u2, db2) => createSendToken u2 200 now db2
            end
      end.

Definition loggedOut : Reply :=
  Json 200 [("jwt", "loggedout"); ("refreshToken", "loggedout")]
    (MessageBody "success" "Logged out successfully").

Definition logout (db : Db) (now : Z) (req : Request) : Db * Reply :=
  match cookies_refreshToken req, user req with
  | Some refreshToken, Some u =>
      if Js.truthy refreshToken then
        let u1 :=
          assign_refreshTokens
            (filter (fun tokenObj =>
                       negb (token tokenObj =? refreshToken)%string)
               (refreshTokens (fields u))) u in
        match save E false u1 now db with
        | inl e => (db, NextErr e)
        | inr (_, db1) => (db1, loggedOut)
        end
      else (db, loggedOut)
  | _, _ => (db, loggedOut)
  end.

Definition refreshToken (db : Db) (now : Z) (req : Request) : Db * Reply :=
  match cookies_refreshToken req with
  | None => (db, NextErr (ApiError 401 "No refresh token provided"))
  | Some presented =>
      if negb (Js.truthy presented)
      then (db, NextErr (ApiError 401 "No refresh token provided"))
      else
        match jwt_verify E presented (jwt_refreshSecret (config E)) now with
        | None => (db, NextErr (Thrown "JsonWebTokenError" "jwt.verify"))
        | Some decoded =>
            match option_map (hydrate false)
                    (findById (payload_id decoded) db) with
            | None => (db, NextErr (ApiError 401 "Invalid refresh token"))
            | Some u =>
                let tokenExists :=
                  existsb (fun tokenObj =>
                             (token tokenObj =? presented)%string)
                    (refreshTokens (fields u)) in
                if negb tokenExists
                then (db, NextErr (ApiError 401 "Invalid refresh token"))
                else createSendToken u 200 now db
            end
        end
  end.

Definition forgotPassword (random : string) (db : Db) (now : Z)
  (req : Request) : Db * Reply :=
  match option_map (hydrate false)
          (findOne (byEmail E (body_email (body req))) db)
  with
  | None =>
      (db, NextErr (ApiError 404 "There is no user with that email address."))
  | Some u =>
      let (resetToken, u1) := createPasswordResetToken E random now u in
      match save E false u1 now db with
      | inl e => (db, NextErr e)
      | inr (_, db1) =>
          (db1, Json 200 [] (MessageBody "success" "Token sent to email!"))
      end
  end.

(** The query of [resetPassword]: the stored hash equals the digest of the
    presented token and the expiry is later than the clock. *)
Definition resetQuery (hashedToken : string) (now : Z) (u : User) : bool :=
  match passwordResetToken u, passwordResetExpires u with
  | Some h, Some e => (h =? hashedToken)%string && (now <? e)
  | _, _ => false
  end.

Definition resetPassword (db : Db) (now : Z) (req : Request) : Db * Reply :=
  let hashedToken := sha256 E (params_token req) in
  match option_map (hydrate false) (findOne (resetQuery hashedToken now) db)
  with
  | None => (db, NextErr (ApiError 400 "Token is invalid or has expired"))
  | Some u =>
      let u1 := assign_password (body_password (body req)) u in
      let u2 := assign p_passwordConfirm
                  (set_passwordConfirm (body_passwordConfirm (body req))) u1 in
      let u3 := assign p_passwordResetToken (set_passwordResetToken None) u2 in
      let u4 := assign p_passwordResetExpires
                  (set_passwordResetExpires None) u3 in
      match save E true u4 now db with
      | inl e => (db, NextErr e)
      | inr (u5, db1) => createSendToken u5 200 now db1
      end
  end.

Definition updatePassword (db : Db) (now : Z) (req : Request) : Db * Reply :=
  match user req with
  | None => (db, NextErr (Thrown "TypeError" "req.user is undefined"))
  | Some authenticated =>
      match option_map (hydrate true)
              (findById (_id (fields authenticated)) db) with
      | None => (db, NextErr (Thrown "TypeError" "user is null"))
      | Some u =>
          if negb (correctPassword E (body_passwordCurrent (body req))
                     (password (fields u)))
          then (db, NextErr (ApiError 401 "Your current password is wrong."))
          else
            let u1 := assign_password (body_password (body req)) u in
            let u2 := assign p_passwordConfirm
                        (set_passwordConfirm
                           (body_passwordConfirm (body req))) u1 in
            match save E true u2 now db with
            | inl e => (db, NextErr e)
            | inr (u3, db1) => createSendToken u3 200 now db1
            end
      end
  end.

Definition verifyQuery (hashedToken : string) (now : Z) (u : User) : bool :=
  match emailVerificationToken u, emailVerificationExpires u with
  | Some h, Some e => (h =? hashedToken)%string && (now <? e)
  | _, _ => false
  end.

Definition verifyEmail (db : Db) (now : Z) (req : Request) : Db * Reply :=
  let hashedToken := sha256 E (params_token req) in
  match option_map (hydrate false) (findOne (verifyQuery hashedToken now) db)
  with
  | None => (db, NextErr (ApiError 400 "Token is invalid or has expired"))
  | Some u =>
      let u1 := assign p_emailVerified (set_emailVerified true) u in
      let u2 := assign p_emailVerificationToken
                  (set_emailVerificationToken None) u1 in
      let u3 := assign p_emailVerificationExpires
                  (set_emailVerificationExpires None) u2 in
      match save E false u3 now db with
      | inl e => (db, NextErr e)
      | inr (_, db1) =>
          (db1,
           Json 200 [] (MessageBody "success" "Email verified successfully!"))
      end
  end.

(** [deleteMe] of the user controller: [findByIdAndUpdate] is a find
    query, so the hook applies to it; with [timestamps: true] the update
    also sets [updatedAt]. *)
Definition deleteMe (db : Db) (now : Z) (req : Request) : Db * Reply :=
  match user req with
  | None => (db, NextErr (Thrown "TypeError" "req.user is undefined"))
  | Some authenticated =>
      let db1 :=
        match findById (_id (fields authenticated)) db with
        | Some found =>
            updateById (_id (fields authenticated))
              (fun x => set_updatedAt now (set_active false x)) db
        | None => db
        end in
      (db1, Json 204 [] (MessageBody "success" ""))
  end.

(** ** Routes ([routes/auth.js], [routes/users.js]) *)

(** [router.use(protect)]: the handler runs on the request [protect]
    passes on. *)
Definition protected (handler : Db -> Z -> Request -> Db * Reply)
  (db : Db) (now : Z) (req : Request) : Db * Reply :=
  match protect db now req with
  | Next req' => handler db now req'
  | r => (db, r)
  end.

(** One call of an authentication route; [random] is what
    [crypto.randomBytes] yields during the call. *)
Inductive Call :=
| PostSignup (random : string)
| PostLogin
| PostForgotPassword (random : string)
| PatchResetPassword
| GetVerifyEmail
| PostRefreshToken
| PostLogout
| PatchUpdatePassword
| DeleteMe.

Definition route (c : Call) : Db -> Z -> Request -> Db * Reply :=
  match c with
  | PostSignup random => signup random
  | PostLogin => login
  | PostForgotPassword random => forgotPassword random
  | PatchResetPassword => resetPassword
  | GetVerifyEmail => verifyEmail
  | PostRefreshToken => refreshToken
  | PostLogout => protected logout
  | PatchUpdatePassword => protected updatePassword
  | DeleteMe => protected deleteMe
  end.

(** The collection after a sequence of calls, each at its own time. *)
Fixpoint run (calls : list (Call * Z * Request)) (db : Db) : Db :=
  match calls with
  | [] => db
  | (c, now, req) :: rest => run rest (fst (route c db now req))
  end.

End Handlers.

(** ** A concrete environment for scenarios *)

Module Demo.

(** A printable stand-in for a signed token: the secret, the subject and
    the issue second. *)
Definition sign (id secret : string) (expiresIn now : Z) : string :=
  secret ++ "." ++ id ++ "."
  ++ DecimalString.NilZero.string_of_int (Z.to_int (now / 1000)).

(** The subjects and issue times (ms) of the tokens the scenarios use. *)
Definition issued : list (string * Z) :=
  [("u1", 5000); ("u1", 3000); ("u2", 5000); ("u9", 5000); ("id0", 1000)].

Definition lifetime : Z := 7 * 24 * 60 * 60.

(** Verification recognises the tokens of [issued] signed with the given
    secret and not yet expired. *)
Definition verify (tok secret : string) (now : Z) : option Payload :=
  match find (fun '(id, t0) => (tok =? sign id secret lifetime t0)%string)
          issued with
  | Some (id, t0) =>
      if now / 1000 <? t0 / 1000 + lifetime
      then Some {| payload_id := id; iat := t0 / 1000;
                   exp := t0 / 1000 + lifetime |}
      else None
  | None => None
  end.

Definition contains (c : ascii) (s : string) : bool :=
  existsb (Ascii.eqb c) (list_ascii_of_string s).

(** Lower case and trimming on ASCII strings. *)
Definition lower (c : ascii) : ascii :=
  let n := nat_of_ascii c in
  if ((65 <=? n) && (n <=? 90))%nat then ascii_of_nat (n + 32) else c.

Definition lowerCase (s : string) : string :=
  string_of_list_ascii (map lower (list_ascii_of_string s)).

Definition isSpace (c : ascii) : bool :=
  let n := nat_of_ascii c in
  ((n =? 32) || ((9 <=? n) && (n <=? 13)))%nat.

Fixpoint dropSpaces (cs : list ascii) : list ascii :=
  match cs with
  | c :: rest => if isSpace c then dropSpaces rest else cs
  | [] => []
  end.

Definition trimSpaces (s : string) : string :=
  string_of_list_ascii
    (rev (dropSpaces (rev (dropSpaces (list_ascii_of_string s))))).

Definition env : Env :=
  {| config :=
       {| jwt_secret := "access";
          jwt_expiresIn := lifetime;
          jwt_refreshSecret := "refresh";
          jwt_refreshExpiresIn := lifetime;
          bcryptRounds := 12;
          cookie_maxAge := 24 * 60 * 60 * 1000 |};
     jwt_sign := sign;
     jwt_verify := verify;
     bcrypt_hash := fun p _ => "$2a$12$" ++ p;
     bcrypt_compare := fun p h => (h =? "$2a$12$" ++ p)%string;
     sha256 := fun s => "sha256:" ++ s;
     newObjectId := fun db =>
       "id" ++ DecimalString.NilZero.string_of_int
                 (Z.to_int (Z.of_nat (List.length db)));
     email_pattern := contains "@";
     username_pattern := fun _ => true;
     website_pattern := fun _ => true;
     phone_pattern := fun _ => true;
     toLowerCase := lowerCase;
     trim := trimSpaces |}.

(** A registered, active user whose password is [Secret123!]. *)
Definition alice : User :=
  {| _id := "u1";
     firstName := "A";
     lastName := "B";
     email := "a@b.com";
     username := "ab1";
     avatar := None;
     role := "user";
     password := "$2a$12$Secret123!";
     passwordConfirm := "";
     passwordChangedAt := Some 0;
     passwordResetToken := None;
     passwordResetExpires := None;
     emailVerificationToken := None;
     emailVerified := false;
     emailVerificationExpires := None;
     active := true;
     lastLogin := None;
     loginAttempts := 0;
     lockUntil := None;
     refreshTokens := [];
     preferences :=
       {| notifications := {| notif_email := true; notif_push := true |};
          theme := "auto";
          language := "en" |};
     profile :=
       {| bio := ""; website := ""; location := "";
          dateOfBirth := None; phone := "" |};
     user_createdAt := 0;
     updatedAt := 0;
     __v := 0 |}.

(** [alice] after four failed logins. *)
Definition alice4 : User := set_loginAttempts 4 alice.

(** [alice] while a lock is running until 9000000. *)
Definition aliceLocked : User := set_lockUntil (Some 9000000) alice.

(** [alice] after forgot-password drew the token [plain] at time 100000. *)
Definition aliceReset : User :=
  set_passwordResetExpires (Some 700000)
    (set_passwordResetToken (Some "sha256:plain") alice).

(** [alice] with five sessions open. *)
Definition aliceFive : User :=
  set_refreshTokens
    [{| token := "refresh.u1.1"; createdAt := 1000 |};
     {| token := "refresh.u1.2"; createdAt := 2000 |};
     {| token := "refresh.u1.3"; createdAt := 3000 |};
     {| token := "refresh.u1.4"; createdAt := 4000 |};
     {| token := "refresh.u1.5"; createdAt := 5000 |}] alice.

(** [alice] with two sessions open. *)
Definition aliceSessions : User :=
  set_refreshTokens
    [{| token := "refresh.u1.3"; createdAt := 3000 |};
     {| token := "refresh.u1.5"; createdAt := 5000 |}] alice.

Definition noBody : Body :=
  {| body_firstName := ""; body_lastName := ""; body_email := "";
     body_username := ""; body_password := ""; body_passwordConfirm := "";
     body_passwordCurrent := "" |}.

Definition credentials (e p : string) : Body :=
  {| body_firstName := ""; body_lastName := ""; body_email := e;
     body_username := ""; body_password := p; body_passwordConfirm := "";
     body_passwordCurrent := "" |}.

Definition newPassword (current p : string) : Body :=
  {| body_firstName := ""; body_lastName := ""; body_email := "";
     body_username := ""; body_password := p; body_passwordConfirm := p;
     body_passwordCurrent := current |}.

Definition request (b : Body) : Request :=
  {| headers_authorization := None; cookies_jwt := None;
     cookies_refreshToken := None; params_token := ""; body := b;
     user := None |}.

Definition bearer (tok : string) (b : Body) : Request :=
  {| headers_authorization := Some ("Bearer " ++ tok); cookies_jwt := None;
     cookies_refreshToken := None; params_token := ""; body := b;
     user := None |}.

Definition withRefreshCookie (tok : string) (req : Request) : Request :=
  {| headers_authorization := headers_authorization req;
     cookies_jwt := cookies_jwt req;
     cookies_refreshToken := Some tok;
     params_token := params_token req;
     body := body req;
     user := user req |}.

Definition withParam (tok : string) (req : Request) : Request :=
  {| headers_authorization := headers_authorization req;
     cookies_jwt := cookies_jwt req;
     cookies_refreshToken := cookies_refreshToken req;
     params_token := tok;
     body := body req;
     user := user req |}.

End Demo.

(** * Specification vocabulary *)

(** A login request that supplies an e-mail the query casts to [e], and a
    password that does not match the stored hash [h]. *)
Definition wrongPassword (E : Env) (e h : string) (req : Request) : Prop :=
  body_email (body req) <> ""
  /\ castEmail E (body_email (body req)) = e
  /\ body_password (body req) <> ""
  /\ correctPassword E (body_password (body req)) h = false.

(** The calls of a sequence of login attempts. *)
Definition loginCalls (attempts : list (Z * Request))
  : list (Call * Z * Request) :=
  map (fun a => (PostLogin, fst a, snd a)) attempts.

(** A record holds at most five refresh tokens. *)
Definition capped (u : User) : Prop :=
  (List.length (refreshTokens u) <= 5)%nat.

(** Every record of the collection is [capped]. *)
Definition bounded (db : Db) : Prop := Forall capped db.

(** The document the two save hooks produce from a modified password. *)
Definition passwordSaved (E : Env) (now : Z) (d : Doc) : Doc :=
  assign p_passwordChangedAt (set_passwordChangedAt (Some (now - 1000)))
    (assign p_passwordConfirm (set_passwordConfirm "")
       (assign p_password
          (set_password
             (bcrypt_hash E (password (fields d)) (bcryptRounds (config E))))
          d)).

(** What a successful password change leaves in every stored record that
    carries the identifier. *)
Definition passwordChanged (E : Env) (newPassword : string) (now : Z)
  (F : User -> User) : Prop :=
  forall x,
    _id (F x) = _id x
    /\ active (F x) = active x
    /\ password (F x) = bcrypt_hash E newPassword (bcryptRounds (config E))
    /\ passwordChangedAt (F x) = Some (now - 1000)
    /\ passwordConfirm (F x) = "".

(** How the session guard answers an old token once the password has been
    changed by a save at [changed]: rejected when the issue second lies
    before the second of [changed - 1000], which covers every token issued
    two seconds or more before the change; accepted otherwise. *)
Definition guardAfterChange (E : Env) (db' : Db) (changed now : Z)
  (req : Request) (decoded : Payload) : Prop :=
  (iat decoded < Z.quot (changed - 1000) 1000 ->
   protect E db' now req
   = NextErr (ApiError 401
       "User recently changed password! Please log in again."))
  /\ (Z.quot (changed - 1000) 1000 <= iat decoded ->
      exists req', protect E db' now req = Next req')
  /\ (forall t0, iat decoded = t0 / 1000 -> t0 + 2000 <= changed ->
      protect E db' now req
      = NextErr (ApiError 401
          "User recently changed password! Please log in again.")).

(** The list [logout] leaves in a stored record: the entries that differ
    from the presented cookie, for the authenticated user when a cookie is
    presented; the list as it was otherwise. *)
Definition afterLogout (req : Request) (x : User) : list RefreshEntry :=
  match cookies_refreshToken req, user req with
  | Some presented, Some d =>
      if Js.truthy presented && (_id x =? _id (fields d))%string
      then filter (fun e => negb (token e =? presented)%string)
             (refreshTokens x)
      else refreshTokens x
  | _, _ => refreshTokens x
  end.

(** Logout as the specification words it: every field of every record
    other than [refreshTokens] is unchanged. *)
Definition logoutKeepsOtherFields (E : Env) (db : Db) (now : Z)
  (req : Request) : Prop :=
  Forall2 (fun x x' => set_refreshTokens [] x' = set_refreshTokens [] x)
    db (fst (logout E db now req)).

(** A record with the bookkeeping paths of a save blanked. *)
Definition withoutBookkeeping (x : User) : User :=
  set___v 0 (set_updatedAt 0 x).

(** The lockout as the specification words it: the failed attempt that
    brings the counter to 5 sets [lockUntil] to the clock plus two hours and
    resets the counter. *)
Definition lockResetsCounter (E : Env) (db : Db) (now : Z) (req : Request)
  : Prop :=
  forall u u',
    findOne (byEmail E (body_email (body req))) db = Some u ->
    isLocked u now = false ->
    loginAttempts u + 1 = 5 ->
    wrongPassword E (email u) (password u) req ->
    findOne (byEmail E (body_email (body req)))
      (fst (login E db now req)) = Some u' ->
    lockUntil u' = Some (now + 2 * 60 * 60 * 1000) /\ loginAttempts u' = 0.

(** * Further code of the repository *)

(** ** API client ([frontend/src/services/api.js]) *)

(** The request interceptor: a token held by the store becomes the header
    [Authorization: Bearer <token>]; without one the request goes out as it
    is. *)
Definition requestInterceptor (storeToken : option string) (req : Request)
  : Request :=
  match storeToken with
  | Some t =>
      if Js.truthy t then
        {| headers_authorization := Some ("Bearer " ++ t);
           cookies_jwt := cookies_jwt req;
           cookies_refreshToken := cookies_refreshToken req;
           params_token := params_token req;
           body := body req;
           user := user req |}
      else req
  | None => req
  end.

(** A string without the space character. *)
Definition noSpace (s : string) : Prop :=
  ~ In " "%char (list_ascii_of_string s).

(** ** [findByCredentials] ([models/User.js]) *)

Definition findByCredentials (E : Env) (givenEmail givenPassword : string)
  (db : Db) : option Doc :=
  match option_map (hydrate true) (findOne (byEmail E givenEmail) db) with
  | None => None
  | Some u =>
      if negb (correctPassword E givenPassword (password (fields u)))
      then None
      else Some u
  end.

(** The entry [createSendToken] pushes for the user [id] at [now]. *)
Definition issuedEntry (E : Env) (id : string) (now : Z) : RefreshEntry :=
  {| token := signRefreshToken E id now; createdAt := now |}.

(** The reply of [createSendToken] for the user [id] at [now]. *)
Definition tokenReply (E : Env) (statusCode : Z) (id : string) (now : Z)
  : Reply :=
  Json statusCode
    [("jwt", signToken E id now);
     ("refreshToken", signRefreshToken E id now)]
    (TokenBody (signToken E id now) (signRefreshToken E id now) id).

(** The update [createSendToken] sends for a document that holds the list
    [held] and has no other modified path: the pushed list, the clock in
    [updatedAt], and the version key grown by one. *)
Definition issueUpdate (E : Env) (held : list RefreshEntry) (id : string)
  (now : Z) (x : User) : User :=
  set___v (__v x + 1)
    (set_updatedAt now
       (set_refreshTokens (pushRefreshToken (issuedEntry E id now) held) x)).

(** The stored record of a new user once [signup] has run to its end. *)
Definition registered (E : Env) (random : string) (b : Body) (now : Z)
  (db : Db) : User :=
  set___v 1
   (set_refreshTokens [issuedEntry E (newObjectId E db) now]
    (set_emailVerificationExpires (Some (now + 24 * 60 * 60 * 1000))
       (set_emailVerificationToken (Some (sha256 E random))
          (set_passwordConfirm ""
             (set_password
                (bcrypt_hash E (body_password b) (bcryptRounds (config E)))
                (fields (newUser E b now db))))))).


(** ** Token utilities ([utils/jwt.js]) *)

(** The claims [jwt.decode] returns for a token it can parse; it checks
    neither signature nor expiry.  The numeric claims are integers. *)
Record Claims := {
  claim_id : option string;
  claim_iat : option Z;
  claim_exp : option Z
}.

Section TokenUtilities.

(** [jwt.decode]; [None] is [null] or a throw. *)
Variable jwt_decode : string -> option Claims.

Definition decodeToken (tok : string) : option Claims := jwt_decode tok.

(** The expiry as a [Date]; a missing or zero [exp] is falsy and gives
    [null], here the outer [None].  The date is invalid, the inner [None],
    when [exp * 1000] is out of the range of dates. *)
Definition getTokenExpiration (tok : string) : option (option Z) :=
  match decodeToken tok with
  | Some decoded =>
      match claim_exp decoded with
      | Some e => if e =? 0 then None else Some (Js.newDate (e * 1000))
      | None => None
      end
  | None => None
  end.

(** [now] is the time value of [new Date()].  An Invalid Date is an object,
    hence truthy, and compares as [NaN]: [expiration <= new Date()] is
    false. *)
Definition isTokenExpired (tok : string) (now : Z) : bool :=
  match getTokenExpiration tok with
  | None => true
  | Some None => false
  | Some (Some expiration) => expiration <=? now
  end.

(** [Math.max(0, Math.floor((expiration - now) / 1000))]; [None] is [NaN],
    the result for an Invalid Date. *)
Definition getTimeUntilExpiration (tok : string) (now : Z) : option Z :=
  match getTokenExpiration tok with
  | None => Some 0
  | Some None => None
  | Some (Some expiration) => Some (Z.max 0 ((expiration - now) / 1000))
  end.

End TokenUtilities.

(** ** Helpers ([utils/helpers.js]) *)

(** [Math.ceil(a / b)] on integers, for a divisor other than zero.  The
    quotient of two safe integers [0 <= a] and [0 < b] is rounded to a
    number whose ceiling is the ceiling of the exact quotient. *)
Definition ceilDiv (a b : Z) : Z := - ((- a) / b).

Record PaginationMeta := {
  meta_page : Z;
  meta_limit : Z;
  meta_total : Z;
  totalPages : Z;
  hasNextPage : bool;
  hasPrevPage : bool;
  nextPage : option Z;
  prevPage : option Z
}.

(** The arguments are integers; the arithmetic is the exact one, which is
    that of the code as long as they are safe integers. *)
Definition generatePaginationMeta (page limit total : Z) : PaginationMeta :=
  let pages := ceilDiv total limit in
  let next := page <? pages in
  let prev := 1 <? page in
  {| meta_page := page;
     meta_limit := limit;
     meta_total := total;
     totalPages := pages;
     hasNextPage := next;
     hasPrevPage := prev;
     nextPage := if next then Some (page + 1) else None;
     prevPage := if prev then Some (page - 1) else None |}.

(** What a call of the retried function does: resolve or reject. *)
Inductive Attempt (R : Type) :=
| Resolves (value : R)
| Rejects (error : string).

Arguments Resolves {R} value.
Arguments Rejects {R} error.

(** A run of [retryWithBackoff]: what it returns or throws ([None] when it
    falls out of the loop and returns [undefined]), how often it called the
    function, and the delays it waited, in order. *)
Record RetryRun (R : Type) := {
  outcome : option (Attempt R);
  calls : nat;
  delays : list Z
}.

Arguments outcome {R} r.
Arguments calls {R} r.
Arguments delays {R} r.

(** The loop of [retryWithBackoff] from [attempt] on, with [left]
    iterations to go; [fn k] is what the [k]-th call of the function
    does. *)
Fixpoint retryLoop {R} (fn : Z -> Attempt R) (maxRetries baseDelay : Z)
  (left : nat) (attempt : Z) : RetryRun R :=
  match left with
  | O => {| outcome := None; calls := 0; delays := [] |}
  | S left' =>
      match fn attempt with
      | Resolves value =>
          {| outcome := Some (Resolves value); calls := 1; delays := [] |}
      | Rejects error =>
          if attempt =? maxRetries then
            {| outcome := Some (Rejects error); calls := 1; delays := [] |}
          else
            let delayTime := baseDelay * 2 ^ (attempt - 1) in
            let later := retryLoop fn maxRetries baseDelay left' (attempt + 1) in
            {| outcome := outcome later;
               calls := S (calls later);
               delays := delayTime :: delays later |}
      end
  end.

Definition retryWithBackoff {R} (fn : Z -> Attempt R) (maxRetries baseDelay : Z)
  : RetryRun R :=
  retryLoop fn maxRetries baseDelay (Z.to_nat maxRetries) 1.

(** ** JSON values *)

Set Warnings "-register-all".

(** The values of request and response bodies.  An object is the list of
    its own enumerable properties in iteration order, keys distinct. *)
Inductive Value :=
| VUndefined
| VNull
| VBool (b : bool)
| VNumber (n : Z)
| VString (s : string)
| VDate (ms : Z)
| VArray (items : list Value)
| VObject (props : list (string * Value)).

(** [obj[key]]. *)
Definition getProp (obj : list (string * Value)) (key : string) : Value :=
  match find (fun kv => (fst kv =? key)%string) obj with
  | Some kv => snd kv
  | None => VUndefined
  end.

(** [obj[key] = value]: an existing property keeps its place. *)
Fixpoint setProp (key : string) (value : Value) (obj : list (string * Value))
  : list (string * Value) :=
  match obj with
  | [] => [(key, value)]
  | (k, v) :: rest =>
      if (k =? key)%string then (key, value) :: rest
      else (k, v) :: setProp key value rest
  end.

(** [Object.keys(obj)]. *)
Definition keys (obj : list (string * Value)) : list string := map fst obj.

(** [xs.includes(x)]. *)
Definition includes (xs : list string) (x : string) : bool :=
  existsb (String.eqb x) xs.

(** ** User controller ([controllers/userController.js]) *)

Definition filterObj (obj : list (string * Value)) (allowedFields : list string)
  : list (string * Value) :=
  fold_left
    (fun newObj el =>
       if includes allowedFields el then setProp el (getProp obj el) newObj
       else newObj)
    (keys obj) [].

(** The allow-list [updateMe] passes to [filterObj]. *)
Definition updateMeFields : list string :=
  ["firstName"; "lastName"; "username"; "avatar"; "preferences"; "profile"].

(** ** [removeEmptyProperties] ([utils/helpers.js]) *)

(** One turn of the loop, given the cleaning of nested objects: what the
    property contributes to [cleaned].  A date is an object without
    enumerable properties. *)
Definition keepProperty (clean : Value -> list (string * Value))
  (kv : string * Value) : list (string * Value) :=
  match snd kv with
  | VNull | VUndefined => []
  | VString s => if (s =? "")%string then [] else [kv]
  | VObject _ | VDate _ =>
      match clean (snd kv) with
      | [] => []
      | nested => [(fst kv, VObject nested)]
      end
  | _ => [kv]
  end.

(** [removeEmptyProperties(v)] for a value [v] the loop can run over. *)
Fixpoint cleanedOf (v : Value) : list (string * Value) :=
  match v with
  | VObject props =>
      (fix each (ps : list (string * Value)) : list (string * Value) :=
         match ps with
         | [] => []
         | kv :: rest =>
             (match snd kv with
              | VNull | VUndefined => []
              | VString s => if (s =? "")%string then [] else [kv]
              | VObject _ | VDate _ =>
                  match cleanedOf (snd kv) with
                  | [] => []
                  | nested => [(fst kv, VObject nested)]
                  end
              | _ => [kv]
              end ++ each rest)%list
         end) props
  | _ => []
  end.

Definition removeEmptyProperties (obj : list (string * Value))
  : list (string * Value) :=
  cleanedOf (VObject obj).

(** A value [removeEmptyProperties] lets stand as a property: not [null],
    [undefined], the empty string or a date, and, for an object, not empty
    and made of such properties. *)
Fixpoint tidy (v : Value) : Prop :=
  match v with
  | VNull | VUndefined | VDate _ => False
  | VString s => s <> ""
  | VObject props =>
      props <> []
      /\ (fix all (ps : list (string * Value)) : Prop :=
            match ps with
            | [] => True
            | kv :: rest => tidy (snd kv) /\ all rest
            end) props
  | _ => True
  end.

(** ** Auth store ([frontend/src/hooks/useAuthStore.js]) *)

(** JavaScript truthiness of a value. *)
Definition truthyValue (v : Value) : bool :=
  match v with
  | VUndefined | VNull => false
  | VBool b => b
  | VNumber n => negb (n =? 0)
  | VString s => Js.truthy s
  | _ => true
  end.

(** [v.key]; [None] is the TypeError of reading a property of [undefined]
    or [null]. *)
Definition member (v : Value) (key : string) : option Value :=
  match v with
  | VUndefined | VNull => None
  | VObject props => Some (getProp props key)
  | _ => Some VUndefined
  end.

Record AuthState := {
  st_user : Value;
  st_token : Value;
  st_refreshToken : Value;
  st_isAuthenticated : bool;
  st_isLoading : bool
}.

Definition initialAuthState : AuthState :=
  {| st_user := VNull; st_token := VNull; st_refreshToken := VNull;
     st_isAuthenticated := false; st_isLoading := false |}.

(** How a call of the API client settles: with the axios response or with
    an error. *)
Inductive ApiResult :=
| Fulfilled (response : Value)
| Rejected (error : string).

(** How an action of the store ends. *)
Inductive StoreOutcome :=
| Returned (value : Value)
| Threw (error : string).

(** [set({ isLoading })]. *)
Definition set_isLoading (b : bool) (st : AuthState) : AuthState :=
  {| st_user := st_user st; st_token := st_token st;
     st_refreshToken := st_refreshToken st;
     st_isAuthenticated := st_isAuthenticated st; st_isLoading := b |}.

(** The action [login]; [register] has the same body around
    [authAPI.register].  [settled] is how the request settles. *)
Definition storeLogin (settled : ApiResult) (st : AuthState)
  : AuthState * StoreOutcome :=
  let st1 := set_isLoading true st in
  match settled with
  | Rejected error => (set_isLoading false st1, Threw error)
  | Fulfilled response =>
      match member response "data" with
      | None => (set_isLoading false st1, Threw "TypeError")
      | Some data =>
          match member data "data" with
          | None => (set_isLoading false st1, Threw "TypeError")
          | Some payload =>
              match member payload "user", member payload "token",
                    member payload "refreshToken" with
              | Some user, Some token, Some refreshToken =>
                  ({| st_user := user;
                      st_token := token;
                      st_refreshToken := refreshToken;
                      st_isAuthenticated := true;
                      st_isLoading := false |},
                   Returned response)
              | _, _, _ => (set_isLoading false st1, Threw "TypeError")
              end
          end
      end
  end.

(** The action [logout]. *)
Definition storeLogout (st : AuthState) : AuthState :=
  {| st_user := VNull; st_token := VNull; st_refreshToken := VNull;
     st_isAuthenticated := false; st_isLoading := false |}.

(** The action [refreshAuthToken]; the request is sent only when the store
    holds a refresh token. *)
Definition refreshAuthToken (settled : ApiResult) (st : AuthState)
  : AuthState * StoreOutcome :=
  if negb (truthyValue (st_refreshToken st)) then
    (st, Threw "No refresh token available")
  else
    match settled with
    | Rejected error => (storeLogout st, Threw error)
    | Fulfilled response =>
        match member response "data" with
        | None => (storeLogout st, Threw "TypeError")
        | Some data =>
            match member data "data" with
            | None => (storeLogout st, Threw "TypeError")
            | Some payload =>
                match member payload "token", member payload "refreshToken"
                with
                | Some token, Some newRefreshToken =>
                    ({| st_user := st_user st;
                        st_token := token;
                        st_refreshToken := newRefreshToken;
                        st_isAuthenticated := st_isAuthenticated st;
                        st_isLoading := st_isLoading st |},
                     Returned token)
                | _, _ => (storeLogout st, Threw "TypeError")
                end
            end
        end
    end.

(** [ProtectedRoute]: [true] when the children are rendered, [false] when
    it redirects to the login page. *)
Definition protectedRoute (st : AuthState) : bool :=
  negb (negb (st_isAuthenticated st) || negb (truthyValue (st_user st))).

(** The body [createSendToken] hands to [res.json]; the user projection is
    represented by its identifier. *)
Definition tokenBodyJson (accessToken refreshToken userId : string) : Value :=
  VObject
    [("status", VString "success");
     ("token", VString accessToken);
     ("refreshToken", VString refreshToken);
     ("data", VObject [("user", VObject [("_id", VString userId)])])].

(** The axios response for a reply of [createSendToken]. *)
Definition axiosResponse (r : Reply) : option Value :=
  match r with
  | Json statusCode _ (TokenBody accessToken refreshToken userId) =>
      Some (VObject
              [("data", tokenBodyJson accessToken refreshToken userId);
               ("status", VNumber statusCode)])
  | _ => None
  end.

(** ** Further fixtures *)

Module Fixtures.

(** [alice] with a pending reset token and two sessions open. *)
Definition aliceResetSessions : User :=
  set_refreshTokens (refreshTokens Demo.aliceSessions) Demo.aliceReset.

(** [alice] before the e-mail address is verified, with the token [vplain]
    pending. *)
Definition aliceUnverified : User :=
  set_emailVerificationExpires (Some 90000000)
    (set_emailVerificationToken (Some "sha256:vplain") Demo.alice).

(** [alice] after delete-me. *)
Definition aliceDeactivated : User := set_active false Demo.alice.

(** The signup of a person not yet registered, the address typed with a
    capital and a blank after it. *)
Definition carolSignup : Body :=
  {| body_firstName := "Carol"; body_lastName := "D";
     body_email := "Carol@D.com ";
     body_username := "carol"; body_password := "Secret123!";
     body_passwordConfirm := "Secret123!"; body_passwordCurrent := "" |}.

(** A signup that reuses the e-mail of [alice], typed in capitals. *)
Definition aliceAgain : Body :=
  {| body_firstName := "A"; body_lastName := "B"; body_email := "A@B.COM";
     body_username := "ab2"; body_password := "Secret123!";
     body_passwordConfirm := "Secret123!"; body_passwordCurrent := "" |}.

(** A decoder that reads two tokens: one expiring at second 100, one with
    an expiry beyond the range of dates. *)
Definition decodeTwo (tok : string) : option Claims :=
  if (tok =? "t100")%string
  then Some {| claim_id := Some "u1"; claim_iat := Some 40;
               claim_exp := Some 100 |}
  else if (tok =? "far")%string
  then Some {| claim_id := Some "u1"; claim_iat := Some 40;
               claim_exp := Some 10000000000000000 |}
  else None.

(** A reset body whose confirmation differs. *)
Definition mistyped : Body :=
  {| body_firstName := ""; body_lastName := ""; body_email := "";
     body_username := ""; body_password := "NewSecret456";
     body_passwordConfirm := "NewSecret457"; body_passwordCurrent := "" |}.

(** The request [protect] passes on for a session of [aliceSessions]. *)
Definition sessionRequest : Request :=
  set_user (Some (hydrate false Demo.aliceSessions))
    (Demo.withRefreshCookie "refresh.u1.5"
       (Demo.bearer "access.u1.5" Demo.noBody)).

(** A function that rejects twice and then resolves. *)
Definition thirdTimeLucky (k : Z) : Attempt string :=
  if k =? 3 then Resolves "done" else Rejects "busy".

(** A profile update that tries to raise the role. *)
Definition escalation : list (string * Value) :=
  [("firstName", VString "A"); ("role", VString "admin");
   ("profile", VObject [("bio", VString ""); ("phone", VNull)])].

End Fixtures.

(** * Properties *)

(** ** Queries and updates *)

Lemma find_map_stable {A} (P : A -> bool) (g : A -> A) (l : list A) :
  (forall x, P (g x) = P x) ->
  find P (map g l) = option_map g (find P l).
Proof.
  intros Hstable. induction l as [|a l IH]; simpl; [reflexivity|].
  rewrite Hstable. destruct (P a); [reflexivity | exact IH].
Qed.

Lemma findOne_updateById (q : User -> bool) id f db :
  (forall x, preFind q (f x) = preFind q x) ->
  findOne q (updateById id f db)
  = option_map (fun x => if (_id x =? id)%string then f x else x)
      (findOne q db).
Proof.
  intros Hf. unfold findOne, updateById. apply find_map_stable.
  intros x. destruct (_id x =? id)%string; [apply Hf | reflexivity].
Qed.

Lemma findById_found id db u :
  findById id db = Some u -> In u db /\ _id u = id /\ active u = true.
Proof.
  unfold findById, findOne, preFind. intros H.
  apply find_some in H. destruct H as [Hin Hq].
  apply andb_true_iff in Hq. destruct Hq as [Hid Hact].
  apply String.eqb_eq in Hid.
  destruct (active u); [auto | discriminate].
Qed.

(** ** Optional authentication *)

(** C9: [optionalAuth] always calls [next()] without an error.  The request
    it passes on is the incoming one with, at most, [req.user] replaced: by
    nothing, or by the stored user of a token that verifies, when that user
    is active and has not changed the password since the token was issued. *)
Theorem optionalAuth_never_fails (E : Env) (db : Db) (now : Z) (req : Request) :
  exists req',
    optionalAuth E db now req = Next req'
    /\ (req' = req
        \/ req' = set_user None req
        \/ exists tok decoded stored,
             extractToken req = Some tok
             /\ Js.truthy tok = true
             /\ jwt_verify E tok (jwt_secret (config E)) now = Some decoded
             /\ findById (payload_id decoded) db = Some stored
             /\ active stored = true
             /\ changedPasswordAfter stored (iat decoded) = false
             /\ req' = set_user (Some (hydrate false stored)) req).
Proof.
  unfold optionalAuth.
  destruct (extractToken req) as [tok|] eqn:Htok; simpl.
  2:{ exists req. auto. }
  destruct (Js.truthy tok) eqn:Htruthy.
  2:{ exists req. auto. }
  destruct (jwt_verify E tok (jwt_secret (config E)) now) as [decoded|] eqn:Hv.
  2:{ exists (set_user None req). auto. }
  destruct (findById (payload_id decoded) db) as [stored|] eqn:Hfind.
  2:{ exists req. auto. }
  destruct (active stored) eqn:Hact; simpl.
  2:{ exists req. auto. }
  unfold changedPasswordAfter at 1. simpl.
  fold (changedPasswordAfter stored (iat decoded)).
  destruct (changedPasswordAfter stored (iat decoded)) eqn:Hch; simpl.
  - exists req. auto.
  - eexists. split; [reflexivity|]. right. right.
    exists tok, decoded, stored. repeat split; auto.
Qed.

(** ** Refresh-token rotation *)

Lemma existsb_token_absent (presented : string) (rts : list RefreshEntry) :
  (forall e, In e rts -> token e <> presented) ->
  existsb (fun tokenObj => (token tokenObj =? presented)%string) rts = false.
Proof.
  intros Habsent. induction rts as [|e rts IH]; simpl; [reflexivity|].
  rewrite IH by (intros e' He'; apply Habsent; now right).
  destruct (String.eqb_spec (token e) presented) as [Heq|_]; [|reflexivity].
  exfalso. apply (Habsent e); [now left | exact Heq].
Qed.

(** C2: a presented refresh token that verifies under the refresh secret
    and whose subject is a stored user, but that is not an entry of that
    user's [refreshTokens], is answered with 401 'Invalid refresh token';
    the collection is left as it was and no token pair is sent. *)
Theorem refreshToken_unknown_rejected (E : Env) (db : Db) (now : Z)
  (req : Request) (presented : string) (decoded : Payload) (stored : User) :
  cookies_refreshToken req = Some presented ->
  presented <> "" ->
  jwt_verify E presented (jwt_refreshSecret (config E)) now = Some decoded ->
  findById (payload_id decoded) db = Some stored ->
  (forall e, In e (refreshTokens stored) -> token e <> presented) ->
  refreshToken E db now req
  = (db, NextErr (ApiError 401 "Invalid refresh token")).
Proof.
  intros Hcookie Hnonempty Hverify Hfind Habsent.
  unfold refreshToken. rewrite Hcookie.
  unfold Js.truthy.
  destruct (String.eqb_spec presented "") as [Heq|_]; [contradiction|].
  simpl. rewrite Hverify, Hfind. simpl.
  rewrite (existsb_token_absent presented (refreshTokens stored) Habsent).
  reflexivity.
Qed.

(** ** Forgotten password *)

Lemma findOne_none (q : User -> bool) (db : Db) :
  (forall u, In u db -> q u = false) -> findOne q db = None.
Proof.
  intros Hq. unfold findOne.
  induction db as [|a db IH]; simpl; [reflexivity|].
  unfold preFind at 1. rewrite (Hq a) by now left. simpl.
  apply IH. intros u Hu. apply Hq. now right.
Qed.

(** C8: when no stored user has the e-mail of the request, [forgotPassword]
    answers 404 and leaves the collection as it was: no reset token is
    generated or stored.  The e-mail of the request is matched as the query
    casts it, trimmed and in lower case, which is the form stored e-mails
    have. *)
Theorem forgotPassword_unknown_email (E : Env) (random : string) (db : Db)
  (now : Z) (req : Request) :
  (forall u, In u db -> email u <> castEmail E (body_email (body req))) ->
  forgotPassword E random db now req
  = (db, NextErr (ApiError 404 "There is no user with that email address.")).
Proof.
  intros Hunknown. unfold forgotPassword.
  rewrite findOne_none; [reflexivity|].
  intros u Hu. unfold byEmail. apply String.eqb_neq. apply Hunknown. exact Hu.
Qed.

(** ** Session guard: loading the user *)

Lemma protect_verified (E : Env) db now req tok decoded :
  extractToken req = Some tok ->
  tok <> "" ->
  jwt_verify E tok (jwt_secret (config E)) now = Some decoded ->
  protect E db now req
  = match findById (payload_id decoded) db with
    | None =>
        NextErr (ApiError 401
          "The user belonging to this token does no longer exist.")
    | Some stored =>
        if changedPasswordAfter stored (iat decoded) then
          NextErr (ApiError 401
            "User recently changed password! Please log in again.")
        else if negb (active stored) then
          NextErr (ApiError 401
            "Your account has been deactivated. Please contact support.")
        else Next (set_user (Some (hydrate false stored)) req)
    end.
Proof.
  intros Htok Hnonempty Hverify. unfold protect. rewrite Htok. simpl.
  unfold Js.truthy.
  destruct (String.eqb_spec tok "") as [Heq|_]; [contradiction|].
  simpl. rewrite Hverify.
  destruct (findById (payload_id decoded) db) as [stored|]; reflexivity.
Qed.

(** The find hook hides inactive users, so [protect] never reaches its
    'account deactivated' answer. *)
Lemma protect_never_deactivated (E : Env) db now req :
  protect E db now req
  <> NextErr (ApiError 401
       "Your account has been deactivated. Please contact support.").
Proof.
  unfold protect.
  destruct (negb (Js.truthy_opt (extractToken req))); [discriminate|].
  destruct (jwt_verify E _ _ now) as [decoded|]; [|discriminate].
  destruct (findById (payload_id decoded) db) as [stored|] eqn:Hfind;
    [|discriminate].
  apply findById_found in Hfind. destruct Hfind as (_ & _ & Hactive).
  simpl. destruct (changedPasswordAfter _ _); [discriminate|].
  rewrite Hactive. simpl. discriminate.
Qed.

(** A token whose subject is no stored user is answered with 'no longer
    exist'. *)
Lemma protect_unknown_subject (E : Env) db now req tok decoded :
  extractToken req = Some tok ->
  tok <> "" ->
  jwt_verify E tok (jwt_secret (config E)) now = Some decoded ->
  (forall u, In u db -> _id u <> payload_id decoded) ->
  protect E db now req
  = NextErr (ApiError 401
      "The user belonging to this token does no longer exist.").
Proof.
  intros Htok Hne Hverify Hunknown.
  rewrite (protect_verified E db now req tok decoded Htok Hne Hverify).
  unfold findById. rewrite findOne_none; [reflexivity|].
  intros u Hu. apply String.eqb_neq. apply Hunknown. exact Hu.
Qed.

(** ** Login and lockout *)

Section Login.

Variable E : Env.
Variables (db : Db) (now : Z) (req : Request) (u : User).

Hypothesis email_given : body_email (body req) <> "".
Hypothesis password_given : body_password (body req) <> "".
Hypothesis found : findOne (byEmail E (body_email (body req))) db = Some u.

Lemma login_found_locked :
  isLocked u now = true ->
  login E db now req
  = (db, NextErr (ApiError 423
       "Account temporarily locked due to too many failed login attempts")).
Proof.
  intros Hlocked. unfold login, Js.truthy.
  destruct (String.eqb_spec (body_email (body req)) "") as [H|_];
    [contradiction|].
  destruct (String.eqb_spec (body_password (body req)) "") as [H|_];
    [contradiction|].
  simpl. rewrite found. simpl. rewrite Hlocked. reflexivity.
Qed.

Lemma login_wrong_password :
  isLocked u now = false ->
  correctPassword E (body_password (body req)) (password u) = false ->
  login E db now req
  = (incLoginAttempts (hydrate true u) now db,
     NextErr (ApiError 401 "Incorrect email or password")).
Proof.
  intros Hunlocked Hwrong. unfold login, Js.truthy.
  destruct (String.eqb_spec (body_email (body req)) "") as [H|_];
    [contradiction|].
  destruct (String.eqb_spec (body_password (body req)) "") as [H|_];
    [contradiction|].
  simpl. rewrite found. simpl. rewrite Hunlocked, Hwrong.
  reflexivity.
Qed.

(** The record a later login loads after a failed attempt. *)
Lemma incLoginAttempts_found :
  findOne (byEmail E (body_email (body req)))
    (incLoginAttempts (hydrate true u) now db)
  = Some (set_updatedAt now (loginAttemptsUpdate u now u)).
Proof.
  unfold incLoginAttempts, updateOne. simpl.
  rewrite findOne_updateById.
  - rewrite found. simpl. rewrite String.eqb_refl. reflexivity.
  - intros x. unfold loginAttemptsUpdate.
    destruct (match lockUntil u with Some l => l <? now | None => false end);
      [reflexivity|].
    destruct ((5 <=? loginAttempts u + 1) && negb (isLocked u now));
      reflexivity.
Qed.

End Login.

Lemma run_app (E : Env) (xs ys : list (Call * Z * Request)) (db : Db) :
  run E (xs ++ ys) db = run E ys (run E xs db).
Proof.
  revert db. induction xs as [|[[c t] r] xs IH]; intros db; simpl;
    [reflexivity | apply IH].
Qed.



(** One failed attempt on an account that carries no lock. *)
Lemma failed_login_step (E : Env) (e : string) db now req u :
  findOne (fun x => (email x =? e)%string) db = Some u ->
  lockUntil u = None ->
  wrongPassword E e (password u) req ->
  exists u',
    findOne (fun x => (email x =? e)%string) (fst (login E db now req))
    = Some u'
    /\ password u' = password u
    /\ loginAttempts u' = loginAttempts u + 1
    /\ lockUntil u'
       = if 5 <=? loginAttempts u + 1
         then Some (now + 2 * 60 * 60 * 1000) else None.
Proof.
  intros Hfound Hnolock (He & Hemail & Hpw & Hwrong). subst e.
  assert (Hunlocked : isLocked u now = false)
    by (unfold isLocked; rewrite Hnolock; reflexivity).
  rewrite (login_wrong_password E db now req u He Hpw Hfound Hunlocked Hwrong).
  simpl. change (fun x : User =>
                   (email x =? castEmail E (body_email (body req)))%string)
    with (byEmail E (body_email (body req))).
  rewrite (incLoginAttempts_found E db now req u Hfound).
  exists (set_updatedAt now (loginAttemptsUpdate u now u)).
  split; [reflexivity|].
  unfold loginAttemptsUpdate. rewrite Hnolock.
  unfold isLocked. rewrite Hnolock. simpl. rewrite andb_true_r.
  destruct (5 <=? loginAttempts u + 1); simpl; auto.
Qed.

(** Failures below the threshold only count. *)
Lemma failed_logins_accumulate (E : Env) (e : string) attempts :
  forall db u,
    findOne (fun x => (email x =? e)%string) db = Some u ->
    lockUntil u = None ->
    Forall (fun a => wrongPassword E e (password u) (snd a)) attempts ->
    loginAttempts u + Z.of_nat (List.length attempts) < 5 ->
    exists u',
      findOne (fun x => (email x =? e)%string)
        (run E (loginCalls attempts) db) = Some u'
      /\ password u' = password u
      /\ loginAttempts u' = loginAttempts u + Z.of_nat (List.length attempts)
      /\ lockUntil u' = None.
Proof.
  induction attempts as [|[t r] attempts IH];
    intros db u Hfound Hnolock Hwrong Hbelow.
  - exists u. simpl. rewrite Z.add_0_r. auto.
  - inversion Hwrong as [|? ? Hhead Htail]; subst.
    simpl in Hhead. simpl List.length in Hbelow.
    destruct (failed_login_step E e db t r u Hfound Hnolock Hhead)
      as (u1 & Hfound1 & Hpw1 & Hcount1 & Hlock1).
    assert (Hsmall : (5 <=? loginAttempts u + 1) = false)
      by (apply Z.leb_gt; lia).
    rewrite Hsmall in Hlock1.
    destruct (IH (fst (login E db t r)) u1 Hfound1 Hlock1) as
      (u' & Hfound' & Hpw' & Hcount' & Hlock').
    + rewrite Hpw1. exact Htail.
    + lia.
    + exists u'. simpl. split; [exact Hfound'|].
      split; [congruence|]. split; [|exact Hlock'].
      simpl List.length. lia.
Qed.

(** C3: a login against an account whose [lockUntil] is later than the
    clock is answered with 423 whatever the submitted password is, the
    comparison with the stored hash not being consulted; and after five
    consecutive failed attempts on an account without failures, a sixth
    attempt inside the two-hour window is answered with 423 even with the
    right password.  The account of a request is the one its e-mail finds
    as the query casts it; [e] is the stored e-mail of the account. *)
Theorem login_locked_before_password (E : Env) :
  (forall db now req u l,
      body_email (body req) <> "" ->
      body_password (body req) <> "" ->
      findOne (byEmail E (body_email (body req))) db = Some u ->
      lockUntil u = Some l ->
      now < l ->
      login E db now req
      = (db, NextErr (ApiError 423
           "Account temporarily locked due to too many failed login attempts")))
  /\
  (forall db u e earlier t5 r5 t6 r6,
      findOne (fun x => (email x =? e)%string) db = Some u ->
      loginAttempts u = 0 ->
      lockUntil u = None ->
      List.length earlier = 4%nat ->
      Forall (fun a => wrongPassword E e (password u) (snd a))
        (earlier ++ [(t5, r5)]) ->
      body_email (body r6) <> "" ->
      castEmail E (body_email (body r6)) = e ->
      body_password (body r6) <> "" ->
      correctPassword E (body_password (body r6)) (password u) = true ->
      t6 < t5 + 2 * 60 * 60 * 1000 ->
      let locked := run E (loginCalls (earlier ++ [(t5, r5)])) db in
      login E locked t6 r6
      = (locked,
         NextErr (ApiError 423
           "Account temporarily locked due to too many failed login attempts"))).
Proof.
  split.
  - intros db now req u l He Hp Hfound Hlock Hlt.
    apply (login_found_locked E db now req u He Hp Hfound).
    unfold isLocked. rewrite Hlock. apply Z.ltb_lt. exact Hlt.
  - intros db u e earlier t5 r5 t6 r6 Hfound Hfresh Hnolock Hlen Hwrong
      He6 Hemail6 Hpw6 _ Hwindow locked.
    apply Forall_app in Hwrong. destruct Hwrong as [Hearlier Hfifth].
    inversion Hfifth as [|? ? Hfifth' _]; subst. simpl in Hfifth'.
    destruct (failed_logins_accumulate E _ earlier
                db u Hfound Hnolock Hearlier) as
      (u4 & Hfound4 & Hpw4 & Hcount4 & Hlock4); [rewrite Hlen; lia|].
    rewrite <- Hpw4 in Hfifth'.
    destruct (failed_login_step E _ _ t5 r5 u4
                Hfound4 Hlock4 Hfifth') as
      (u5 & Hfound5 & _ & _ & Hlock5).
    assert (Hreached : (5 <=? loginAttempts u4 + 1) = true)
      by (apply Z.leb_le; rewrite Hcount4, Hlen; lia).
    rewrite Hreached in Hlock5.
    assert (Hlocked : locked
                      = fst (login E (run E (loginCalls earlier) db) t5 r5)).
    { unfold locked, loginCalls. rewrite map_app, run_app. reflexivity. }
    rewrite <- Hlocked in Hfound5.
    apply (login_found_locked E locked t6 r6 u5 He6 Hpw6 Hfound5).
    unfold isLocked. rewrite Hlock5. apply Z.ltb_lt. exact Hwindow.
Qed.

(** C4 (amended): a failed login on an account that is not locked answers
    401 and changes the stored counters as follows.  If a previous lock has
    expired, the counter restarts at 1 and [lockUntil] is cleared.
    Otherwise the counter grows by one, and when it thereby reaches 5 (or
    more) [lockUntil] becomes the clock plus two hours; the counter keeps
    its incremented value.  The account is the one the e-mail of the
    request finds as the query casts it. *)
Theorem failed_login_counter (E : Env) db now req u :
  body_email (body req) <> "" ->
  body_password (body req) <> "" ->
  findOne (byEmail E (body_email (body req))) db = Some u ->
  isLocked u now = false ->
  correctPassword E (body_password (body req)) (password u) = false ->
  exists db' u',
    login E db now req
    = (db', NextErr (ApiError 401 "Incorrect email or password"))
    /\ findOne (byEmail E (body_email (body req))) db' = Some u'
    /\ ((exists l, lockUntil u = Some l /\ l < now) ->
        loginAttempts u' = 1 /\ lockUntil u' = None)
    /\ ((forall l, lockUntil u = Some l -> now <= l) ->
        loginAttempts u' = loginAttempts u + 1
        /\ lockUntil u'
           = if 5 <=? loginAttempts u + 1
             then Some (now + 2 * 60 * 60 * 1000) else lockUntil u).
Proof.
  intros He Hp Hfound Hunlocked Hwrong.
  exists (incLoginAttempts (hydrate true u) now db),
         (set_updatedAt now (loginAttemptsUpdate u now u)).
  split; [apply login_wrong_password; assumption|].
  split; [apply incLoginAttempts_found; assumption|].
  unfold loginAttemptsUpdate. rewrite Hunlocked. rewrite andb_true_r.
  split.
  - intros (l & Hl & Hlt). rewrite Hl.
    apply Z.ltb_lt in Hlt. rewrite Hlt. simpl. auto.
  - intros Hnot.
    assert (Hnotexp :
              match lockUntil u with Some l => l <? now | None => false end
              = false).
    { destruct (lockUntil u) as [l|]; [|reflexivity].
      apply Z.ltb_ge. apply Hnot. reflexivity. }
    rewrite Hnotexp.
    destruct (5 <=? loginAttempts u + 1); simpl; auto.
Qed.

(** ** The cap on stored refresh tokens *)



Lemma pushRefreshToken_length e rts :
  List.length (pushRefreshToken e rts)
  = Nat.min (List.length rts + 1) 5.
Proof.
  unfold pushRefreshToken, Js.slice_last.
  destruct (Nat.ltb_spec 5 (List.length (rts ++ [e]))) as [Hlong|Hshort];
    [rewrite length_skipn|]; rewrite length_app in *; simpl in *; lia.
Qed.

Lemma pushRefreshToken_suffix e rts :
  exists evicted, (rts ++ [e] = evicted ++ pushRefreshToken e rts)%list.
Proof.
  unfold pushRefreshToken, Js.slice_last.
  destruct (5 <? List.length (rts ++ [e]))%nat.
  - exists (firstn (List.length (rts ++ [e]) - 5) (rts ++ [e])).
    symmetry. apply firstn_skipn.
  - exists []. reflexivity.
Qed.

Lemma writeFields_refreshTokens d paths x :
  refreshTokens (fold_right (writePath d) x paths) = refreshTokens x
  \/ refreshTokens (fold_right (writePath d) x paths) = refreshTokens d.
Proof.
  induction paths as [|p paths IH]; simpl; [now left|].
  destruct p; simpl; auto.
Qed.

Lemma updateById_bounded id f db :
  (forall x, capped x -> capped (f x)) ->
  bounded db -> bounded (updateById id f db).
Proof.
  intros Hf Hdb. unfold bounded, updateById. apply Forall_map.
  eapply Forall_impl; [|exact Hdb].
  intros x Hx. simpl. destruct (_id x =? id)%string; auto.
Qed.

Lemma stamp_refreshTokens d now x :
  refreshTokens (stamp d now x) = refreshTokens x.
Proof.
  unfold stamp. destruct (isModified p_refreshTokens d); reflexivity.
Qed.

Lemma writeBack_bounded d now db :
  capped (fields d) -> bounded db -> bounded (writeBack d now db).
Proof.
  intros Hd Hdb. apply updateById_bounded; [|exact Hdb].
  intros x Hx. unfold capped. rewrite stamp_refreshTokens.
  destruct (writeFields_refreshTokens (fields d) (modifiedPaths d) x)
    as [H|H]; rewrite H; assumption.
Qed.

Lemma preSave_hash_capped E d d' :
  preSave_hash E d = inr d' -> capped (fields d) -> capped (fields d').
Proof.
  unfold preSave_hash.
  destruct (negb (isModified p_password d)); [intros [= <-]; auto|].
  destruct (negb (Js.truthy (password (fields d)))); [discriminate|].
  intros [= <-]. auto.
Qed.

Lemma preSave_changedAt_capped now d :
  capped (fields d) -> capped (fields (preSave_changedAt now d)).
Proof.
  unfold preSave_changedAt.
  destruct (negb (isModified p_password d) || isNew d); auto.
Qed.

Lemma save_bounded E v d now db d' db' :
  save E v d now db = inr (d', db') ->
  capped (fields d) -> bounded db ->
  capped (fields d') /\ bounded db'.
Proof.
  unfold save. intros Hsave Hd Hdb.
  destruct (v && negb (validate E d)); [discriminate|].
  destruct (preSave_hash E d) as [e|d1] eqn:Hhash; [discriminate|].
  pose proof (preSave_changedAt_capped now d1
                (preSave_hash_capped E d d1 Hhash Hd)) as Hd2.
  destruct (isNew (preSave_changedAt now d1)).
  - destruct (duplicateKey _ db); [discriminate|].
    injection Hsave as <- <-. split; [exact Hd2|].
    apply Forall_app. split; [exact Hdb | constructor; [exact Hd2|constructor]].
  - destruct (modifiedPaths (preSave_changedAt now d1)) eqn:Hpaths.
    + injection Hsave as <- <-. split; [exact Hd2 | exact Hdb].
    + injection Hsave as <- <-. split.
      * unfold capped. cbn [updated fields]. rewrite stamp_refreshTokens.
        exact Hd2.
      * apply writeBack_bounded; assumption.
Qed.

Lemma createSendToken_bounded E u statusCode now db :
  bounded db -> bounded (fst (createSendToken E u statusCode now db)).
Proof.
  intros Hdb. unfold createSendToken. simpl.
  destruct (save E false _ now db) as [e|[d' db']] eqn:Hsave; [exact Hdb|].
  apply save_bounded in Hsave; [tauto| |exact Hdb].
  unfold capped. simpl. rewrite pushRefreshToken_length. lia.
Qed.

Lemma findOne_capped q db u :
  bounded db -> findOne q db = Some u -> capped u.
Proof.
  intros Hdb Hfind. apply find_some in Hfind.
  unfold bounded in Hdb. rewrite Forall_forall in Hdb.
  apply Hdb. tauto.
Qed.

Lemma hydrate_capped b u : capped u -> capped (fields (hydrate b u)).
Proof. destruct b; auto. Qed.

Lemma assign_password_capped v d :
  capped (fields d) -> capped (fields (assign_password v d)).
Proof.
  unfold assign_password.
  destruct (selectedPassword d && (password (fields d) =? v)%string); auto.
Qed.

Lemma filter_capped (keep : RefreshEntry -> bool) u :
  capped u -> capped (set_refreshTokens (filter keep (refreshTokens u)) u).
Proof.
  unfold capped. simpl. intros Hu.
  pose proof (filter_length_le keep (refreshTokens u)). lia.
Qed.

Lemma loginAttemptsUpdate_capped u now x :
  capped x -> capped (loginAttemptsUpdate u now x).
Proof.
  intros Hx. unfold loginAttemptsUpdate.
  destruct (match lockUntil u with Some l => l <? now | None => false end);
    [exact Hx|].
  destruct ((5 <=? loginAttempts u + 1) && negb (isLocked u now)); exact Hx.
Qed.

Lemma signup_bounded E random db now req :
  bounded db -> bounded (fst (signup E random db now req)).
Proof.
  intros Hdb. unfold signup.
  destruct (findOne _ db); [exact Hdb|].
  destruct (save E true (newUser E (body req) now db) now db)
    as [e|[created db1]] eqn:Hcreate; [exact Hdb|].
  apply save_bounded in Hcreate; [|unfold capped; simpl; lia|exact Hdb].
  destruct Hcreate as [Hcreated Hdb1]. simpl.
  destruct (save E false _ now db1) as [e|[d2 db2]] eqn:Hsave; [exact Hdb1|].
  apply save_bounded in Hsave; [|exact Hcreated|exact Hdb1].
  apply createSendToken_bounded. tauto.
Qed.

Lemma login_bounded E db now req :
  bounded db -> bounded (fst (login E db now req)).
Proof.
  intros Hdb. unfold login.
  destruct (negb _ || negb _); [exact Hdb|].
  destruct (findOne _ db) as [u|] eqn:Hfind; cbn [option_map]; [|exact Hdb].
  cbn [hydrate fields].
  destruct (isLocked u now); [exact Hdb|].
  destruct (negb (correctPassword E _ _)).
  - apply updateById_bounded; [|exact Hdb].
    intros x Hx.
    exact (loginAttemptsUpdate_capped u now x Hx).
  - assert (Hdb1 : bounded (resetLoginAttempts (hydrate true u) now db))
      by (apply updateById_bounded; [intros x Hx; exact Hx | exact Hdb]).
    destruct (save E false _ now _) as [e|[u2 db2]] eqn:Hsave; [exact Hdb1|].
    apply createSendToken_bounded.
    apply save_bounded in Hsave; [tauto| |exact Hdb1].
    exact (findOne_capped _ db u Hdb Hfind).
Qed.

Lemma refreshToken_bounded E db now req :
  bounded db -> bounded (fst (refreshToken E db now req)).
Proof.
  intros Hdb. unfold refreshToken.
  destruct (cookies_refreshToken req) as [presented|]; [|exact Hdb].
  destruct (negb (Js.truthy presented)); [exact Hdb|].
  destruct (jwt_verify E presented _ now) as [decoded|]; [|exact Hdb].
  destruct (findById (payload_id decoded) db) as [u|]; simpl; [|exact Hdb].
  destruct (negb _); [exact Hdb|].
  apply createSendToken_bounded. exact Hdb.
Qed.

Lemma forgotPassword_bounded E random db now req :
  bounded db -> bounded (fst (forgotPassword E random db now req)).
Proof.
  intros Hdb. unfold forgotPassword.
  destruct (findOne _ db) as [u|] eqn:Hfind; cbn [option_map]; [|exact Hdb].
  destruct (createPasswordResetToken E random now (hydrate false u))
    as [resetToken u1] eqn:Hdraw.
  destruct (save E false u1 now db) as [e|[d1 db1]] eqn:Hsave; [exact Hdb|].
  apply save_bounded in Hsave; [simpl; tauto| |exact Hdb].
  injection Hdraw as _ <-.
  exact (findOne_capped _ db u Hdb Hfind).
Qed.

Lemma resetPassword_bounded E db now req :
  bounded db -> bounded (fst (resetPassword E db now req)).
Proof.
  intros Hdb. unfold resetPassword.
  destruct (findOne _ db) as [u|] eqn:Hfind; cbn [option_map]; [|exact Hdb].
  destruct (save E true _ now db) as [e|[d1 db1]] eqn:Hsave; [exact Hdb|].
  apply createSendToken_bounded.
  apply save_bounded in Hsave; [tauto| |exact Hdb].
  exact (findOne_capped _ db u Hdb Hfind).
Qed.

Lemma verifyEmail_bounded E db now req :
  bounded db -> bounded (fst (verifyEmail E db now req)).
Proof.
  intros Hdb. unfold verifyEmail.
  destruct (findOne _ db) as [u|] eqn:Hfind; cbn [option_map]; [|exact Hdb].
  destruct (save E false _ now db) as [e|[d1 db1]] eqn:Hsave; [exact Hdb|].
  apply save_bounded in Hsave; [simpl; tauto| |exact Hdb].
  exact (findOne_capped _ db u Hdb Hfind).
Qed.

Lemma protect_attaches_stored E db now req req' :
  protect E db now req = Next req' ->
  exists stored,
    In stored db /\ active stored = true
    /\ findById (_id stored) db = Some stored
    /\ req' = set_user (Some (hydrate false stored)) req.
Proof.
  unfold protect.
  destruct (negb (Js.truthy_opt (extractToken req))); [discriminate|].
  destruct (jwt_verify E _ _ now) as [decoded|]; [|discriminate].
  destruct (findById (payload_id decoded) db) as [stored|] eqn:Hfind;
    [|discriminate].
  simpl. destruct (changedPasswordAfter _ _); [discriminate|].
  destruct (negb (active stored)); [discriminate|].
  intros [= <-]. exists stored.
  pose proof (findById_found _ _ _ Hfind) as (Hin & Hid & Hact).
  rewrite Hid. auto.
Qed.

Lemma logout_bounded E db now req :
  (forall d, user req = Some d -> capped (fields d)) ->
  bounded db -> bounded (fst (logout E db now req)).
Proof.
  intros Huser Hdb. unfold logout.
  destruct (cookies_refreshToken req) as [presented|]; [|exact Hdb].
  destruct (user req) as [d|]; [|exact Hdb].
  destruct (Js.truthy presented); [|exact Hdb].
  destruct (save E false _ now db) as [e|[d1 db1]] eqn:Hsave; [exact Hdb|].
  apply save_bounded in Hsave; [simpl; tauto| |exact Hdb].
  unfold assign_refreshTokens.
  destruct (sameEntries _ _); [apply Huser; reflexivity|].
  apply (filter_capped _ (fields d)). apply Huser. reflexivity.
Qed.

Lemma updatePassword_bounded E db now req :
  bounded db -> bounded (fst (updatePassword E db now req)).
Proof.
  intros Hdb. unfold updatePassword.
  destruct (user req) as [authenticated|]; [|exact Hdb].
  destruct (findById _ db) as [u|] eqn:Hfind; cbn [option_map]; [|exact Hdb].
  destruct (negb (correctPassword E _ _)); [exact Hdb|].
  destruct (save E true _ now db) as [e|[d1 db1]] eqn:Hsave; [exact Hdb|].
  apply createSendToken_bounded.
  apply save_bounded in Hsave; [tauto| |exact Hdb].
  apply assign_password_capped. simpl.
  exact (findOne_capped _ db u Hdb Hfind).
Qed.

Lemma deleteMe_bounded db now req :
  bounded db -> bounded (fst (deleteMe db now req)).
Proof.
  intros Hdb. unfold deleteMe.
  destruct (user req) as [authenticated|]; [|exact Hdb].
  simpl. destruct (findById _ db); [|exact Hdb].
  apply updateById_bounded; [intros x Hx; exact Hx | exact Hdb].
Qed.

Lemma protected_bounded E handler db now req :
  (forall req',
      (forall d, user req' = Some d -> capped (fields d)) ->
      bounded (fst (handler db now req'))) ->
  bounded db -> bounded (fst (protected E handler db now req)).
Proof.
  intros Hhandler Hdb. unfold protected.
  destruct (protect E db now req) as [req'| |] eqn:Hprotect;
    [|exact Hdb|exact Hdb].
  apply protect_attaches_stored in Hprotect.
  destruct Hprotect as (stored & Hin & _ & _ & ->).
  apply Hhandler. simpl. intros d [= <-].
  apply hydrate_capped.
  unfold bounded in Hdb. rewrite Forall_forall in Hdb. apply Hdb. exact Hin.
Qed.

Lemma route_bounded E c db now req :
  bounded db -> bounded (fst (route E c db now req)).
Proof.
  intros Hdb. destruct c; simpl.
  - apply signup_bounded; exact Hdb.
  - apply login_bounded; exact Hdb.
  - apply forgotPassword_bounded; exact Hdb.
  - apply resetPassword_bounded; exact Hdb.
  - apply verifyEmail_bounded; exact Hdb.
  - apply refreshToken_bounded; exact Hdb.
  - apply protected_bounded; [|exact Hdb].
    intros req' Huser. apply logout_bounded; assumption.
  - apply protected_bounded; [|exact Hdb].
    intros req' _. apply updatePassword_bounded; exact Hdb.
  - apply protected_bounded; [|exact Hdb].
    intros req' _. apply deleteMe_bounded; exact Hdb.
Qed.

Lemma run_bounded E calls :
  forall db, bounded db -> bounded (run E calls db).
Proof.
  induction calls as [|[[c now] req] calls IH]; intros db Hdb; simpl;
    [exact Hdb|].
  apply IH. apply route_bounded. exact Hdb.
Qed.

(** What [createSendToken] stores for a user loaded by [findById]. *)
Lemma createSendToken_stored E u withPassword statusCode now db :
  findById (_id u) db = Some u ->
  exists u',
    findById (_id u)
      (fst (createSendToken E (hydrate withPassword u) statusCode now db))
    = Some u'
    /\ refreshTokens u'
       = pushRefreshToken
           {| token := signRefreshToken E (_id u) now; createdAt := now |}
           (refreshTokens u).
Proof.
  intros Hfind. unfold createSendToken.
  eexists. split.
  - destruct withPassword; simpl.
    + unfold writeBack. simpl. unfold findById.
      rewrite findOne_updateById by reflexivity.
      fold (findById (_id u) db). rewrite Hfind. simpl.
      rewrite String.eqb_refl. reflexivity.
    + unfold writeBack. simpl. unfold findById.
      rewrite findOne_updateById by reflexivity.
      fold (findById (_id u) db). rewrite Hfind. simpl.
      rewrite String.eqb_refl. reflexivity.
  - reflexivity.
Qed.

(** C5: along every sequence of calls of the authentication routes (signup,
    login and refresh among them) no stored user ever holds more than five
    refresh tokens.  Each issue stores the previous list with the new token
    appended, cut down to its last five entries: what is dropped is a prefix
    (the oldest entries) and the order of the rest is kept. *)
Theorem refreshTokens_never_exceed_five (E : Env) :
  (forall calls db, bounded db -> bounded (run E calls db))
  /\ (forall calls, bounded (run E calls []))
  /\ (forall u withPassword statusCode now db,
         findById (_id u) db = Some u ->
         exists u',
           findById (_id u)
             (fst (createSendToken E (hydrate withPassword u) statusCode now
                     db))
           = Some u'
           /\ refreshTokens u'
              = pushRefreshToken
                  {| token := signRefreshToken E (_id u) now;
                     createdAt := now |}
                  (refreshTokens u))
  /\ (forall e rts,
         List.length (pushRefreshToken e rts)
         = Nat.min (List.length rts + 1) 5
         /\ exists evicted,
              (rts ++ [e] = evicted ++ pushRefreshToken e rts)%list).
Proof.
  split; [|split; [|split]].
  - intros calls db. apply run_bounded.
  - intros calls. apply run_bounded. constructor.
  - intros. apply createSendToken_stored. assumption.
  - intros e rts. split;
      [apply pushRefreshToken_length | apply pushRefreshToken_suffix].
Qed.

(** ** Changing the password *)

Lemma updateById_fuse id f g db :
  (forall x, _id (f x) = _id x) ->
  updateById id g (updateById id f db)
  = updateById id (fun x => g (f x)) db.
Proof.
  intros Hid. unfold updateById. rewrite map_map. apply map_ext.
  intros x. destruct (_id x =? id)%string eqn:Hx.
  - rewrite Hid, Hx. reflexivity.
  - rewrite Hx. reflexivity.
Qed.

Lemma truthy_nonempty s : s <> "" -> Js.truthy s = true.
Proof.
  intros Hs. unfold Js.truthy.
  destruct (String.eqb_spec s ""); [contradiction | reflexivity].
Qed.

Lemma passwordValid_intro d :
  password (fields d) <> "" ->
  (8 <= String.length (password (fields d)))%nat ->
  passwordConfirm (fields d) = password (fields d) ->
  passwordValid d = true.
Proof.
  intros Hpw Hlen Hconfirm. unfold passwordValid, required, minlength.
  rewrite Hconfirm, String.eqb_refl, (truthy_nonempty _ Hpw).
  apply Nat.leb_le in Hlen. rewrite Hlen.
  destruct (selectedPassword d || isModified p_password d); reflexivity.
Qed.


(** A validated save of a loaded document whose password was assigned. *)
Lemma save_password_change E d now db :
  isNew d = false ->
  isModified p_password d = true ->
  fieldsValid E (fields d) = true ->
  password (fields d) <> "" ->
  (8 <= String.length (password (fields d)))%nat ->
  passwordConfirm (fields d) = password (fields d) ->
  save E true d now db
  = inr (updated now (passwordSaved E now d),
         writeBack (passwordSaved E now d) now db).
Proof.
  intros Hold Hmod Hvalid Hpw Hlen Hconfirm.
  unfold save, validate.
  rewrite Hvalid, (passwordValid_intro d Hpw Hlen Hconfirm). cbn [andb negb].
  unfold preSave_hash. rewrite Hmod, (truthy_nonempty _ Hpw). cbn [negb].
  unfold preSave_changedAt.
  assert (Hmod' : forall p f,
             isModified p_password
               (assign p f
                  (assign p_password
                     (set_password
                        (bcrypt_hash E (password (fields d))
                           (bcryptRounds (config E)))) d)) = true).
  { intros p f. unfold isModified. cbn [modifiedPaths assign].
    destruct (in_dec Path_eq_dec p_password _) as [_|Hnot]; [reflexivity|].
    exfalso. apply Hnot. right. left. reflexivity. }
  rewrite Hmod'. cbn [negb orb isNew assign]. rewrite Hold.
  cbn [isNew assign modifiedPaths]. rewrite Hold. reflexivity.
Qed.

(** An unvalidated save of a loaded document whose password is untouched
    and that has a modified path. *)
Lemma save_bookkeeping E d now db :
  isNew d = false ->
  isModified p_password d = false ->
  modifiedPaths d <> [] ->
  save E false d now db = inr (updated now d, writeBack d now db).
Proof.
  intros Hold Hmod Hpaths. unfold save. cbn [andb].
  unfold preSave_hash. rewrite Hmod. cbn [negb].
  unfold preSave_changedAt. rewrite Hmod. cbn [negb orb].
  rewrite Hold. destruct (modifiedPaths d); [contradiction | reflexivity].
Qed.

Lemma stamp_id d now x : _id (stamp d now x) = _id x.
Proof.
  unfold stamp. destruct (isModified p_refreshTokens d); reflexivity.
Qed.

(** What [createSendToken] does with a document that has no modified
    path. *)
Lemma createSendToken_clean E f b statusCode now db :
  createSendToken E
    {| fields := f; modifiedPaths := []; isNew := false;
       selectedPassword := b |} statusCode now db
  = (updateById (_id f) (issueUpdate E (refreshTokens f) (_id f) now) db,
     tokenReply E statusCode (_id f) now).
Proof.
  unfold createSendToken.
  rewrite save_bookkeeping by (reflexivity || discriminate).
  reflexivity.
Qed.

Lemma createSendToken_saved E d statusCode now db :
  createSendToken E (saved d) statusCode now db
  = (updateById (_id (fields d))
       (issueUpdate E (refreshTokens (fields d)) (_id (fields d)) now) db,
     tokenReply E statusCode (_id (fields d)) now).
Proof. apply createSendToken_clean. Qed.

Lemma createSendToken_updated E t d statusCode now db :
  createSendToken E (updated t d) statusCode now db
  = (updateById (_id (fields d))
       (issueUpdate E (refreshTokens (fields d)) (_id (fields d)) now) db,
     tokenReply E statusCode (_id (fields d)) now).
Proof.
  unfold updated. rewrite createSendToken_clean.
  rewrite stamp_id, stamp_refreshTokens. reflexivity.
Qed.


Lemma resetPassword_success (E : Env) db now req u :
  findOne (resetQuery (sha256 E (params_token req)) now) db = Some u ->
  fieldsValid E u = true ->
  body_password (body req) <> "" ->
  (8 <= String.length (body_password (body req)))%nat ->
  body_passwordConfirm (body req) = body_password (body req) ->
  exists F,
    resetPassword E db now req
    = (updateById (_id u) F db,
       Json 200
         [("jwt", signToken E (_id u) now);
          ("refreshToken", signRefreshToken E (_id u) now)]
         (TokenBody (signToken E (_id u) now)
            (signRefreshToken E (_id u) now) (_id u)))
    /\ passwordChanged E (body_password (body req)) now F
    /\ forall x, passwordResetToken (F x) = None
                 /\ passwordResetExpires (F x) = None.
Proof.
  intros Hfind Hvalid Hpw Hlen Hconfirm.
  unfold resetPassword. rewrite Hfind. cbn [option_map].
  unfold assign_password. cbn [hydrate selectedPassword andb].
  rewrite save_password_change;
    [|reflexivity|reflexivity|exact Hvalid|exact Hpw|exact Hlen|exact Hconfirm].
  rewrite createSendToken_updated.
  unfold writeBack.
  rewrite updateById_fuse by (intros x; reflexivity).
  eexists. split; [reflexivity|].
  split.
  - intros x. split; [reflexivity|]. split; [reflexivity|].
    split; [reflexivity|]. split; reflexivity.
  - intros x. split; reflexivity.
Qed.

Lemma updatePassword_success (E : Env) db now req authenticated u :
  user req = Some authenticated ->
  findById (_id (fields authenticated)) db = Some u ->
  correctPassword E (body_passwordCurrent (body req)) (password u) = true ->
  password u <> body_password (body req) ->
  fieldsValid E u = true ->
  body_password (body req) <> "" ->
  (8 <= String.length (body_password (body req)))%nat ->
  body_passwordConfirm (body req) = body_password (body req) ->
  exists F,
    updatePassword E db now req
    = (updateById (_id u) F db,
       Json 200
         [("jwt", signToken E (_id u) now);
          ("refreshToken", signRefreshToken E (_id u) now)]
         (TokenBody (signToken E (_id u) now)
            (signRefreshToken E (_id u) now) (_id u)))
    /\ passwordChanged E (body_password (body req)) now F.
Proof.
  intros Huser Hfind Hcurrent Hfresh Hvalid Hpw Hlen Hconfirm.
  unfold updatePassword. rewrite Huser, Hfind. cbn [option_map].
  cbn [hydrate fields]. rewrite Hcurrent. cbn [negb].
  unfold assign_password. cbn [selectedPassword fields hydrate andb].
  apply String.eqb_neq in Hfresh. rewrite Hfresh.
  rewrite save_password_change;
    [|reflexivity|reflexivity|exact Hvalid|exact Hpw|exact Hlen|exact Hconfirm].
  rewrite createSendToken_updated.
  unfold writeBack.
  rewrite updateById_fuse by (intros x; reflexivity).
  eexists. split; [reflexivity|].
  intros x. split; [reflexivity|]. split; [reflexivity|].
  split; [reflexivity|]. split; reflexivity.
Qed.

Lemma findById_exists id db u :
  In u db -> _id u = id -> active u = true ->
  exists u0, findById id db = Some u0.
Proof.
  intros Hin Hid Hact.
  destruct (findById id db) as [u0|] eqn:Hfind; [eauto|].
  exfalso. unfold findById, findOne in Hfind.
  pose proof (find_none _ _ Hfind u Hin) as Hq.
  unfold preFind in Hq. rewrite Hid, String.eqb_refl, Hact in Hq.
  discriminate.
Qed.

(** The session guard on a token of a user whose password has just been
    changed at [changed]: only the issue second decides. *)
Lemma protect_after_change (E : Env) db id F newPassword changed now req tok
  decoded u0 :
  passwordChanged E newPassword changed F ->
  findById id db = Some u0 ->
  extractToken req = Some tok ->
  tok <> "" ->
  jwt_verify E tok (jwt_secret (config E)) now = Some decoded ->
  payload_id decoded = id ->
  protect E (updateById id F db) now req
  = if iat decoded <? Z.quot (changed - 1000) 1000
    then NextErr (ApiError 401
           "User recently changed password! Please log in again.")
    else Next (set_user (Some (hydrate false (F u0))) req).
Proof.
  intros HF Hfind Htok Hne Hverify Hid.
  rewrite (protect_verified E _ now req tok decoded Htok Hne Hverify).
  rewrite Hid. unfold findById.
  rewrite findOne_updateById.
  2:{ intros x. unfold preFind. destruct (HF x) as (-> & -> & _). reflexivity. }
  fold (findById id db). rewrite Hfind. simpl.
  pose proof (findById_found _ _ _ Hfind) as (_ & Hid0 & Hact0).
  rewrite Hid0, String.eqb_refl.
  destruct (HF u0) as (_ & Hact & _ & Hchanged & _).
  unfold changedPasswordAfter, Js.parseInt_div. rewrite Hchanged.
  rewrite Hact, Hact0. reflexivity.
Qed.

Lemma issued_two_seconds_before (t0 t1 : Z) :
  t0 + 2000 <= t1 -> t0 / 1000 < Z.quot (t1 - 1000) 1000.
Proof.
  intros Hgap.
  assert (Hfloor : t0 / 1000 + 1 <= (t1 - 1000) / 1000).
  { replace (t0 / 1000 + 1) with ((t0 + 1 * 1000) / 1000)
      by (rewrite Z.div_add by lia; reflexivity).
    apply Z.div_le_mono; lia. }
  assert (Hquot : (t1 - 1000) / 1000 <= Z.quot (t1 - 1000) 1000).
  { destruct (Z.le_gt_cases 0 (t1 - 1000)) as [Hpos|Hneg].
    - rewrite Z.quot_div_nonneg by lia. lia.
    - pose proof (Z.quot_rem' (t1 - 1000) 1000) as Hqr.
      pose proof (Z.rem_bound_pos_neg (t1 - 1000) 1000) as Hrem.
      pose proof (Z.div_mod (t1 - 1000) 1000) as Hdm.
      pose proof (Z.mod_pos_bound (t1 - 1000) 1000) as Hmod.
      lia. }
  lia.
Qed.


Lemma guardAfterChange_intro (E : Env) db id F newPassword changed now req
  tok decoded u0 :
  passwordChanged E newPassword changed F ->
  findById id db = Some u0 ->
  extractToken req = Some tok ->
  tok <> "" ->
  jwt_verify E tok (jwt_secret (config E)) now = Some decoded ->
  payload_id decoded = id ->
  guardAfterChange E (updateById id F db) changed now req decoded.
Proof.
  intros HF Hfind Htok Hne Hverify Hid.
  pose proof (protect_after_change E db id F newPassword changed now req tok
                decoded u0 HF Hfind Htok Hne Hverify Hid) as Hprotect.
  unfold guardAfterChange. rewrite Hprotect.
  split; [|split].
  - intros Hlt. apply Z.ltb_lt in Hlt. rewrite Hlt. reflexivity.
  - intros Hge. apply Z.ltb_ge in Hge. rewrite Hge. eauto.
  - intros t0 Hiat Hgap.
    pose proof (issued_two_seconds_before t0 changed Hgap) as Hlt.
    rewrite <- Hiat in Hlt. apply Z.ltb_lt in Hlt. rewrite Hlt. reflexivity.
Qed.

(** C1 (amended): after a password change through reset-password or
    update-password, saved at time [t1], the session guard rejects an older
    access token of that user with 'User recently changed password! Please
    log in again.' exactly when the token's issue second is smaller than the
    second of [t1 - 1000 ms]; this covers every token issued at least two
    seconds before the change.  A token whose issue second is not smaller
    passes this check. *)
Theorem stale_token_after_password_change (E : Env) :
  (forall db t1 creq u now req tok decoded,
      findOne (resetQuery (sha256 E (params_token creq)) t1) db = Some u ->
      fieldsValid E u = true ->
      body_password (body creq) <> "" ->
      (8 <= String.length (body_password (body creq)))%nat ->
      body_passwordConfirm (body creq) = body_password (body creq) ->
      extractToken req = Some tok ->
      tok <> "" ->
      jwt_verify E tok (jwt_secret (config E)) now = Some decoded ->
      payload_id decoded = _id u ->
      guardAfterChange E (fst (resetPassword E db t1 creq)) t1 now req decoded)
  /\
  (forall db t1 creq authenticated u now req tok decoded,
      user creq = Some authenticated ->
      findById (_id (fields authenticated)) db = Some u ->
      correctPassword E (body_passwordCurrent (body creq)) (password u)
      = true ->
      password u <> body_password (body creq) ->
      fieldsValid E u = true ->
      body_password (body creq) <> "" ->
      (8 <= String.length (body_password (body creq)))%nat ->
      body_passwordConfirm (body creq) = body_password (body creq) ->
      extractToken req = Some tok ->
      tok <> "" ->
      jwt_verify E tok (jwt_secret (config E)) now = Some decoded ->
      payload_id decoded = _id u ->
      guardAfterChange E (fst (updatePassword E db t1 creq)) t1 now req
        decoded).
Proof.
  split.
  - intros db t1 creq u now req tok decoded Hfind Hvalid Hpw Hlen Hconfirm
      Htok Hne Hverify Hid.
    destruct (resetPassword_success E db t1 creq u Hfind Hvalid Hpw Hlen
                Hconfirm) as (F & -> & HF & _).
    pose proof (find_some _ _ Hfind) as [Hin Hq].
    unfold preFind in Hq. apply andb_true_iff in Hq. destruct Hq as [_ Hact].
    assert (Hactive : active u = true) by (destruct (active u); auto).
    destruct (findById_exists (_id u) db u Hin eq_refl Hactive) as [u0 Hu0].
    simpl. eapply guardAfterChange_intro; eassumption.
  - intros db t1 creq authenticated u now req tok decoded Huser Hfind Hcurrent
      Hfresh Hvalid Hpw Hlen Hconfirm Htok Hne Hverify Hid.
    destruct (updatePassword_success E db t1 creq authenticated u Huser Hfind
                Hcurrent Hfresh Hvalid Hpw Hlen Hconfirm) as (F & -> & HF).
    pose proof (findById_found _ _ _ Hfind) as (_ & Hidu & _).
    rewrite <- Hidu in Hfind.
    simpl. eapply guardAfterChange_intro; eassumption.
Qed.

(** ** Password reset tokens *)

(** C6: consuming a valid, unexpired reset token (with a new password the
    schema accepts) answers 200 with a token pair, stores the hash of the
    new password and clears the reset-token hash and its expiry; every later
    presentation of the same plaintext token is answered with 400 'Token is
    invalid or has expired'.  The digest is assumed to be stored for one
    user only, as 32 random bytes make it. *)
Theorem resetToken_single_use (E : Env) db now req u :
  findOne (resetQuery (sha256 E (params_token req)) now) db = Some u ->
  (forall x, In x db ->
             passwordResetToken x = Some (sha256 E (params_token req)) ->
             _id x = _id u) ->
  fieldsValid E u = true ->
  body_password (body req) <> "" ->
  (8 <= String.length (body_password (body req)))%nat ->
  body_passwordConfirm (body req) = body_password (body req) ->
  exists db',
    resetPassword E db now req
    = (db',
       Json 200
         [("jwt", signToken E (_id u) now);
          ("refreshToken", signRefreshToken E (_id u) now)]
         (TokenBody (signToken E (_id u) now)
            (signRefreshToken E (_id u) now) (_id u)))
    /\ (exists u', In u' db' /\ _id u' = _id u)
    /\ (forall u', In u' db' -> _id u' = _id u ->
          password u'
          = bcrypt_hash E (body_password (body req)) (bcryptRounds (config E))
          /\ passwordChangedAt u' = Some (now - 1000)
          /\ passwordResetToken u' = None
          /\ passwordResetExpires u' = None)
    /\ (forall now' req',
          params_token req' = params_token req ->
          resetPassword E db' now' req'
          = (db', NextErr (ApiError 400 "Token is invalid or has expired"))).
Proof.
  intros Hfind Hunique Hvalid Hpw Hlen Hconfirm.
  destruct (resetPassword_success E db now req u Hfind Hvalid Hpw Hlen
              Hconfirm) as (F & Hreset & HF & Hcleared).
  exists (updateById (_id u) F db). split; [exact Hreset|].
  pose proof (find_some _ _ Hfind) as [Hin _].
  assert (Hshape : forall u', In u' (updateById (_id u) F db) ->
            exists x, In x db
              /\ u' = if (_id x =? _id u)%string then F x else x).
  { intros u' Hu'. unfold updateById in Hu'. apply in_map_iff in Hu'.
    destruct Hu' as (x & <- & Hx). eauto. }
  split; [|split].
  - exists (F u). split; [|apply HF].
    unfold updateById. apply in_map_iff. exists u.
    rewrite String.eqb_refl. auto.
  - intros u' Hu' Hid. destruct (Hshape u' Hu') as (x & Hx & ->).
    destruct (String.eqb_spec (_id x) (_id u)) as [_|Hne]; [|contradiction].
    destruct (HF x) as (_ & _ & Hp & Hc & _).
    destruct (Hcleared x) as [Ht He]. auto.
  - intros now' req' Hparam. unfold resetPassword. rewrite Hparam.
    rewrite findOne_none; [reflexivity|].
    intros u' Hu'. destruct (Hshape u' Hu') as (x & Hx & ->).
    unfold resetQuery.
    destruct (String.eqb_spec (_id x) (_id u)) as [_|Hne].
    + destruct (Hcleared x) as [-> _]. reflexivity.
    + destruct (passwordResetToken x) as [h|] eqn:Hh; [|reflexivity].
      destruct (passwordResetExpires x); [|reflexivity].
      destruct (String.eqb_spec h (sha256 E (params_token req))) as [->|_];
        [|reflexivity].
      exfalso. apply Hne. apply Hunique; assumption.
Qed.

(** ** Logout *)

Lemma unique_by_id db x y :
  NoDup (map _id db) -> In x db -> In y db -> _id x = _id y -> x = y.
Proof.
  induction db as [|a db IH]; simpl; intros Hnodup Hx Hy Hid; [contradiction|].
  inversion Hnodup as [|? ? Hnotin Hrest]; subst.
  destruct Hx as [->|Hx], Hy as [->|Hy]; auto.
  - exfalso. apply Hnotin. rewrite Hid. apply in_map. exact Hy.
  - exfalso. apply Hnotin. rewrite <- Hid. apply in_map. exact Hx.
Qed.

Lemma Forall2_map_in {A} (R : A -> A -> Prop) (g : A -> A) (l : list A) :
  (forall x, In x l -> R x (g x)) -> Forall2 R l (map g l).
Proof.
  induction l as [|a l IH]; intros HR; simpl; constructor.
  - apply HR. now left.
  - apply IH. intros x Hx. apply HR. now right.
Qed.


Lemma sameEntries_eq xs ys : sameEntries xs ys = true <-> xs = ys.
Proof.
  revert ys. induction xs as [|x xs IH]; intros [|y ys]; simpl;
    try (split; [discriminate | discriminate]); [tauto|].
  rewrite !andb_true_iff, IH, String.eqb_eq, Z.eqb_eq.
  destruct x as [tx cx], y as [ty cy]; simpl. split.
  - intros [[-> ->] ->]. reflexivity.
  - intros [= -> -> ->]. auto.
Qed.

(** A save of a loaded document without a modified path writes nothing. *)
Lemma save_nothing E b u now db :
  save E false (hydrate b u) now db = inr (hydrate b u, db).
Proof. reflexivity. Qed.

(** C10 (amended): [logout] always answers 200 'Logged out successfully'.
    Record by record, the collection afterwards differs from the one before
    in [refreshTokens], [updatedAt] and [__v] only: the authenticated user
    loses exactly the entries equal to the presented cookie; a record whose
    list is as before is unchanged altogether; a record that lost an entry
    has [updatedAt] at the clock and its version key grown by one; without
    a cookie or without an authenticated user the collection is
    unchanged. *)
Theorem logout_only_touches_refreshTokens (E : Env) db now req :
  NoDup (map _id db) ->
  (user req = None \/ exists req0, protect E db now req0 = Next req) ->
  exists db',
    logout E db now req = (db', loggedOut)
    /\ Forall2 (fun x x' =>
                  withoutBookkeeping (set_refreshTokens [] x')
                  = withoutBookkeeping (set_refreshTokens [] x)
                  /\ refreshTokens x' = afterLogout req x
                  /\ (refreshTokens x' = refreshTokens x -> x' = x)
                  /\ (refreshTokens x' <> refreshTokens x ->
                      updatedAt x' = now /\ __v x' = __v x + 1)) db db'
    /\ (cookies_refreshToken req = None
        \/ cookies_refreshToken req = Some ""
        \/ user req = None -> db' = db).
Proof.
  intros Hnodup Hauth.
  assert (Hsame : forall keep : User -> list RefreshEntry,
             (forall x, In x db -> keep x = refreshTokens x) ->
             Forall2 (fun x x' =>
                    withoutBookkeeping (set_refreshTokens [] x')
                    = withoutBookkeeping (set_refreshTokens [] x)
                    /\ refreshTokens x' = keep x
                    /\ (refreshTokens x' = refreshTokens x -> x' = x)
                    /\ (refreshTokens x' <> refreshTokens x ->
                        updatedAt x' = now /\ __v x' = __v x + 1)) db db).
  { intros keep Hkeep. rewrite <- (map_id db) at 2. apply Forall2_map_in.
    intros x Hx. rewrite (Hkeep x Hx).
    split; [reflexivity|]. split; [reflexivity|].
    split; [reflexivity|]. intros Hne. contradiction. }
  unfold logout.
  destruct (cookies_refreshToken req) as [presented|] eqn:Hcookie.
  2:{ exists db. split; [reflexivity|]. split; [|auto].
      apply Hsame. intros x _. unfold afterLogout. rewrite Hcookie.
      reflexivity. }
  destruct Hauth as [Hnone | [req0 Hprotect]].
  { rewrite Hnone. exists db. split; [reflexivity|]. split; [|auto].
    apply Hsame. intros x _. unfold afterLogout.
    rewrite Hcookie, Hnone. reflexivity. }
  apply protect_attaches_stored in Hprotect.
  destruct Hprotect as (stored & Hin & _ & _ & ->).
  cbn [user set_user]. unfold Js.truthy.
  destruct (String.eqb_spec presented "") as [->|Hne]; cbn [negb].
  { exists db. split; [reflexivity|]. split; [|auto].
    apply Hsame. intros x _. unfold afterLogout.
    cbn [cookies_refreshToken set_user] in Hcookie. cbn [user set_user].
    cbn [cookies_refreshToken set_user]. rewrite Hcookie. reflexivity. }
  cbn [cookies_refreshToken set_user] in Hcookie.
  assert (Hafter : forall x, In x db ->
            afterLogout (set_user (Some (hydrate false stored)) req0) x
            = if (_id x =? _id stored)%string
              then filter (fun e => negb (token e =? presented)%string)
                     (refreshTokens x)
              else refreshTokens x).
  { intros x _. unfold afterLogout, Js.truthy.
    cbn [cookies_refreshToken set_user user]. rewrite Hcookie.
    destruct (String.eqb_spec presented "") as [|_]; [contradiction|].
    reflexivity. }
  unfold assign_refreshTokens.
  change (refreshTokens (fields (hydrate false stored)))
    with (refreshTokens stored).
  destruct (sameEntries _ (refreshTokens stored)) eqn:Hkept.
  - apply sameEntries_eq in Hkept.
    rewrite save_nothing. exists db. split; [reflexivity|]. split.
    + apply Hsame. intros x Hx. rewrite (Hafter x Hx).
      destruct (String.eqb_spec (_id x) (_id stored)) as [Hid|_];
        [|reflexivity].
      rewrite (unique_by_id db x stored Hnodup Hx Hin Hid). exact Hkept.
    + intros [Habsurd | [Habsurd | Habsurd]]; try discriminate.
      injection Habsurd as ->. contradiction.
  - assert (Hlost : filter (fun e => negb (token e =? presented)%string)
                      (refreshTokens stored) <> refreshTokens stored).
    { intros Heq. apply sameEntries_eq in Heq. congruence. }
    rewrite save_bookkeeping by (reflexivity || discriminate).
    eexists. split; [reflexivity|]. split.
    + unfold writeBack, updateById. cbn [fields hydrate assign _id
        set_password set_refreshTokens modifiedPaths fold_right writePath
        refreshTokens].
      apply Forall2_map_in.
      intros x Hx. rewrite (Hafter x Hx).
      destruct (String.eqb_spec (_id x) (_id stored)) as [Hid|_].
      * rewrite (unique_by_id db x stored Hnodup Hx Hin Hid).
        split; [reflexivity|]. split; [reflexivity|].
        split; [intros Heq; exfalso; apply Hlost; exact Heq|].
        intros _. split; reflexivity.
      * split; [reflexivity|]. split; [reflexivity|].
        split; [reflexivity|]. intros Hneq. contradiction.
    + intros [Habsurd | [Habsurd | Habsurd]]; try discriminate.
      injection Habsurd as ->. contradiction.
Qed.

(** ** Scenarios *)

(** C7: a user deactivates the account (delete-me) and then presents the
    access token issued before.  The token verifies and its subject is the
    stored, inactive record, yet [protect] answers 'does no longer exist':
    the find hook hides the record before the check of [active] is
    reached, so the 'account deactivated' answer is never given. *)
Theorem protect_reports_inactive_user_as_missing :
  let tok := "access.u1.5" in
  let db1 := fst (route Demo.env DeleteMe [Demo.alice] 5500
                    (Demo.bearer tok Demo.noBody)) in
  jwt_verify Demo.env tok (jwt_secret (config Demo.env)) 6000
  = Some {| payload_id := "u1"; iat := 5; exp := 5 + Demo.lifetime |}
  /\ map (fun x => (_id x, active x)) db1 = [("u1", false)]
  /\ protect Demo.env db1 6000 (Demo.bearer tok Demo.noBody)
     = NextErr (ApiError 401
         "The user belonging to this token does no longer exist.").
Proof. vm_compute. repeat split; reflexivity. Qed.

(** C1, counterexample: a token issued at 5000 ms, the password updated at
    5500 ms (stored [passwordChangedAt] = 4500), and the old token is still
    accepted at 6000 ms. *)
Lemma token_of_the_same_second_survives :
  exists tok refresh db1 db2,
    login Demo.env [Demo.alice] 5000
      (Demo.request (Demo.credentials "a@b.com" "Secret123!"))
    = (db1, Json 200 [("jwt", tok); ("refreshToken", refresh)]
              (TokenBody tok refresh "u1"))
    /\ fst (route Demo.env PatchUpdatePassword db1 5500
              (Demo.bearer tok (Demo.newPassword "Secret123!" "NewSecret456")))
       = db2
    /\ map (fun x => (password x, passwordChangedAt x)) db2
       = [("$2a$12$NewSecret456", Some 4500)]
    /\ protect Demo.env db2 6000 (Demo.bearer tok Demo.noBody)
       <> NextErr (ApiError 401
            "User recently changed password! Please log in again.")
    /\ exists req', protect Demo.env db2 6000 (Demo.bearer tok Demo.noBody)
                    = Next req'.
Proof.
  do 4 eexists. split; [vm_compute; reflexivity|].
  split; [vm_compute; reflexivity|].
  split; [vm_compute; reflexivity|].
  split; [vm_compute; discriminate|].
  eexists. vm_compute. reflexivity.
Qed.

(** C4, counterexample: the fifth failure on [alice4] locks the account
    until 1000 + 7200000 and leaves the counter at 5. *)
Lemma fifth_failure_keeps_the_counter :
  let req := Demo.request (Demo.credentials "a@b.com" "wrong-password") in
  map (fun x => (loginAttempts x, lockUntil x))
    (fst (login Demo.env [Demo.alice4] 1000 req))
  = [(5, Some 7201000)]
  /\ ~ lockResetsCounter Demo.env [Demo.alice4] 1000 req.
Proof.
  split; [vm_compute; reflexivity|].
  intros Hclaim.
  destruct (Hclaim Demo.alice4
              (set_updatedAt 1000
                 (set_lockUntil (Some 7201000)
                    (set_loginAttempts 5 Demo.alice4)))) as [_ Hreset].
  - vm_compute. reflexivity.
  - vm_compute. reflexivity.
  - vm_compute. reflexivity.
  - split; [discriminate|]. split; [vm_compute; reflexivity|].
    split; [discriminate|]. vm_compute. reflexivity.
  - vm_compute. reflexivity.
  - vm_compute in Hreset. discriminate.
Qed.

(** C10, counterexample: [aliceSessions], stored with [updatedAt] 0 and
    version 0, logs out at 6000 with the cookie of a stored session. The
    save that removes the entry also sets [updatedAt] to 6000 and raises the
    version key to 1. *)
Lemma logout_rewrites_updatedAt :
  let req0 := Demo.withRefreshCookie "refresh.u1.5"
                (Demo.bearer "access.u1.5" Demo.noBody) in
  let req := set_user (Some (hydrate false Demo.aliceSessions)) req0 in
  protect Demo.env [Demo.aliceSessions] 6000 req0 = Next req
  /\ map (fun x => (map token (refreshTokens x), updatedAt x, __v x))
       [Demo.aliceSessions]
     = [(["refresh.u1.3"; "refresh.u1.5"], 0, 0)]
  /\ map (fun x => (map token (refreshTokens x), updatedAt x, __v x))
       (fst (logout Demo.env [Demo.aliceSessions] 6000 req))
     = [(["refresh.u1.3"], 6000, 1)]
  /\ ~ logoutKeepsOtherFields Demo.env [Demo.aliceSessions] 6000 req.
Proof.
  split; [vm_compute; reflexivity|].
  split; [vm_compute; reflexivity|].
  split; [vm_compute; reflexivity|].
  intros Hclaim. unfold logoutKeepsOtherFields in Hclaim.
  vm_compute in Hclaim.
  inversion Hclaim as [|x x' l l' Hhead _]. discriminate Hhead.
Qed.

(** ** Instances on the concrete environment *)

(** C1 at concrete inputs: [aliceReset] consumes the reset token at 100000,
    [alice] updates the password at 100000; the token issued at 5000 is
    then judged at 110000. *)
Lemma stale_token_after_password_change_witness :
  guardAfterChange Demo.env
    (fst (resetPassword Demo.env [Demo.aliceReset] 100000
            (Demo.withParam "plain"
               (Demo.request (Demo.newPassword "" "NewSecret456")))))
    100000 110000 (Demo.bearer "access.u1.5" Demo.noBody)
    {| payload_id := "u1"; iat := 5; exp := 5 + Demo.lifetime |}
  /\ guardAfterChange Demo.env
       (fst (updatePassword Demo.env [Demo.alice] 100000
               (set_user (Some (hydrate false Demo.alice))
                  (Demo.request
                     (Demo.newPassword "Secret123!" "NewSecret456")))))
       100000 110000 (Demo.bearer "access.u1.5" Demo.noBody)
       {| payload_id := "u1"; iat := 5; exp := 5 + Demo.lifetime |}.
Proof.
  split.
  - apply (proj1 (stale_token_after_password_change Demo.env)
             [Demo.aliceReset] 100000 _ Demo.aliceReset 110000 _
             "access.u1.5").
    + vm_compute; reflexivity.
    + vm_compute; reflexivity.
    + discriminate.
    + simpl; lia.
    + reflexivity.
    + vm_compute; reflexivity.
    + discriminate.
    + vm_compute; reflexivity.
    + reflexivity.
  - apply (proj2 (stale_token_after_password_change Demo.env)
             [Demo.alice] 100000 _ (hydrate false Demo.alice) Demo.alice
             110000 _ "access.u1.5").
    + reflexivity.
    + vm_compute; reflexivity.
    + vm_compute; reflexivity.
    + discriminate.
    + vm_compute; reflexivity.
    + discriminate.
    + simpl; lia.
    + reflexivity.
    + vm_compute; reflexivity.
    + discriminate.
    + vm_compute; reflexivity.
    + reflexivity.
Defined.

(** C2 at a concrete input: a signed refresh token of [alice], who has no
    session stored. *)
Lemma refreshToken_unknown_rejected_witness :
  refreshToken Demo.env [Demo.alice] 6000
    (Demo.withRefreshCookie "refresh.u1.5" (Demo.request Demo.noBody))
  = ([Demo.alice], NextErr (ApiError 401 "Invalid refresh token")).
Proof.
  apply (refreshToken_unknown_rejected Demo.env [Demo.alice] 6000 _
           "refresh.u1.5"
           {| payload_id := "u1"; iat := 5; exp := 5 + Demo.lifetime |}
           Demo.alice).
  - reflexivity.
  - discriminate.
  - vm_compute; reflexivity.
  - vm_compute; reflexivity.
  - simpl. intros e [].
Defined.

(** C3 at concrete inputs: a login on [aliceLocked], and five wrong
    passwords on [alice], the address typed in capitals, followed by the
    right one inside the window. *)
Lemma login_locked_before_password_witness :
  login Demo.env [Demo.aliceLocked] 6000
    (Demo.request (Demo.credentials "a@b.com" "Secret123!"))
  = ([Demo.aliceLocked],
     NextErr (ApiError 423
       "Account temporarily locked due to too many failed login attempts"))
  /\ let wrong := Demo.request (Demo.credentials "A@B.COM" "guess") in
     let locked :=
       run Demo.env
         (loginCalls ([(1000, wrong); (2000, wrong); (3000, wrong);
                       (4000, wrong)] ++ [(5000, wrong)]))
         [Demo.alice] in
     login Demo.env locked 6000
       (Demo.request (Demo.credentials "a@b.com" "Secret123!"))
     = (locked,
        NextErr (ApiError 423
          "Account temporarily locked due to too many failed login attempts")).
Proof.
  split.
  - apply (proj1 (login_locked_before_password Demo.env) [Demo.aliceLocked]
             6000 _ Demo.aliceLocked 9000000).
    + discriminate.
    + discriminate.
    + vm_compute; reflexivity.
    + reflexivity.
    + lia.
  - apply (proj2 (login_locked_before_password Demo.env) [Demo.alice]
             Demo.alice "a@b.com").
    + vm_compute; reflexivity.
    + reflexivity.
    + reflexivity.
    + reflexivity.
    + repeat constructor; simpl; discriminate.
    + discriminate.
    + vm_compute; reflexivity.
    + discriminate.
    + vm_compute; reflexivity.
    + lia.
Defined.

(** C4 at a concrete input: the fifth failure on [alice4]. *)
Lemma failed_login_counter_witness :
  exists db' u',
    login Demo.env [Demo.alice4] 1000
      (Demo.request (Demo.credentials "a@b.com" "guess"))
    = (db', NextErr (ApiError 401 "Incorrect email or password"))
    /\ findOne (byEmail Demo.env "a@b.com") db' = Some u'
    /\ ((exists l, lockUntil Demo.alice4 = Some l /\ l < 1000) ->
        loginAttempts u' = 1 /\ lockUntil u' = None)
    /\ ((forall l, lockUntil Demo.alice4 = Some l -> 1000 <= l) ->
        loginAttempts u' = loginAttempts Demo.alice4 + 1
        /\ lockUntil u'
           = if 5 <=? loginAttempts Demo.alice4 + 1
             then Some (1000 + 2 * 60 * 60 * 1000)
             else lockUntil Demo.alice4).
Proof.
  apply (failed_login_counter Demo.env [Demo.alice4] 1000
           (Demo.request (Demo.credentials "a@b.com" "guess")) Demo.alice4).
  - discriminate.
  - discriminate.
  - vm_compute; reflexivity.
  - reflexivity.
  - vm_compute; reflexivity.
Defined.

(** C5 at concrete inputs: two logins and a refresh on [alice], and a
    sixth token issued to a user who holds five. *)
Lemma refreshTokens_never_exceed_five_witness :
  bounded
    (run Demo.env
       [(PostLogin, 3000,
         Demo.request (Demo.credentials "a@b.com" "Secret123!"));
        (PostLogin, 5000,
         Demo.request (Demo.credentials "a@b.com" "Secret123!"));
        (PostRefreshToken, 6000,
         Demo.withRefreshCookie "refresh.u1.5" (Demo.request Demo.noBody))]
       [Demo.alice])
  /\ exists u',
       findById "u1"
         (fst (createSendToken Demo.env (hydrate false Demo.aliceFive) 200
                 9000 [Demo.aliceFive]))
       = Some u'
       /\ refreshTokens u'
          = pushRefreshToken
              {| token := signRefreshToken Demo.env "u1" 9000;
                 createdAt := 9000 |}
              (refreshTokens Demo.aliceFive).
Proof.
  split.
  - apply (proj1 (refreshTokens_never_exceed_five Demo.env)).
    constructor; [|constructor]. unfold capped. simpl. lia.
  - apply (proj1 (proj2 (proj2 (refreshTokens_never_exceed_five Demo.env)))
             Demo.aliceFive false 200 9000 [Demo.aliceFive]).
    vm_compute; reflexivity.
Defined.

(** C6 at a concrete input: [aliceReset] consumes the token [plain]. *)
Lemma resetToken_single_use_witness :
  let req := Demo.withParam "plain"
               (Demo.request (Demo.newPassword "" "NewSecret456")) in
  exists db',
    resetPassword Demo.env [Demo.aliceReset] 100000 req
    = (db',
       Json 200
         [("jwt", signToken Demo.env "u1" 100000);
          ("refreshToken", signRefreshToken Demo.env "u1" 100000)]
         (TokenBody (signToken Demo.env "u1" 100000)
            (signRefreshToken Demo.env "u1" 100000) "u1"))
    /\ (exists u', In u' db' /\ _id u' = "u1")
    /\ (forall u', In u' db' -> _id u' = "u1" ->
          password u' = "$2a$12$NewSecret456"
          /\ passwordChangedAt u' = Some (100000 - 1000)
          /\ passwordResetToken u' = None
          /\ passwordResetExpires u' = None)
    /\ (forall now' req',
          params_token req' = "plain" ->
          resetPassword Demo.env db' now' req'
          = (db', NextErr (ApiError 400 "Token is invalid or has expired"))).
Proof.
  apply (resetToken_single_use Demo.env [Demo.aliceReset] 100000
           (Demo.withParam "plain"
              (Demo.request (Demo.newPassword "" "NewSecret456")))
           Demo.aliceReset).
  - vm_compute; reflexivity.
  - simpl. intros x [<-|[]] _. reflexivity.
  - vm_compute; reflexivity.
  - discriminate.
  - simpl; lia.
  - reflexivity.
Defined.

(** C8 at a concrete input: an e-mail nobody registered. *)
Lemma forgotPassword_unknown_email_witness :
  forgotPassword Demo.env "c0ffee" [Demo.alice] 1000
    (Demo.request (Demo.credentials "nobody@b.com" ""))
  = ([Demo.alice],
     NextErr (ApiError 404 "There is no user with that email address.")).
Proof.
  apply (forgotPassword_unknown_email Demo.env "c0ffee" [Demo.alice] 1000).
  simpl. intros u [<-|[]]. discriminate.
Defined.

(** C10 at a concrete input: [aliceSessions] logs out of the session of
    the cookie [refresh.u1.5]. *)
Lemma logout_only_touches_refreshTokens_witness :
  let req0 := Demo.withRefreshCookie "refresh.u1.5"
                (Demo.bearer "access.u1.5" Demo.noBody) in
  let req := set_user (Some (hydrate false Demo.aliceSessions)) req0 in
  exists db',
    logout Demo.env [Demo.aliceSessions] 6000 req = (db', loggedOut)
    /\ Forall2 (fun x x' =>
                  withoutBookkeeping (set_refreshTokens [] x')
                  = withoutBookkeeping (set_refreshTokens [] x)
                  /\ refreshTokens x' = afterLogout req x
                  /\ (refreshTokens x' = refreshTokens x -> x' = x)
                  /\ (refreshTokens x' <> refreshTokens x ->
                      updatedAt x' = 6000 /\ __v x' = __v x + 1))
         [Demo.aliceSessions] db'
    /\ (cookies_refreshToken req = None
        \/ cookies_refreshToken req = Some ""
        \/ user req = None -> db' = [Demo.aliceSessions]).
Proof.
  apply (logout_only_touches_refreshTokens Demo.env [Demo.aliceSessions] 6000).
  - constructor; [intros []|constructor].
  - right.
    exists (Demo.withRefreshCookie "refresh.u1.5"
              (Demo.bearer "access.u1.5" Demo.noBody)).
    vm_compute; reflexivity.
Defined.

(** * Further properties *)

(** ** Shared facts *)

Lemma createSendToken_hydrated E b u statusCode now db :
  createSendToken E (hydrate b u) statusCode now db
  = (updateById (_id u) (issueUpdate E (refreshTokens u) (_id u) now) db,
     tokenReply E statusCode (_id u) now).
Proof.
  unfold hydrate. rewrite createSendToken_clean. destruct b; reflexivity.
Qed.

Lemma findById_updateById id' id F db :
  (forall x, _id (F x) = _id x /\ active (F x) = active x) ->
  findById id' (updateById id F db)
  = option_map (fun x => if (_id x =? id)%string then F x else x)
      (findById id' db).
Proof.
  intros HF. unfold findById. apply findOne_updateById.
  intros x. unfold preFind. destruct (HF x) as [-> ->]. reflexivity.
Qed.

Lemma split_noSpace s : noSpace s -> Js.split " "%char s = [s].
Proof.
  unfold noSpace. induction s as [|c s IH]; simpl; intros Hs; [reflexivity|].
  destruct (Ascii.eqb_spec c " "%char) as [->|_].
  - exfalso. apply Hs. now left.
  - rewrite IH by (intros Hin; apply Hs; now right). reflexivity.
Qed.

(** ** Session guard *)

(** X1: the header the API client builds from a stored token is read back
    by the session guard as that token, whatever cookie travels with it,
    for every non-empty token without a space. *)
Theorem bearer_header_round_trip (tok : string) (req : Request) :
  tok <> "" ->
  noSpace tok ->
  extractToken (requestInterceptor (Some tok) req) = Some tok.
Proof.
  intros Hne Hns. unfold requestInterceptor.
  rewrite (truthy_nonempty tok Hne). unfold extractToken.
  cbn [headers_authorization].
  change ("Bearer " ++ tok) with
    (String "B" (String "e" (String "a" (String "r" (String "e"
       (String "r" (String " " tok))))))).
  cbn [Js.truthy Js.startsWith String.prefix String.eqb Ascii.eqb Bool.eqb
       negb andb Js.split].
  rewrite (split_noSpace tok Hns). reflexivity.
Qed.

(** X2: the session guard passes a request on exactly when its token is
    non-empty and verifies, the subject is a stored active user, and that
    user has not changed the password after the token's issue second; the
    request passed on is the incoming one with that user attached. *)
Theorem protect_accepts_iff (E : Env) (db : Db) (now : Z) (req req' : Request) :
  protect E db now req = Next req'
  <-> exists tok decoded stored,
        extractToken req = Some tok
        /\ tok <> ""
        /\ jwt_verify E tok (jwt_secret (config E)) now = Some decoded
        /\ findById (payload_id decoded) db = Some stored
        /\ changedPasswordAfter stored (iat decoded) = false
        /\ req' = set_user (Some (hydrate false stored)) req.
Proof.
  split.
  - unfold protect.
    destruct (extractToken req) as [tok|] eqn:Htok; simpl; [|discriminate].
    unfold Js.truthy.
    destruct (String.eqb_spec tok "") as [_|Hne]; simpl; [discriminate|].
    destruct (jwt_verify E tok _ now) as [decoded|] eqn:Hverify;
      [|discriminate].
    destruct (findById (payload_id decoded) db) as [stored|] eqn:Hfind;
      [|discriminate].
    simpl.
    destruct (changedPasswordAfter (set_password "" stored) (iat decoded))
      eqn:Hchanged; [discriminate|].
    destruct (negb (active stored)); [discriminate|].
    intros [= <-]. exists tok, decoded, stored. auto 10.
  - intros (tok & decoded & stored & Htok & Hne & Hverify & Hfind & Hfresh
            & ->).
    rewrite (protect_verified E db now req tok decoded Htok Hne Hverify).
    rewrite Hfind, Hfresh.
    apply findById_found in Hfind. destruct Hfind as (_ & _ & ->).
    reflexivity.
Qed.

Lemma split_prefix_noSpace (p : string) :
  noSpace p -> forall rest, exists w ws,
    Js.split " "%char (p ++ rest) = (p ++ w) :: ws
    /\ Js.split " "%char rest = w :: ws.
Proof.
  unfold noSpace. induction p as [|c p IH]; simpl; intros Hp rest.
  - destruct (Js.split " "%char rest) as [|w ws] eqn:Hsplit.
    + destruct rest; simpl in Hsplit; [discriminate|].
      destruct (Ascii.eqb a " "%char); [discriminate|].
      destruct (Js.split " "%char rest); discriminate.
    + exists w, ws. auto.
  - destruct (Ascii.eqb_spec c " "%char) as [->|_].
    + exfalso. apply Hp. now left.
    + destruct (IH (fun Hin => Hp (or_intror Hin)) rest)
        as (w & ws & -> & Hrest).
      exists w, ws. auto.
Qed.

Lemma prefix_app (p s : string) : String.prefix p (p ++ s) = true.
Proof.
  induction p as [|c p IH]; simpl; [destruct s; reflexivity|].
  destruct (ascii_dec c c) as [_|Hne]; [exact IH | contradiction].
Qed.

(** X3: an [Authorization] header that starts with [Bearer] but carries no
    second space-separated part (such as [Bearer] alone or [Bearerabc])
    makes the session guard answer 401 'You are not logged in!' even when a
    valid [jwt] cookie is present: the cookie is read only when the header
    is absent or does not start with [Bearer]. *)
Theorem bearer_header_without_token_masks_cookie (E : Env) (db : Db) (now : Z)
  (req : Request) (suffix : string) :
  headers_authorization req = Some ("Bearer" ++ suffix) ->
  noSpace suffix ->
  protect E db now req
  = NextErr (ApiError 401
      "You are not logged in! Please log in to get access.").
Proof.
  intros Hheader Hns. unfold protect, extractToken. rewrite Hheader.
  assert (Htruthy : Js.truthy ("Bearer" ++ suffix) = true) by reflexivity.
  assert (Hstarts : Js.startsWith ("Bearer" ++ suffix) "Bearer" = true)
    by apply prefix_app.
  assert (Hwhole : noSpace ("Bearer" ++ suffix)).
  { unfold noSpace in *. simpl.
    intros [H|[H|[H|[H|[H|[H|H]]]]]]; try discriminate. contradiction. }
  rewrite Htruthy, Hstarts, (split_noSpace _ Hwhole). reflexivity.
Qed.

(** X4: [isLoggedIn] always calls [next()] without an error, and attaches a
    user only when the [jwt] cookie verifies, its subject is a stored active
    user and that user has not changed the password since the issue
    second. *)
Theorem isLoggedIn_never_fails (E : Env) (db : Db) (now : Z) (req : Request) :
  exists req',
    isLoggedIn E db now req = Next req'
    /\ (req' = req
        \/ exists tok decoded stored,
             cookies_jwt req = Some tok
             /\ tok <> ""
             /\ jwt_verify E tok (jwt_secret (config E)) now = Some decoded
             /\ findById (payload_id decoded) db = Some stored
             /\ active stored = true
             /\ changedPasswordAfter stored (iat decoded) = false
             /\ req' = set_user (Some (hydrate false stored)) req).
Proof.
  unfold isLoggedIn.
  destruct (cookies_jwt req) as [tok|] eqn:Hcookie; simpl; [|eauto].
  unfold Js.truthy.
  destruct (String.eqb_spec tok "") as [_|Hne]; simpl; [eauto|].
  destruct (jwt_verify E tok _ now) as [decoded|] eqn:Hverify; [|eauto].
  destruct (findById (payload_id decoded) db) as [stored|] eqn:Hfind;
    [|eauto].
  simpl.
  destruct (changedPasswordAfter (set_password "" stored) (iat decoded))
    eqn:Hchanged; [eauto|].
  eexists. split; [reflexivity|]. right.
  exists tok, decoded, stored.
  pose proof (findById_found _ _ _ Hfind) as (_ & _ & Hactive).
  auto 10.
Qed.

Lemma skewed_stamp_not_after_issue (t1 : Z) :
  Z.quot (t1 - 1000) 1000 <= t1 / 1000.
Proof.
  destruct (Z.le_gt_cases 0 (t1 - 1000)) as [Hpos|Hneg].
  - rewrite Z.quot_div_nonneg by lia.
    apply Z.div_le_mono; lia.
  - pose proof (Z.quot_rem' (t1 - 1000) 1000) as Hqr.
    pose proof (Z.rem_bound_neg_pos (t1 - 1000) (-1000)) as Hrem0.
    pose proof (Z.rem_bound_pos_neg (t1 - 1000) 1000) as Hrem.
    pose proof (Z.div_mod t1 1000) as Hdm.
    pose proof (Z.mod_pos_bound t1 1000) as Hmod.
    lia.
Qed.

(** X5: the token pair a password change issues is accepted afterwards.  A
    token of the user whose issue second is the second of the change, or a
    later one, passes the session guard on the collection the change
    leaves (reset-password and update-password alike): the stamp is moved
    back by one second for this. *)
Theorem token_issued_by_the_change_is_accepted (E : Env) :
  (forall db t1 creq u now req tok decoded,
      findOne (resetQuery (sha256 E (params_token creq)) t1) db = Some u ->
      fieldsValid E u = true ->
      body_password (body creq) <> "" ->
      (8 <= String.length (body_password (body creq)))%nat ->
      body_passwordConfirm (body creq) = body_password (body creq) ->
      extractToken req = Some tok ->
      tok <> "" ->
      jwt_verify E tok (jwt_secret (config E)) now = Some decoded ->
      payload_id decoded = _id u ->
      t1 / 1000 <= iat decoded ->
      exists req',
        protect E (fst (resetPassword E db t1 creq)) now req = Next req')
  /\
  (forall db t1 creq authenticated u now req tok decoded,
      user creq = Some authenticated ->
      findById (_id (fields authenticated)) db = Some u ->
      correctPassword E (body_passwordCurrent (body creq)) (password u)
      = true ->
      password u <> body_password (body creq) ->
      fieldsValid E u = true ->
      body_password (body creq) <> "" ->
      (8 <= String.length (body_password (body creq)))%nat ->
      body_passwordConfirm (body creq) = body_password (body creq) ->
      extractToken req = Some tok ->
      tok <> "" ->
      jwt_verify E tok (jwt_secret (config E)) now = Some decoded ->
      payload_id decoded = _id u ->
      t1 / 1000 <= iat decoded ->
      exists req',
        protect E (fst (updatePassword E db t1 creq)) now req = Next req').
Proof.
  split.
  - intros db t1 creq u now req tok decoded Hfind Hvalid Hpw Hlen Hconfirm
      Htok Hne Hverify Hid Hiat.
    destruct (resetPassword_success E db t1 creq u Hfind Hvalid Hpw Hlen
                Hconfirm) as (F & -> & HF & _).
    pose proof (find_some _ _ Hfind) as [Hin Hq].
    unfold preFind in Hq. apply andb_true_iff in Hq. destruct Hq as [_ Hact].
    assert (Hactive : active u = true) by (destruct (active u); auto).
    destruct (findById_exists (_id u) db u Hin eq_refl Hactive) as [u0 Hu0].
    simpl.
    rewrite (protect_after_change E db (_id u) F _ t1 now req tok decoded u0
               HF Hu0 Htok Hne Hverify Hid).
    pose proof (skewed_stamp_not_after_issue t1) as Hskew.
    assert (Hge : (iat decoded <? Z.quot (t1 - 1000) 1000) = false)
      by (apply Z.ltb_ge; lia).
    rewrite Hge. eauto.
  - intros db t1 creq authenticated u now req tok decoded Huser Hfind Hcurrent
      Hfresh Hvalid Hpw Hlen Hconfirm Htok Hne Hverify Hid Hiat.
    destruct (updatePassword_success E db t1 creq authenticated u Huser Hfind
                Hcurrent Hfresh Hvalid Hpw Hlen Hconfirm) as (F & -> & HF).
    pose proof (findById_found _ _ _ Hfind) as (_ & Hidu & _).
    rewrite <- Hidu in Hfind.
    simpl.
    rewrite (protect_after_change E db (_id u) F _ t1 now req tok decoded u
               HF Hfind Htok Hne Hverify Hid).
    pose proof (skewed_stamp_not_after_issue t1) as Hskew.
    assert (Hge : (iat decoded <? Z.quot (t1 - 1000) 1000) = false)
      by (apply Z.ltb_ge; lia).
    rewrite Hge. eauto.
Qed.

(** ** Refresh tokens *)

Lemma pushRefreshToken_short e rts :
  (List.length rts < 5)%nat -> pushRefreshToken e rts = (rts ++ [e])%list.
Proof.
  intros Hshort. unfold pushRefreshToken.
  destruct (Nat.ltb_spec 5 (List.length (rts ++ [e]))) as [Hlong|_];
    [|reflexivity].
  rewrite length_app in Hlong. simpl in Hlong. lia.
Qed.

Lemma pushRefreshToken_slice e rts :
  pushRefreshToken e rts = Js.slice_last 5 (rts ++ [e]).
Proof.
  unfold pushRefreshToken, Js.slice_last.
  destruct (Nat.ltb_spec 5 (List.length (rts ++ [e]))) as [_|Hshort];
    [reflexivity|].
  replace (List.length (rts ++ [e]) - 5)%nat with 0%nat by lia. reflexivity.
Qed.

Lemma slice_last_app {A} (n : nat) (xs ys : list A) :
  Js.slice_last n (Js.slice_last n xs ++ ys) = Js.slice_last n (xs ++ ys).
Proof.
  unfold Js.slice_last.
  destruct (Nat.le_gt_cases (List.length xs) n) as [Hshort|Hlong].
  - replace (List.length xs - n)%nat with 0%nat by lia. reflexivity.
  - set (j := (List.length xs - n)%nat).
    assert (Hkept : List.length (skipn j xs) = n)
      by (rewrite length_skipn; unfold j; lia).
    rewrite !length_app, Hkept.
    replace (n + List.length ys - n)%nat with (List.length ys) by lia.
    replace (List.length xs + List.length ys - n)%nat
      with (j + List.length ys)%nat by (unfold j; lia).
    rewrite <- (firstn_skipn j xs) at 2.
    rewrite <- app_assoc.
    assert (Hdropped : List.length (firstn j xs) = j)
      by (rewrite length_firstn; unfold j; lia).
    rewrite (skipn_app (j + List.length ys) (firstn j xs)).
    rewrite (skipn_all2 (firstn j xs)) by (rewrite Hdropped; lia).
    rewrite Hdropped. simpl.
    replace (j + List.length ys - j)%nat with (List.length ys) by lia.
    reflexivity.
Qed.

(** X6: the stored list is always the last five of everything issued.
    Starting from a list within the cap, any number of issues leaves the
    last five entries of the old list followed by the new tokens; five or
    more issues leave only new tokens, so a session outlives at most four
    later logins or refreshes of the same user. *)
Theorem issues_keep_the_last_five (news rts : list RefreshEntry) :
  (List.length rts <= 5)%nat ->
  fold_left (fun stored e => pushRefreshToken e stored) news rts
  = Js.slice_last 5 (rts ++ news)
  /\ ((5 <= List.length news)%nat ->
      fold_left (fun stored e => pushRefreshToken e stored) news rts
      = Js.slice_last 5 news).
Proof.
  intros Hcap.
  assert (Hfold : forall news rts,
            fold_left (fun stored e => pushRefreshToken e stored) news
              (Js.slice_last 5 rts)
            = Js.slice_last 5 (rts ++ news)).
  { clear. induction news as [|e news IH]; intros rts; simpl.
    - rewrite app_nil_r. reflexivity.
    - rewrite pushRefreshToken_slice, slice_last_app, IH, <- app_assoc.
      reflexivity. }
  assert (Hwhole : Js.slice_last 5 rts = rts).
  { unfold Js.slice_last.
    replace (List.length rts - 5)%nat with 0%nat by lia. reflexivity. }
  rewrite <- Hwhole at 1 3. rewrite Hfold. split; [reflexivity|].
  intros Hmany. unfold Js.slice_last.
  rewrite length_app, skipn_app.
  rewrite skipn_all2 by lia. simpl. f_equal. lia.
Qed.

Lemma existsb_token_present (presented : string) (rts : list RefreshEntry) :
  In presented (map token rts) ->
  existsb (fun tokenObj => (token tokenObj =? presented)%string) rts = true.
Proof.
  intros Hin. apply in_map_iff in Hin. destruct Hin as (e & He & Hin).
  apply existsb_exists. exists e. split; [exact Hin|].
  rewrite He. apply String.eqb_refl.
Qed.

(** A presented refresh token that verifies and is stored for its subject
    is exchanged by [createSendToken]. *)
Lemma refreshToken_accepted (E : Env) db now req presented decoded stored :
  cookies_refreshToken req = Some presented ->
  presented <> "" ->
  jwt_verify E presented (jwt_refreshSecret (config E)) now = Some decoded ->
  findById (payload_id decoded) db = Some stored ->
  In presented (map token (refreshTokens stored)) ->
  refreshToken E db now req
  = (updateById (_id stored)
       (issueUpdate E (refreshTokens stored) (_id stored) now) db,
     tokenReply E 200 (_id stored) now).
Proof.
  intros Hcookie Hne Hverify Hfind Hin.
  unfold refreshToken. rewrite Hcookie, (truthy_nonempty _ Hne).
  cbn [negb]. rewrite Hverify, Hfind. cbn [option_map].
  change (refreshTokens (fields (hydrate false stored)))
    with (refreshTokens stored).
  rewrite (existsb_token_present _ _ Hin). cbn [negb].
  apply createSendToken_hydrated.
Qed.

(** X7: rotation does not revoke.  A successful refresh answers 200 with a
    new pair and stores the old list with the new token pushed; as long as
    the old list held fewer than five entries the presented token stays
    stored and can be exchanged again. *)
Theorem refresh_keeps_the_presented_token (E : Env) db now req presented
  decoded stored :
  cookies_refreshToken req = Some presented ->
  presented <> "" ->
  jwt_verify E presented (jwt_refreshSecret (config E)) now = Some decoded ->
  findById (payload_id decoded) db = Some stored ->
  In presented (map token (refreshTokens stored)) ->
  exists db' u',
    refreshToken E db now req = (db', tokenReply E 200 (_id stored) now)
    /\ findById (payload_id decoded) db' = Some u'
    /\ refreshTokens u'
       = pushRefreshToken (issuedEntry E (_id stored) now)
           (refreshTokens stored)
    /\ ((List.length (refreshTokens stored) < 5)%nat ->
        In presented (map token (refreshTokens u'))
        /\ forall later,
             jwt_verify E presented (jwt_refreshSecret (config E)) later
             = Some decoded ->
             exists db'',
               refreshToken E db' later req
               = (db'', tokenReply E 200 (_id stored) later)).
Proof.
  intros Hcookie Hne Hverify Hfind Hin.
  rewrite (refreshToken_accepted E db now req presented decoded stored
             Hcookie Hne Hverify Hfind Hin).
  pose proof (findById_found _ _ _ Hfind) as (_ & Hid & _).
  assert (Hfind' :
            findById (payload_id decoded)
              (updateById (_id stored)
                 (issueUpdate E (refreshTokens stored) (_id stored) now) db)
            = Some (issueUpdate E (refreshTokens stored) (_id stored) now
                      stored)).
  { rewrite findById_updateById by (intros x; split; reflexivity).
    rewrite Hfind. simpl. rewrite String.eqb_refl. reflexivity. }
  eexists. eexists. split; [reflexivity|].
  split; [exact Hfind'|]. split; [reflexivity|].
  intros Hshort.
  assert (Hstill : In presented
            (map token
               (pushRefreshToken (issuedEntry E (_id stored) now)
                  (refreshTokens stored)))).
  { rewrite (pushRefreshToken_short _ _ Hshort), map_app.
    apply in_or_app. now left. }
  split; [exact Hstill|].
  intros later Hlater.
  rewrite (refreshToken_accepted E _ later req presented decoded _
             Hcookie Hne Hlater Hfind' Hstill).
  eexists. reflexivity.
Qed.

Lemma existsb_token_filtered (presented : string) (rts : list RefreshEntry) :
  existsb (fun tokenObj => (token tokenObj =? presented)%string)
    (filter (fun tokenObj => negb (token tokenObj =? presented)%string) rts)
  = false.
Proof.
  induction rts as [|e rts IH]; simpl; [reflexivity|].
  destruct (token e =? presented)%string eqn:He; simpl; [exact IH|].
  rewrite He. exact IH.
Qed.

(** X8: logout revokes the session of its cookie.  After an authenticated
    logout that carries refresh token [presented], a later refresh request
    with the same token, still verifying for the same user, is answered
    with 401 'Invalid refresh token'. *)
Theorem logout_revokes_the_refresh_token (E : Env) db now req0 req presented
  later rreq decoded :
  protect E db now req0 = Next req ->
  cookies_refreshToken req = Some presented ->
  presented <> "" ->
  cookies_refreshToken rreq = Some presented ->
  jwt_verify E presented (jwt_refreshSecret (config E)) later = Some decoded ->
  (forall d, user req = Some d -> payload_id decoded = _id (fields d)) ->
  refreshToken E (fst (logout E db now req)) later rreq
  = (fst (logout E db now req),
     NextErr (ApiError 401 "Invalid refresh token")).
Proof.
  intros Hprotect Hcookie Hne Hrcookie Hverify Hsubject.
  apply protect_attaches_stored in Hprotect.
  destruct Hprotect as (stored & Hin & _ & Hfind & ->).
  specialize (Hsubject _ eq_refl). simpl in Hsubject.
  simpl in Hcookie.
  unfold logout. cbn [cookies_refreshToken user set_user].
  rewrite Hcookie, (truthy_nonempty _ Hne).
  unfold assign_refreshTokens.
  change (refreshTokens (fields (hydrate false stored)))
    with (refreshTokens stored).
  unfold refreshToken. rewrite Hrcookie, (truthy_nonempty _ Hne).
  cbn [negb]. rewrite Hverify, Hsubject.
  destruct (sameEntries _ (refreshTokens stored)) eqn:Hkept.
  - apply sameEntries_eq in Hkept. rewrite save_nothing. cbn [fst].
    rewrite Hfind. cbn [option_map].
    change (refreshTokens (fields (hydrate false stored)))
      with (refreshTokens stored).
    rewrite <- Hkept at 1. rewrite existsb_token_filtered. reflexivity.
  - rewrite save_bookkeeping by (reflexivity || discriminate).
    cbn [fst]. unfold writeBack.
    cbn [fields assign hydrate modifiedPaths fold_right writePath
         refreshTokens set_refreshTokens _id set_password].
    rewrite findById_updateById
      by (intros x; rewrite stamp_id; unfold stamp;
          destruct (isModified _ _); split; reflexivity).
    rewrite Hfind. cbn [option_map]. rewrite String.eqb_refl.
    change (refreshTokens (fields (hydrate false ?u)))
      with (refreshTokens u).
    rewrite stamp_refreshTokens.
    cbn [refreshTokens set_refreshTokens].
    rewrite existsb_token_filtered. reflexivity.
Qed.

Lemma resetPassword_sessions (E : Env) db now req u :
  findOne (resetQuery (sha256 E (params_token req)) now) db = Some u ->
  fieldsValid E u = true ->
  body_password (body req) <> "" ->
  (8 <= String.length (body_password (body req)))%nat ->
  body_passwordConfirm (body req) = body_password (body req) ->
  exists F,
    resetPassword E db now req
    = (updateById (_id u) F db, tokenReply E 200 (_id u) now)
    /\ forall x,
         _id (F x) = _id x
         /\ active (F x) = active x
         /\ email (F x) = email x
         /\ refreshTokens (F x)
            = pushRefreshToken (issuedEntry E (_id u) now) (refreshTokens u).
Proof.
  intros Hfind Hvalid Hpw Hlen Hconfirm.
  unfold resetPassword. rewrite Hfind. cbn [option_map].
  unfold assign_password. cbn [hydrate selectedPassword andb].
  rewrite save_password_change;
    [|reflexivity|reflexivity|exact Hvalid|exact Hpw|exact Hlen|exact Hconfirm].
  rewrite createSendToken_updated.
  unfold writeBack.
  rewrite updateById_fuse by (intros x; reflexivity).
  eexists. split; [reflexivity|].
  intros x. split; [reflexivity|]. split; [reflexivity|].
  split; reflexivity.
Qed.

Lemma updatePassword_sessions (E : Env) db now req authenticated u :
  user req = Some authenticated ->
  findById (_id (fields authenticated)) db = Some u ->
  correctPassword E (body_passwordCurrent (body req)) (password u) = true ->
  password u <> body_password (body req) ->
  fieldsValid E u = true ->
  body_password (body req) <> "" ->
  (8 <= String.length (body_password (body req)))%nat ->
  body_passwordConfirm (body req) = body_password (body req) ->
  exists F,
    updatePassword E db now req
    = (updateById (_id u) F db, tokenReply E 200 (_id u) now)
    /\ forall x,
         _id (F x) = _id x
         /\ active (F x) = active x
         /\ email (F x) = email x
         /\ refreshTokens (F x)
            = pushRefreshToken (issuedEntry E (_id u) now) (refreshTokens u).
Proof.
  intros Huser Hfind Hcurrent Hfresh Hvalid Hpw Hlen Hconfirm.
  unfold updatePassword. rewrite Huser, Hfind. cbn [option_map].
  cbn [hydrate fields]. rewrite Hcurrent. cbn [negb].
  unfold assign_password. cbn [selectedPassword fields hydrate andb].
  apply String.eqb_neq in Hfresh. rewrite Hfresh.
  rewrite save_password_change;
    [|reflexivity|reflexivity|exact Hvalid|exact Hpw|exact Hlen|exact Hconfirm].
  rewrite createSendToken_updated.
  unfold writeBack.
  rewrite updateById_fuse by (intros x; reflexivity).
  eexists. split; [reflexivity|].
  intros x. split; [reflexivity|]. split; [reflexivity|].
  split; reflexivity.
Qed.

(** A stored session of [u] is still exchanged on a collection in which
    the records of [u] carry the pushed list. *)
Lemma session_survives (E : Env) db F u u0 entry later rreq presented decoded :
  (forall x,
      _id (F x) = _id x
      /\ active (F x) = active x
      /\ email (F x) = email x
      /\ refreshTokens (F x) = pushRefreshToken entry (refreshTokens u)) ->
  findById (_id u) db = Some u0 ->
  cookies_refreshToken rreq = Some presented ->
  presented <> "" ->
  jwt_verify E presented (jwt_refreshSecret (config E)) later = Some decoded ->
  payload_id decoded = _id u ->
  In presented (map token (refreshTokens u)) ->
  (List.length (refreshTokens u) < 5)%nat ->
  exists db'',
    refreshToken E (updateById (_id u) F db) later rreq
    = (db'', tokenReply E 200 (_id u) later).
Proof.
  intros HF Hfind Hcookie Hne Hverify Hid Hin Hshort.
  pose proof (findById_found _ _ _ Hfind) as (_ & Hid0 & _).
  assert (Hfind' : findById (payload_id decoded) (updateById (_id u) F db)
                   = Some (F u0)).
  { rewrite Hid.
    rewrite findById_updateById by (intros x; destruct (HF x); tauto).
    rewrite Hfind. simpl. rewrite Hid0, String.eqb_refl. reflexivity. }
  assert (Hstill : In presented (map token (refreshTokens (F u0)))).
  { destruct (HF u0) as (_ & _ & _ & ->).
    rewrite (pushRefreshToken_short _ _ Hshort), map_app.
    apply in_or_app. now left. }
  rewrite (refreshToken_accepted E _ later rreq presented decoded (F u0)
             Hcookie Hne Hverify Hfind' Hstill).
  destruct (HF u0) as (-> & _). rewrite Hid0.
  eexists. reflexivity.
Qed.

(** X9: a password change does not end the user's sessions.  After a
    successful reset-password or update-password, a refresh token stored
    before the change (in a list of fewer than five) is still exchanged for
    a new token pair: the refresh route does not look at
    [passwordChangedAt], and the change removes no stored token. *)
Theorem password_change_keeps_sessions (E : Env) :
  (forall db t1 creq u later rreq presented decoded,
      findOne (resetQuery (sha256 E (params_token creq)) t1) db = Some u ->
      fieldsValid E u = true ->
      body_password (body creq) <> "" ->
      (8 <= String.length (body_password (body creq)))%nat ->
      body_passwordConfirm (body creq) = body_password (body creq) ->
      cookies_refreshToken rreq = Some presented ->
      presented <> "" ->
      jwt_verify E presented (jwt_refreshSecret (config E)) later
      = Some decoded ->
      payload_id decoded = _id u ->
      In presented (map token (refreshTokens u)) ->
      (List.length (refreshTokens u) < 5)%nat ->
      exists db'',
        refreshToken E (fst (resetPassword E db t1 creq)) later rreq
        = (db'', tokenReply E 200 (_id u) later))
  /\
  (forall db t1 creq authenticated u later rreq presented decoded,
      user creq = Some authenticated ->
      findById (_id (fields authenticated)) db = Some u ->
      correctPassword E (body_passwordCurrent (body creq)) (password u)
      = true ->
      password u <> body_password (body creq) ->
      fieldsValid E u = true ->
      body_password (body creq) <> "" ->
      (8 <= String.length (body_password (body creq)))%nat ->
      body_passwordConfirm (body creq) = body_password (body creq) ->
      cookies_refreshToken rreq = Some presented ->
      presented <> "" ->
      jwt_verify E presented (jwt_refreshSecret (config E)) later
      = Some decoded ->
      payload_id decoded = _id u ->
      In presented (map token (refreshTokens u)) ->
      (List.length (refreshTokens u) < 5)%nat ->
      exists db'',
        refreshToken E (fst (updatePassword E db t1 creq)) later rreq
        = (db'', tokenReply E 200 (_id u) later)).
Proof.
  split.
  - intros db t1 creq u later rreq presented decoded Hfind Hvalid Hpw Hlen
      Hconfirm Hcookie Hne Hverify Hid Hin Hshort.
    destruct (resetPassword_sessions E db t1 creq u Hfind Hvalid Hpw Hlen
                Hconfirm) as (F & -> & HF).
    pose proof (find_some _ _ Hfind) as [Hinu Hq].
    unfold preFind in Hq. apply andb_true_iff in Hq. destruct Hq as [_ Hact].
    assert (Hactive : active u = true) by (destruct (active u); auto).
    destruct (findById_exists (_id u) db u Hinu eq_refl Hactive) as [u0 Hu0].
    cbn [fst]. eapply session_survives; eassumption.
  - intros db t1 creq authenticated u later rreq presented decoded Huser
      Hfind Hcurrent Hfresh Hvalid Hpw Hlen Hconfirm Hcookie Hne Hverify Hid
      Hin Hshort.
    destruct (updatePassword_sessions E db t1 creq authenticated u Huser
                Hfind Hcurrent Hfresh Hvalid Hpw Hlen Hconfirm)
      as (F & -> & HF).
    pose proof (findById_found _ _ _ Hfind) as (_ & Hidu & _).
    rewrite <- Hidu in Hfind.
    cbn [fst]. eapply session_survives; eassumption.
Qed.

(** ** Login *)

Lemma login_correct_password (E : Env) db now req u :
  body_email (body req) <> "" ->
  body_password (body req) <> "" ->
  findOne (byEmail E (body_email (body req))) db = Some u ->
  isLocked u now = false ->
  correctPassword E (body_password (body req)) (password u) = true ->
  login E db now req
  = (updateById (_id u)
       (fun x =>
          issueUpdate E (refreshTokens u) (_id u) now
            (set_lastLogin (Some now)
               (set_loginAttempts 0 (set_lockUntil None x)))) db,
     tokenReply E 200 (_id u) now).
Proof.
  intros He Hp Hfound Hunlocked Hright.
  unfold login. rewrite (truthy_nonempty _ He), (truthy_nonempty _ Hp).
  cbn [negb orb]. rewrite Hfound. cbn [option_map hydrate fields].
  rewrite Hunlocked, Hright. cbn [negb].
  rewrite save_bookkeeping by (reflexivity || discriminate).
  rewrite createSendToken_updated.
  unfold writeBack, resetLoginAttempts, updateOne.
  cbn [fields assign hydrate modifiedPaths fold_right writePath].
  rewrite !updateById_fuse by (intros x; reflexivity).
  unfold updateById. apply (f_equal (fun d => (d, _))).
  apply map_ext. intros x. destruct (_id x =? _id u)%string; reflexivity.
Qed.

(** X10: a login with the right password on an account that is not locked
    (never locked, or locked until a time that has passed) answers 200 with
    a token pair and leaves the record a later login loads with the failure
    counter at 0, no lock, [lastLogin] at the clock, the new refresh token
    pushed, and the password hash as it was. *)
Theorem login_success_clears_lockout (E : Env) db now req u :
  body_email (body req) <> "" ->
  body_password (body req) <> "" ->
  findOne (byEmail E (body_email (body req))) db = Some u ->
  (forall l, lockUntil u = Some l -> l <= now) ->
  correctPassword E (body_password (body req)) (password u) = true ->
  exists db' u',
    login E db now req = (db', tokenReply E 200 (_id u) now)
    /\ findOne (byEmail E (body_email (body req))) db' = Some u'
    /\ loginAttempts u' = 0
    /\ lockUntil u' = None
    /\ lastLogin u' = Some now
    /\ password u' = password u
    /\ refreshTokens u'
       = pushRefreshToken (issuedEntry E (_id u) now) (refreshTokens u).
Proof.
  intros He Hp Hfound Hexpired Hright.
  assert (Hunlocked : isLocked u now = false).
  { unfold isLocked. destruct (lockUntil u) as [l|]; [|reflexivity].
    apply Z.ltb_ge. apply Hexpired. reflexivity. }
  rewrite (login_correct_password E db now req u He Hp Hfound Hunlocked
             Hright).
  eexists. eexists. split; [reflexivity|].
  split.
  - rewrite findOne_updateById by (intros x; reflexivity).
    rewrite Hfound. simpl. rewrite String.eqb_refl. reflexivity.
  - simpl. auto 10.
Qed.

(** X11: a failed login writes nothing but the two lockout counters and
    [updatedAt]: every record keeps all other paths, the records of the
    account's [_id] get the clock as [updatedAt], and records with another
    [_id] are untouched. *)
Theorem failed_login_touches_only_counters (E : Env) db now req u :
  body_email (body req) <> "" ->
  body_password (body req) <> "" ->
  findOne (byEmail E (body_email (body req))) db = Some u ->
  isLocked u now = false ->
  correctPassword E (body_password (body req)) (password u) = false ->
  Forall2 (fun x x' =>
             set_updatedAt 0 (set_loginAttempts 0 (set_lockUntil None x'))
             = set_updatedAt 0 (set_loginAttempts 0 (set_lockUntil None x))
             /\ (_id x = _id u -> updatedAt x' = now)
             /\ (_id x <> _id u -> x' = x))
    db (fst (login E db now req)).
Proof.
  intros He Hp Hfound Hunlocked Hwrong.
  rewrite (login_wrong_password E db now req u He Hp Hfound Hunlocked Hwrong).
  cbn [fst]. unfold incLoginAttempts, updateOne, updateById.
  cbn [fields hydrate].
  apply Forall2_map_in. intros x _.
  destruct (String.eqb_spec (_id x) (_id u)) as [Hid|Hne].
  - split; [|split; [reflexivity | contradiction]].
    unfold loginAttemptsUpdate.
    destruct (match lockUntil u with Some l => l <? now | None => false end);
      [reflexivity|].
    destruct ((5 <=? loginAttempts u + 1) && negb (isLocked u now));
      reflexivity.
  - split; [reflexivity|]. split; [contradiction | reflexivity].
Qed.

(** X12: when no active record carries the e-mail of the request, as the
    query casts it (nobody registered the address, or the account is
    deactivated), [login] answers 401 'Incorrect email or password' whatever
    the password, the answer a wrong password gets, and writes nothing. *)
Theorem login_without_active_account (E : Env) db now req :
  body_email (body req) <> "" ->
  body_password (body req) <> "" ->
  (forall x, In x db -> email x = castEmail E (body_email (body req)) ->
             active x = false) ->
  login E db now req
  = (db, NextErr (ApiError 401 "Incorrect email or password")).
Proof.
  intros He Hp Hnone.
  unfold login. rewrite (truthy_nonempty _ He), (truthy_nonempty _ Hp).
  cbn [negb orb].
  assert (Hfind : findOne (byEmail E (body_email (body req))) db = None).
  { unfold findOne.
    destruct (find _ db) as [x|] eqn:Hx; [|reflexivity].
    apply find_some in Hx. destruct Hx as [Hin Hq].
    unfold preFind, byEmail in Hq. apply andb_true_iff in Hq.
    destruct Hq as [Hemail Hactive].
    apply String.eqb_eq in Hemail.
    rewrite (Hnone x Hin Hemail) in Hactive. discriminate. }
  rewrite Hfind. reflexivity.
Qed.

(** X13: with e-mail and password supplied, [login] answers 200 exactly
    when [findByCredentials] returns the account and the account is not
    locked; [findByCredentials] itself does not look at the lock. *)
Theorem login_succeeds_iff_credentials_and_unlocked (E : Env) db now req :
  body_email (body req) <> "" ->
  body_password (body req) <> "" ->
  (exists db' cookies json, login E db now req = (db', Json 200 cookies json))
  <-> exists d,
        findByCredentials E (body_email (body req)) (body_password (body req))
          db = Some d
        /\ isLocked (fields d) now = false.
Proof.
  intros He Hp. unfold findByCredentials.
  destruct (findOne (byEmail E (body_email (body req))) db)
    as [u|] eqn:Hfound.
  - cbn [option_map hydrate fields].
    destruct (isLocked u now) eqn:Hlocked.
    + rewrite (login_found_locked E db now req u He Hp Hfound Hlocked).
      split.
      * intros (db' & cookies & json & H). discriminate.
      * intros (d & Hd & Hunlocked).
        destruct (negb (correctPassword E _ _)); [discriminate|].
        injection Hd as <-. simpl in Hunlocked. congruence.
    + destruct (correctPassword E (body_password (body req)) (password u))
        eqn:Hright.
      * rewrite (login_correct_password E db now req u He Hp Hfound Hlocked
                   Hright).
        cbn [negb]. split.
        -- intros _. eexists. split; [reflexivity|exact Hlocked].
        -- intros _. unfold tokenReply. eauto.
      * rewrite (login_wrong_password E db now req u He Hp Hfound Hlocked
                   Hright).
        cbn [negb]. split.
        -- intros (db' & cookies & json & H). discriminate.
        -- intros (d & Hd & _). discriminate.
  - cbn [option_map]. split.
    + unfold login. rewrite (truthy_nonempty _ He), (truthy_nonempty _ Hp).
      cbn [negb orb]. rewrite Hfound. cbn [option_map].
      intros (db' & cookies & json & H). discriminate.
    + intros (d & Hd & _). discriminate.
Qed.

(** ** Signup *)

Lemma find_app_last {A} (P : A -> bool) (l : list A) (a : A) :
  (forall x, In x l -> P x = false) ->
  find P (l ++ [a]) = if P a then Some a else None.
Proof.
  intros Hnone. induction l as [|x l IH]; simpl; [reflexivity|].
  rewrite (Hnone x) by now left.
  apply IH. intros y Hy. apply Hnone. now right.
Qed.

Lemma truthy_inv s : Js.truthy s = true -> s <> "".
Proof.
  unfold Js.truthy. intros H. apply negb_true_iff in H.
  apply String.eqb_neq. exact H.
Qed.

Lemma fieldsValid_email (E : Env) u : fieldsValid E u = true -> email u <> "".
Proof.
  unfold fieldsValid, required. intros H.
  repeat (apply andb_true_iff in H; destruct H as [H ?]).
  apply truthy_inv. assumption.
Qed.

Lemma passwordValid_selected d :
  selectedPassword d = true -> passwordValid d = true ->
  password (fields d) <> "".
Proof.
  unfold passwordValid, required. intros -> H. cbn [orb] in H.
  repeat (apply andb_true_iff in H; destruct H as [H ?]).
  apply truthy_inv. assumption.
Qed.

Lemma castEmail_given (E : Env) s : castEmail E s <> "" -> s <> "".
Proof.
  unfold castEmail, Js.truthy. intros Hcast ->. apply Hcast. reflexivity.
Qed.

Lemma validate_new_supplied (E : Env) b now db :
  validate E (newUser E b now db) = true ->
  body_email b <> "" /\ body_password b <> "".
Proof.
  unfold validate. intros H. apply andb_true_iff in H. destruct H as [Hf Hp].
  split.
  - apply (castEmail_given E). exact (fieldsValid_email E _ Hf).
  - exact (passwordValid_selected (newUser E b now db) eq_refl Hp).
Qed.

Lemma duplicateKey_none (u : User) (db : Db) :
  (forall x, In x db -> email x <> email u /\ username x <> username u) ->
  duplicateKey u db = false.
Proof.
  intros Hfree. unfold duplicateKey.
  destruct (existsb _ db) eqn:Hex; [|reflexivity].
  apply existsb_exists in Hex. destruct Hex as (x & Hin & Hx).
  destruct (Hfree x Hin) as [Hemail Husername].
  apply orb_true_iff in Hx.
  destruct Hx as [Hx|Hx]; apply String.eqb_eq in Hx; contradiction.
Qed.

Lemma signup_created (E : Env) random db now req :
  (forall x, In x db ->
             email x <> castEmail E (body_email (body req))
             /\ username x <> castName E (body_username (body req))) ->
  validate E (newUser E (body req) now db) = true ->
  exists G,
    signup E random db now req
    = (updateById (newObjectId E db) G
         (db ++ [set_passwordConfirm ""
                   (set_password
                      (bcrypt_hash E (body_password (body req))
                         (bcryptRounds (config E)))
                      (fields (newUser E (body req) now db)))])%list,
       tokenReply E 201 (newObjectId E db) now)
    /\ (forall x, _id (G x) = _id x /\ active (G x) = active x
                  /\ email (G x) = email x)
    /\ G (set_passwordConfirm ""
            (set_password
               (bcrypt_hash E (body_password (body req))
                  (bcryptRounds (config E)))
               (fields (newUser E (body req) now db))))
       = registered E random (body req) now db.
Proof.
  intros Hfree Hvalid.
  destruct (validate_new_supplied E _ now db Hvalid) as [He Hp].
  unfold signup.
  rewrite findOne_none.
  2:{ intros x Hx. destruct (Hfree x Hx) as [H1 H2]. unfold byEmail.
      apply String.eqb_neq in H1, H2. rewrite H1, H2. reflexivity. }
  unfold save at 1. rewrite Hvalid. cbn [andb negb].
  unfold preSave_hash.
  change (isModified p_password (newUser E (body req) now db)) with true.
  cbn [negb]. cbn [fields newUser password].
  rewrite (truthy_nonempty _ Hp). cbn [negb].
  unfold preSave_changedAt.
  cbn [isNew assign newUser orb negb].
  rewrite Bool.orb_true_r. cbn [isNew assign newUser fields].
  rewrite duplicateKey_none by (cbn [email username set_passwordConfirm
                                       set_password]; exact Hfree).
  unfold createEmailVerificationToken.
  rewrite save_bookkeeping by (reflexivity || discriminate).
  rewrite createSendToken_updated.
  unfold writeBack.
  cbn [fields assign saved modifiedPaths fold_right writePath _id
       set_emailVerificationExpires set_emailVerificationToken
       set_passwordConfirm set_password].
  rewrite updateById_fuse by (intros x; reflexivity).
  eexists. split; [reflexivity|].
  split; [intros x; split; [reflexivity|split; reflexivity]|].
  vm_compute. reflexivity.
Qed.

(** The record a query by e-mail finds after a signup. *)
Lemma signup_found (E : Env) random db now req given :
  (forall x, In x db ->
             email x <> castEmail E (body_email (body req))
             /\ username x <> castName E (body_username (body req))) ->
  validate E (newUser E (body req) now db) = true ->
  castEmail E given = castEmail E (body_email (body req)) ->
  findOne (byEmail E given) (fst (signup E random db now req))
  = Some (registered E random (body req) now db).
Proof.
  intros Hfree Hvalid Hgiven.
  destruct (signup_created E random db now req Hfree Hvalid)
    as (G & -> & HG & Hnew).
  cbn [fst]. rewrite findOne_updateById.
  2:{ intros x. unfold preFind, byEmail. destruct (HG x) as (_ & -> & ->).
      reflexivity. }
  unfold findOne. rewrite find_app_last.
  2:{ intros x Hx. unfold preFind, byEmail. rewrite Hgiven.
      destruct (Hfree x Hx) as [H1 _].
      apply String.eqb_neq in H1. rewrite H1. reflexivity. }
  unfold preFind, byEmail. rewrite Hgiven.
  cbn [email active set_passwordConfirm set_password fields newUser].
  rewrite String.eqb_refl. cbn [andb negb Bool.eqb option_map _id].
  rewrite String.eqb_refl. rewrite <- Hnew. reflexivity.
Qed.




Lemma findOne_none_active (q : User -> bool) (db : Db) :
  (forall u, In u db -> active u = true -> q u = false) ->
  findOne q db = None.
Proof.
  intros Hq. unfold findOne.
  destruct (find (preFind q) db) as [u|] eqn:Hfind; [|reflexivity].
  apply find_some in Hfind. destruct Hfind as [Hin Hu].
  unfold preFind in Hu. apply andb_true_iff in Hu. destruct Hu as [Hqu Hact].
  destruct (active u) eqn:Hactive; [|discriminate].
  rewrite (Hq u Hin Hactive) in Hqu. discriminate.
Qed.


(** ** One-time tokens *)

Lemma find_unique {A} (P : A -> bool) (l : list A) (a : A) :
  In a l -> P a = true ->
  (forall x, In x l -> P x = true -> x = a) ->
  find P l = Some a.
Proof.
  intros Hin Ha Huniq.
  destruct (find P l) as [x|] eqn:Hfind.
  - apply find_some in Hfind. destruct Hfind as [Hx HPx].
    rewrite (Huniq x Hx HPx). reflexivity.
  - rewrite (find_none _ _ Hfind a Hin) in Ha. discriminate.
Qed.

Lemma in_updateById id F db y :
  In y (updateById id F db) ->
  exists x, In x db /\ y = if (_id x =? id)%string then F x else x.
Proof.
  unfold updateById. intros Hy. apply in_map_iff in Hy.
  destruct Hy as (x & <- & Hx). eauto.
Qed.

Lemma verifyEmail_found (E : Env) db now req u :
  findOne (verifyQuery (sha256 E (params_token req)) now) db = Some u ->
  verifyEmail E db now req
  = (updateById (_id u)
       (fun x =>
          set_updatedAt now
            (set_emailVerificationExpires None
               (set_emailVerificationToken None (set_emailVerified true x))))
       db,
     Json 200 [] (MessageBody "success" "Email verified successfully!")).
Proof.
  intros Hfind. unfold verifyEmail. rewrite Hfind. cbn [option_map].
  rewrite save_bookkeeping by (reflexivity || discriminate).
  reflexivity.
Qed.

(** X18: an e-mail verification token is single-use.  Consuming a stored,
    unexpired token answers 200, marks the account verified and clears the
    digest and its expiry; every later presentation of the same token is
    answered with 400 'Token is invalid or has expired'.  The digest is
    assumed to be stored for one user only. *)
Theorem verifyEmail_single_use (E : Env) db now req u :
  findOne (verifyQuery (sha256 E (params_token req)) now) db = Some u ->
  (forall x, In x db ->
             emailVerificationToken x = Some (sha256 E (params_token req)) ->
             _id x = _id u) ->
  exists db',
    verifyEmail E db now req
    = (db', Json 200 [] (MessageBody "success" "Email verified successfully!"))
    /\ (exists u', In u' db' /\ _id u' = _id u)
    /\ (forall u', In u' db' -> _id u' = _id u ->
          emailVerified u' = true
          /\ emailVerificationToken u' = None
          /\ emailVerificationExpires u' = None)
    /\ (forall now' req',
          params_token req' = params_token req ->
          verifyEmail E db' now' req'
          = (db', NextErr (ApiError 400 "Token is invalid or has expired"))).
Proof.
  intros Hfind Hunique.
  rewrite (verifyEmail_found E db now req u Hfind).
  eexists. split; [reflexivity|].
  pose proof (find_some _ _ Hfind) as [Hin _].
  split; [|split].
  - eexists. split.
    + unfold updateById. apply in_map_iff. exists u.
      rewrite String.eqb_refl. split; [reflexivity|exact Hin].
    + reflexivity.
  - intros u' Hu' Hid. apply in_updateById in Hu'.
    destruct Hu' as (x & Hx & ->).
    destruct (String.eqb_spec (_id x) (_id u)) as [_|Hne]; [|contradiction].
    simpl. auto.
  - intros now' req' Hparam. unfold verifyEmail. rewrite Hparam.
    rewrite findOne_none; [reflexivity|].
    intros u' Hu'. apply in_updateById in Hu'.
    destruct Hu' as (x & Hx & ->). unfold verifyQuery.
    destruct (String.eqb_spec (_id x) (_id u)) as [_|Hne];
      [reflexivity|].
    destruct (emailVerificationToken x) as [h|] eqn:Hh; [|reflexivity].
    destruct (emailVerificationExpires x); [|reflexivity].
    destruct (String.eqb_spec h (sha256 E (params_token req))) as [->|_];
      [|reflexivity].
    exfalso. apply Hne. apply Hunique; assumption.
Qed.

Lemma forgotPassword_found (E : Env) random db now req u :
  findOne (byEmail E (body_email (body req))) db = Some u ->
  forgotPassword E random db now req
  = (updateById (_id u)
       (fun x =>
          set_updatedAt now
            (set_passwordResetExpires (Some (now + 10 * 60 * 1000))
               (set_passwordResetToken (Some (sha256 E random)) x))) db,
     Json 200 [] (MessageBody "success" "Token sent to email!")).
Proof.
  intros Hfind. unfold forgotPassword. rewrite Hfind. cbn [option_map].
  unfold createPasswordResetToken.
  rewrite save_bookkeeping by (reflexivity || discriminate).
  reflexivity.
Qed.

(** X19: forgot-password and reset-password compose, inside ten minutes.
    For a registered active user, found by the e-mail of the request as the
    query casts it, forgot-password answers 200 and stores
    the digest of the drawn token; presenting that token with an acceptable
    new password answers 200 as long as the clock is before the request
    time plus ten minutes, and 400 from that instant on.  Identifiers are
    unique and no other record holds the same digest. *)
Theorem forgotten_password_round_trip (E : Env) random db t req u :
  NoDup (map _id db) ->
  findOne (byEmail E (body_email (body req))) db = Some u ->
  fieldsValid E u = true ->
  (forall x, In x db -> passwordResetToken x = Some (sha256 E random) ->
             _id x = _id u) ->
  exists db1,
    forgotPassword E random db t req
    = (db1, Json 200 [] (MessageBody "success" "Token sent to email!"))
    /\ forall t' rreq,
         params_token rreq = random ->
         (t' < t + 10 * 60 * 1000 ->
          body_password (body rreq) <> "" ->
          (8 <= String.length (body_password (body rreq)))%nat ->
          body_passwordConfirm (body rreq) = body_password (body rreq) ->
          exists db2,
            resetPassword E db1 t' rreq = (db2, tokenReply E 200 (_id u) t'))
         /\ (t + 10 * 60 * 1000 <= t' ->
             resetPassword E db1 t' rreq
             = (db1, NextErr (ApiError 400 "Token is invalid or has expired"))).
Proof.
  intros Hnodup Hfind Hvalid Hunique.
  rewrite (forgotPassword_found E random db t req u Hfind).
  eexists. split; [reflexivity|].
  intros t' rreq Hparam.
  pose proof (find_some _ _ Hfind) as [Hin Hq].
  unfold preFind in Hq. apply andb_true_iff in Hq. destruct Hq as [_ Hact].
  set (F := fun x : User =>
              set_updatedAt t
                (set_passwordResetExpires (Some (t + 10 * 60 * 1000))
                   (set_passwordResetToken (Some (sha256 E random)) x))).
  split.
  - intros Hbefore Hpw Hlen Hconfirm.
    assert (Hfound : findOne (resetQuery (sha256 E (params_token rreq)) t')
                       (updateById (_id u) F db) = Some (F u)).
    { rewrite Hparam. unfold findOne. apply find_unique.
      - unfold updateById. apply in_map_iff. exists u.
        rewrite String.eqb_refl. auto.
      - unfold preFind, resetQuery, F. simpl.
        rewrite String.eqb_refl. simpl.
        apply andb_true_iff. split; [apply Z.ltb_lt; lia|exact Hact].
      - intros y Hy HPy. apply in_updateById in Hy.
        destruct Hy as (x & Hx & ->).
        destruct (String.eqb_spec (_id x) (_id u)) as [Hid|Hne].
        + rewrite (unique_by_id db x u Hnodup Hx Hin Hid). reflexivity.
        + exfalso. apply Hne. apply (Hunique x Hx).
          unfold preFind, resetQuery in HPy.
          destruct (passwordResetToken x) as [h|]; [|discriminate].
          destruct (passwordResetExpires x); [|discriminate].
          apply andb_true_iff in HPy. destruct HPy as [HPy _].
          apply andb_true_iff in HPy. destruct HPy as [Hh _].
          apply String.eqb_eq in Hh. rewrite Hh. reflexivity. }
    destruct (resetPassword_sessions E _ t' rreq (F u) Hfound Hvalid Hpw Hlen
                Hconfirm) as (G & -> & _).
    eexists. reflexivity.
  - intros Hlate. unfold resetPassword. rewrite Hparam.
    rewrite findOne_none; [reflexivity|].
    intros y Hy. apply in_updateById in Hy. destruct Hy as (x & Hx & ->).
    unfold resetQuery.
    destruct (String.eqb_spec (_id x) (_id u)) as [_|Hne].
    + unfold F. simpl. rewrite String.eqb_refl. simpl.
      apply Z.ltb_ge. lia.
    + destruct (passwordResetToken x) as [h|] eqn:Hh; [|reflexivity].
      destruct (passwordResetExpires x); [|reflexivity].
      destruct (String.eqb_spec h (sha256 E random)) as [->|_];
        [|reflexivity].
      exfalso. apply Hne. apply Hunique; assumption.
Qed.

(** X20: a new forgot-password request replaces the pending reset token.
    After a second request drew a token with another digest, the token of
    the first request is answered with 400 at any time. *)
Theorem second_request_replaces_reset_token (E : Env) r1 r2 db t1 t2 req u :
  findOne (byEmail E (body_email (body req))) db = Some u ->
  sha256 E r1 <> sha256 E r2 ->
  (forall x, In x db -> passwordResetToken x = Some (sha256 E r1) ->
             _id x = _id u) ->
  let db2 :=
    fst (forgotPassword E r2 (fst (forgotPassword E r1 db t1 req)) t2 req) in
  forall t' rreq,
    params_token rreq = r1 ->
    resetPassword E db2 t' rreq
    = (db2, NextErr (ApiError 400 "Token is invalid or has expired")).
Proof.
  intros Hfind Hdiff Hunique db2 t' rreq Hparam.
  assert (Hdb2 : db2
                 = updateById (_id u)
                     (fun x =>
                        set_updatedAt t2
                          (set_passwordResetExpires
                             (Some (t2 + 10 * 60 * 1000))
                             (set_passwordResetToken (Some (sha256 E r2))
                                (set_updatedAt t1
                                   (set_passwordResetExpires
                                      (Some (t1 + 10 * 60 * 1000))
                                      (set_passwordResetToken
                                         (Some (sha256 E r1)) x)))))) db).
  { unfold db2.
    rewrite (forgotPassword_found E r1 db t1 req u Hfind). cbn [fst].
    rewrite (forgotPassword_found E r2 _ t2 req
               (set_updatedAt t1
                  (set_passwordResetExpires (Some (t1 + 10 * 60 * 1000))
                     (set_passwordResetToken (Some (sha256 E r1)) u)))).
    - cbn [fst _id set_passwordResetExpires set_passwordResetToken
           set_updatedAt].
      rewrite updateById_fuse by (intros x; reflexivity). reflexivity.
    - rewrite findOne_updateById by (intros x; reflexivity).
      rewrite Hfind. simpl. rewrite String.eqb_refl. reflexivity. }
  rewrite Hdb2. unfold resetPassword. rewrite Hparam.
  rewrite findOne_none; [reflexivity|].
  intros y Hy. apply in_updateById in Hy. destruct Hy as (x & Hx & ->).
  unfold resetQuery.
  destruct (String.eqb_spec (_id x) (_id u)) as [_|Hne].
  - simpl.
    destruct (String.eqb_spec (sha256 E r2) (sha256 E r1)) as [Heq|_];
      [symmetry in Heq; contradiction | reflexivity].
  - destruct (passwordResetToken x) as [h|] eqn:Hh; [|reflexivity].
    destruct (passwordResetExpires x); [|reflexivity].
    destruct (String.eqb_spec h (sha256 E r1)) as [->|_]; [|reflexivity].
    exfalso. apply Hne. apply Hunique; assumption.
Qed.

(** X21: a reset request whose new password fails validation does not
    consume the token.  When the confirmation differs from the password, or
    the password has fewer than eight characters, reset-password fails with
    the validation error and the collection is left as it was, digest and
    expiry included. *)
Theorem rejected_reset_keeps_the_token (E : Env) db now req u :
  findOne (resetQuery (sha256 E (params_token req)) now) db = Some u ->
  (body_passwordConfirm (body req) <> body_password (body req)
   \/ (String.length (body_password (body req)) < 8)%nat) ->
  resetPassword E db now req
  = (db, NextErr (Thrown "ValidationError" "User validation failed")).
Proof.
  intros Hfind Hbad.
  unfold resetPassword. rewrite Hfind. cbn [option_map].
  unfold assign_password. cbn [hydrate selectedPassword andb].
  unfold save.
  match goal with
  | |- context [validate E ?d] =>
      assert (Hinvalid : validate E d = false)
  end.
  { unfold validate, passwordValid.
    match goal with
    | |- context [isModified p_password ?d] =>
        change (isModified p_password d) with true
    end.
    cbn [selectedPassword assign hydrate orb fields password passwordConfirm
         set_passwordResetExpires set_passwordResetToken set_passwordConfirm
         set_password].
    destruct Hbad as [Hconfirm|Hshort].
    - apply String.eqb_neq in Hconfirm. rewrite Hconfirm.
      rewrite !Bool.andb_false_r. reflexivity.
    - unfold minlength. apply Nat.leb_gt in Hshort. rewrite Hshort.
      rewrite !Bool.andb_false_r. reflexivity. }
  rewrite Hinvalid. reflexivity.
Qed.

(** ** Token utilities *)

(** X22: the expiry helpers, for integer claims and a clock that is the
    time value of a date not before the epoch.  A token that cannot be decoded, or without [exp], or with [exp]
    zero, is reported expired with no time left.  An [exp] beyond the range
    of dates (more than 8.64e12 seconds from the epoch, on either side)
    gives an Invalid Date: the token is reported not expired and the time
    left is [NaN].  For any other [exp] the time left is never negative,
    the token is expired exactly when [exp * 1000] is not after the clock,
    the time left is then 0, and when it is positive it is the number of
    whole seconds left. *)
Theorem remaining_time_agrees_with_expiry (jwt_decode : string -> option Claims)
  (tok : string) (now : Z) :
  0 <= now <= 8640000000000000 ->
  (getTokenExpiration jwt_decode tok = None ->
   isTokenExpired jwt_decode tok now = true
   /\ getTimeUntilExpiration jwt_decode tok now = Some 0)
  /\ (forall c e,
         jwt_decode tok = Some c -> claim_exp c = Some e ->
         8640000000000 < Z.abs e ->
         getTokenExpiration jwt_decode tok = Some None
         /\ isTokenExpired jwt_decode tok now = false
         /\ getTimeUntilExpiration jwt_decode tok now = None)
  /\ (forall c e,
         jwt_decode tok = Some c -> claim_exp c = Some e ->
         e <> 0 -> Z.abs e <= 8640000000000 ->
         exists left,
           getTokenExpiration jwt_decode tok = Some (Some (e * 1000))
           /\ getTimeUntilExpiration jwt_decode tok now = Some left
           /\ 0 <= left
           /\ (isTokenExpired jwt_decode tok now = true <-> e * 1000 <= now)
           /\ (isTokenExpired jwt_decode tok now = true -> left = 0)
           /\ (0 < left ->
               isTokenExpired jwt_decode tok now = false
               /\ left * 1000 <= e * 1000 - now < (left + 1) * 1000)).
Proof.
  intros _. unfold getTimeUntilExpiration, isTokenExpired.
  split; [|split].
  - intros ->. split; reflexivity.
  - intros c e Hc He Hbig. unfold getTokenExpiration, decodeToken.
    rewrite Hc, He.
    destruct (Z.eqb_spec e 0) as [->|_]; [simpl in Hbig; lia|].
    unfold Js.newDate.
    destruct (Z.leb_spec (Z.abs (e * 1000)) 8640000000000000) as [Hle|_];
      [lia|].
    repeat split.
  - intros c e Hc He Hnz Hsmall. unfold getTokenExpiration, decodeToken.
    rewrite Hc, He.
    destruct (Z.eqb_spec e 0) as [|_]; [contradiction|].
    unfold Js.newDate.
    destruct (Z.leb_spec (Z.abs (e * 1000)) 8640000000000000) as [_|Hgt];
      [|lia].
    exists (Z.max 0 ((e * 1000 - now) / 1000)).
    pose proof (Z.div_mod (e * 1000 - now) 1000) as Hdm.
    pose proof (Z.mod_pos_bound (e * 1000 - now) 1000) as Hmod.
    split; [reflexivity|]. split; [reflexivity|]. split; [lia|].
    split; [apply Z.leb_le|]. split.
    + intros Hexpired. apply Z.leb_le in Hexpired.
      assert ((e * 1000 - now) / 1000 <= 0)
        by (apply Z.div_le_upper_bound; lia).
      lia.
    + intros Hleft.
      assert (Hpos : 0 < (e * 1000 - now) / 1000) by lia.
      rewrite Z.max_r by lia.
      split; [apply Z.leb_gt; lia|]. lia.
Qed.

(** ** Helpers *)

Lemma ceilDiv_bounds (a b : Z) :
  0 < b -> (ceilDiv a b - 1) * b < a <= ceilDiv a b * b.
Proof.
  intros Hb. unfold ceilDiv.
  pose proof (Z.div_mod (- a) b) as Hdm.
  pose proof (Z.mod_pos_bound (- a) b Hb) as Hmod.
  nia.
Qed.

(** X23: the page count and the neighbours of [generatePaginationMeta] fit
    the item count, for safe integers: a positive page size, an item count
    that is not negative, and any page number.  [totalPages] is the least
    number of pages that hold [total] items; there is a next page exactly
    when items remain beyond [page * limit], a previous one exactly when
    the page is above 1; and [nextPage] and [prevPage] are the neighbouring
    page numbers in these cases and [null] otherwise. *)
Theorem pagination_meta_fits_the_total (page limit total : Z) :
  0 < limit <= Js.MAX_SAFE_INTEGER ->
  0 <= total <= Js.MAX_SAFE_INTEGER ->
  Js.isSafeInteger page ->
  let m := generatePaginationMeta page limit total in
  (totalPages m - 1) * limit < total <= totalPages m * limit
  /\ (hasNextPage m = true <-> page * limit < total)
  /\ (hasPrevPage m = true <-> 1 < page)
  /\ nextPage m = (if page * limit <? total then Some (page + 1) else None)
  /\ prevPage m = (if 1 <? page then Some (page - 1) else None).
Proof.
  intros [Hlimit _] _ _ m. subst m. unfold generatePaginationMeta.
  cbn [totalPages hasNextPage hasPrevPage nextPage prevPage].
  pose proof (ceilDiv_bounds total limit Hlimit) as Hceil.
  assert (Hnext : (page <? ceilDiv total limit) = (page * limit <? total)).
  { destruct (Z.ltb_spec page (ceilDiv total limit)) as [Hlt|Hge];
      destruct (Z.ltb_spec (page * limit) total) as [Hlt'|Hge'];
      try reflexivity; exfalso; nia. }
  split; [exact Hceil|]. rewrite Hnext.
  split; [apply Z.ltb_lt|]. split; [apply Z.ltb_lt|]. split; reflexivity.
Qed.

Lemma retryLoop_all_reject {R} (fn : Z -> Attempt R) (maxRetries baseDelay : Z)
  (left : nat) :
  forall attempt,
    1 <= attempt ->
    attempt + Z.of_nat left = maxRetries + 1 ->
    (left > 0)%nat ->
    (forall k, attempt <= k <= maxRetries -> exists error, fn k = Rejects error) ->
    let run := retryLoop fn maxRetries baseDelay left attempt in
    (exists error, fn maxRetries = Rejects error
                   /\ outcome run = Some (Rejects error))
    /\ calls run = left
    /\ fold_right Z.add 0 (delays run)
       = baseDelay * (2 ^ (maxRetries - 1) - 2 ^ (attempt - 1)).
Proof.
  induction left as [|left IH]; intros attempt Hattempt Hsum Hleft Hreject;
    [lia|].
  cbn [retryLoop].
  destruct (Hreject attempt ltac:(lia)) as [error Herror]. rewrite Herror.
  destruct (Z.eqb_spec attempt maxRetries) as [->|Hne].
  - cbn. split; [eauto|]. split; [lia|].
    rewrite Z.sub_diag. lia.
  - destruct (IH (attempt + 1)) as ((error' & Hlast & Hout) & Hcalls & Hdelays);
      try lia.
    + intros k Hk. apply Hreject. lia.
    + cbn [outcome calls delays fold_right]. rewrite Hdelays.
      split; [eauto|]. split; [lia|].
      replace (attempt + 1 - 1) with (Z.succ (attempt - 1)) by lia.
      rewrite Z.pow_succ_r by lia. lia.
Qed.

Lemma retryLoop_first_success {R} (fn : Z -> Attempt R)
  (maxRetries baseDelay : Z) (first : Z) (value : R) (left : nat) :
  forall attempt,
    1 <= attempt <= first ->
    first <= maxRetries ->
    attempt + Z.of_nat left = maxRetries + 1 ->
    fn first = Resolves value ->
    (forall k, attempt <= k < first -> exists error, fn k = Rejects error) ->
    let run := retryLoop fn maxRetries baseDelay left attempt in
    outcome run = Some (Resolves value)
    /\ Z.of_nat (calls run) = first - attempt + 1
    /\ fold_right Z.add 0 (delays run)
       = baseDelay * (2 ^ (first - 1) - 2 ^ (attempt - 1)).
Proof.
  induction left as [|left IH];
    intros attempt Hattempt Hfirst Hsum Hvalue Hreject; [lia|].
  cbn [retryLoop].
  destruct (Z.eq_dec attempt first) as [->|Hne].
  - rewrite Hvalue. cbn. split; [reflexivity|]. split; [lia|].
    rewrite Z.sub_diag. lia.
  - destruct (Hreject attempt ltac:(lia)) as [error Herror]. rewrite Herror.
    destruct (Z.eqb_spec attempt maxRetries) as [->|_]; [lia|].
    destruct (IH (attempt + 1)) as (Hout & Hcalls & Hdelays); try lia;
      try assumption.
    + intros k Hk. apply Hreject. lia.
    + cbn [outcome calls delays fold_right]. rewrite Hdelays.
      split; [exact Hout|]. split; [lia|].
      replace (attempt + 1 - 1) with (Z.succ (attempt - 1)) by lia.
      rewrite Z.pow_succ_r by lia. lia.
Qed.


(** ** Objects *)

Lemma setProp_fresh key value obj :
  ~ In key (keys obj) -> setProp key value obj = (obj ++ [(key, value)])%list.
Proof.
  induction obj as [|[k v] obj IH]; simpl; intros Hfresh; [reflexivity|].
  destruct (String.eqb_spec k key) as [->|_].
  - exfalso. apply Hfresh. now left.
  - rewrite IH by (intros Hin; apply Hfresh; now right). reflexivity.
Qed.

Lemma getProp_member obj key value :
  NoDup (keys obj) -> In (key, value) obj -> getProp obj key = value.
Proof.
  unfold getProp. induction obj as [|[k v] obj IH]; simpl;
    intros Hnodup Hin; [contradiction|].
  inversion Hnodup as [|? ? Hnotin Hrest]; subst.
  destruct Hin as [[= -> ->]|Hin].
  - rewrite String.eqb_refl. reflexivity.
  - destruct (String.eqb_spec k key) as [->|_].
    + exfalso. apply Hnotin. apply (in_map fst) in Hin. exact Hin.
    + apply IH; assumption.
Qed.

Lemma getProp_filter (P : string -> bool) obj key :
  getProp (filter (fun kv => P (fst kv)) obj) key
  = if P key then getProp obj key else VUndefined.
Proof.
  unfold getProp. induction obj as [|[k v] obj IH]; simpl.
  - destruct (P key); reflexivity.
  - destruct (P k) eqn:Hk; simpl.
    + destruct (String.eqb_spec k key) as [->|_].
      * rewrite Hk. reflexivity.
      * exact IH.
    + destruct (String.eqb_spec k key) as [->|_].
      * rewrite Hk in *. rewrite IH. reflexivity.
      * exact IH.
Qed.

Lemma filterObj_loop obj allowedFields :
  forall todo done,
    obj = (done ++ todo)%list ->
    NoDup (keys obj) ->
    fold_left
      (fun newObj el =>
         if includes allowedFields el then setProp el (getProp obj el) newObj
         else newObj)
      (keys todo)
      (filter (fun kv => includes allowedFields (fst kv)) done)
    = filter (fun kv => includes allowedFields (fst kv)) obj.
Proof.
  induction todo as [|[k v] todo IH]; intros done Hobj Hnodup; simpl.
  - rewrite Hobj, app_nil_r. reflexivity.
  - assert (Hstep :
              (if includes allowedFields k
               then setProp k (getProp obj k)
                      (filter (fun kv => includes allowedFields (fst kv)) done)
               else filter (fun kv => includes allowedFields (fst kv)) done)
              = filter (fun kv => includes allowedFields (fst kv))
                  (done ++ [(k, v)])).
    { rewrite filter_app. simpl.
      destruct (includes allowedFields k) eqn:Hk; [|rewrite app_nil_r; auto].
      rewrite (getProp_member obj k v Hnodup)
        by (rewrite Hobj; apply in_or_app; right; now left).
      apply setProp_fresh.
      intros Hin. unfold keys in Hin. apply in_map_iff in Hin.
      destruct Hin as ([k' v'] & Hk' & Hin'). simpl in Hk'. subst k'.
      apply filter_In in Hin'. destruct Hin' as [Hin' _].
      rewrite Hobj in Hnodup. unfold keys in Hnodup.
      rewrite map_app in Hnodup. simpl in Hnodup.
      apply NoDup_remove_2 in Hnodup. apply Hnodup.
      apply in_or_app. left. apply (in_map fst) in Hin'. exact Hin'. }
    rewrite Hstep. apply IH; [|exact Hnodup].
    rewrite Hobj, <- app_assoc. reflexivity.
Qed.


Lemma Value_nested_ind (P : Value -> Prop) :
  P VUndefined -> P VNull -> (forall b, P (VBool b)) ->
  (forall n, P (VNumber n)) -> (forall s, P (VString s)) ->
  (forall ms, P (VDate ms)) ->
  (forall items, Forall P items -> P (VArray items)) ->
  (forall props, Forall (fun kv => P (snd kv)) props -> P (VObject props)) ->
  forall v, P v.
Proof.
  intros Hu Hn Hb Hnum Hs Hd Ha Ho.
  fix IH 1. intros [| |b|n|s|ms|items|props].
  - exact Hu.
  - exact Hn.
  - apply Hb.
  - apply Hnum.
  - apply Hs.
  - apply Hd.
  - apply Ha. induction items as [|x items IHi]; constructor;
      [apply IH | exact IHi].
  - apply Ho. induction props as [|kv props IHp]; constructor;
      [apply IH | exact IHp].
Qed.

Lemma cleanedOf_object props :
  cleanedOf (VObject props) = flat_map (keepProperty cleanedOf) props.
Proof.
  induction props as [|kv props IH]; [reflexivity|].
  cbn [flat_map]. rewrite <- IH. reflexivity.
Qed.

Lemma tidy_object props :
  tidy (VObject props)
  <-> props <> [] /\ Forall (fun kv => tidy (snd kv)) props.
Proof.
  cbn [tidy]. split; intros [Hne Hall]; (split; [exact Hne|]).
  - clear Hne. induction props as [|kv props IH]; constructor; tauto.
  - clear Hne. induction Hall as [|kv props Hkv Hall IH]; [exact I|].
    split; assumption.
Qed.

Lemma cleanedOf_tidy v : Forall (fun kv => tidy (snd kv)) (cleanedOf v).
Proof.
  induction v as [| | | | | |items _|props IH] using Value_nested_ind;
    try constructor.
  rewrite cleanedOf_object.
  induction IH as [|[k x] props Hx _ IHp]; [constructor|].
  cbn [flat_map]. apply Forall_app. split; [|exact IHp].
  unfold keepProperty. cbn [fst snd] in *.
  destruct x as [| |b|n|s|ms|items|nested]; try (repeat constructor; fail).
  - destruct (String.eqb_spec s "") as [->|Hne]; repeat constructor.
    exact Hne.
  - destruct (cleanedOf (VObject nested)) as [|kv rest] eqn:Hnested;
      constructor; [|constructor].
    cbn [snd]. apply tidy_object. split; [discriminate|exact Hx].
Qed.

Lemma cleanedOf_fixed props :
  Forall (fun kv => tidy (snd kv)) props ->
  cleanedOf (VObject props) = props.
Proof.
  revert props.
  assert (Hall : forall v, tidy v ->
            match v with
            | VObject props => cleanedOf v = props
            | _ => True
            end).
  { induction v as [| | | | | |items _|props IH] using Value_nested_ind;
      try (intros; exact I).
    intros Htidy. apply tidy_object in Htidy. destruct Htidy as [_ Htidy].
    rewrite cleanedOf_object.
    induction props as [|[k x] props IHp]; [reflexivity|].
    inversion IH as [|? ? Hx IH']; subst.
    inversion Htidy as [|? ? Htx Htidy']; subst.
    cbn [flat_map]. rewrite (IHp IH' Htidy').
    unfold keepProperty. cbn [fst snd] in *.
    destruct x as [| |b|n|s|ms|items|nested]; try reflexivity;
      try (exfalso; exact Htx).
    - cbn [tidy] in Htx. apply String.eqb_neq in Htx. rewrite Htx.
      reflexivity.
    - rewrite (Hx Htx).
      destruct nested as [|kv nested]; [|reflexivity].
      exfalso. apply tidy_object in Htx. destruct Htx as [Hne _].
      apply Hne. reflexivity. }
  intros props Hprops.
  destruct props as [|kv props]; [reflexivity|].
  apply (Hall (VObject (kv :: props))).
  apply tidy_object. split; [discriminate|exact Hprops].
Qed.

Lemma keepProperty_keys clean kv :
  incl (keys (keepProperty clean kv)) [fst kv].
Proof.
  unfold keepProperty. destruct kv as [k0 x]. cbn [fst snd].
  destruct x as [| |b|n|s|ms|items|nested];
    try destruct (s =? "")%string;
    try destruct (clean (VDate ms));
    try destruct (clean (VObject nested));
    simpl; intros k Hk; try contradiction;
    destruct Hk as [<-|[]]; now left.
Qed.


(** ** Auth store *)

(** X27: the store does not find the tokens the backend sends.
    [createSendToken] puts [token] and [refreshToken] beside [data] in the
    body, and the store reads them inside [data]: after a login (or
    registration) answered by [createSendToken], the store holds the user
    and counts as authenticated, so the protected route renders, but its
    token and refresh token are [undefined]; a later [refreshAuthToken]
    throws 'No refresh token available' without sending a request and
    leaves the state as it is. *)
Theorem store_login_misses_the_tokens (E : Env) (u : Doc) (statusCode now : Z)
  (db : Db) (st : AuthState) :
  exists response st',
    axiosResponse (snd (createSendToken E u statusCode now db))
    = Some response
    /\ storeLogin (Fulfilled response) st = (st', Returned response)
    /\ st_user st' = VObject [("_id", VString (_id (fields u)))]
    /\ st_isAuthenticated st' = true
    /\ protectedRoute st' = true
    /\ st_token st' = VUndefined
    /\ st_refreshToken st' = VUndefined
    /\ forall settled,
         refreshAuthToken settled st'
         = (st', Threw "No refresh token available").
Proof.
  unfold createSendToken. cbn [snd axiosResponse].
  eexists. eexists. split; [reflexivity|].
  split; [reflexivity|].
  repeat (split; [reflexivity|]).
  intros settled. reflexivity.
Qed.

(** ** Issued tokens and the session guard *)

Lemma stamp_not_after (c now : Z) :
  0 <= c <= now -> Z.quot c 1000 <= now / 1000.
Proof.
  intros Hc. rewrite Z.quot_div_nonneg by lia. apply Z.div_le_mono; lia.
Qed.

(** X28: the access token a login issues opens the session.  After a
    successful login at [now] on an account whose [passwordChangedAt] is
    not in the future, a token of that user with issue second [now / 1000]
    or later passes the session guard on the collection the login leaves,
    for as long as it verifies. *)
Theorem login_token_is_accepted (E : Env) db now lreq u later req tok decoded :
  body_email (body lreq) <> "" ->
  body_password (body lreq) <> "" ->
  findOne (byEmail E (body_email (body lreq))) db = Some u ->
  findById (_id u) db = Some u ->
  (forall l, lockUntil u = Some l -> l <= now) ->
  correctPassword E (body_password (body lreq)) (password u) = true ->
  (forall c, passwordChangedAt u = Some c -> 0 <= c <= now) ->
  extractToken req = Some tok ->
  tok <> "" ->
  jwt_verify E tok (jwt_secret (config E)) later = Some decoded ->
  payload_id decoded = _id u ->
  now / 1000 <= iat decoded ->
  exists req', protect E (fst (login E db now lreq)) later req = Next req'.
Proof.
  intros He Hp Hfound Hbyid Hexpired Hright Hstamp Htok Hne Hverify Hid Hiat.
  assert (Hunlocked : isLocked u now = false).
  { unfold isLocked. destruct (lockUntil u) as [l|]; [|reflexivity].
    apply Z.ltb_ge. apply Hexpired. reflexivity. }
  rewrite (login_correct_password E db now lreq u He Hp Hfound Hunlocked
             Hright).
  cbn [fst].
  rewrite (protect_verified E _ later req tok decoded Htok Hne Hverify).
  rewrite Hid.
  rewrite findById_updateById by (intros x; split; reflexivity).
  rewrite Hbyid. cbn [option_map]. rewrite String.eqb_refl.
  pose proof (findById_found _ _ _ Hbyid) as (_ & _ & Hactive).
  unfold changedPasswordAfter, Js.parseInt_div.
  unfold issueUpdate.
  cbn [passwordChangedAt active set_refreshTokens set_lastLogin
       set_loginAttempts set_lockUntil set_updatedAt set___v].
  rewrite Hactive.
  destruct (passwordChangedAt u) as [c|] eqn:Hc.
  - pose proof (stamp_not_after c now (Hstamp c eq_refl)) as Hle.
    assert (Hfresh : (iat decoded <? Z.quot c 1000) = false)
      by (apply Z.ltb_ge; lia).
    rewrite Hfresh. cbn [negb]. eauto.
  - cbn [negb]. eauto.
Qed.


(** ** Deactivation *)

(** X30: delete-me locks the account out.  Once an authenticated user has
    deactivated the account, every access token of that user is answered
    with 401 by the session guard, every refresh token with 401 'Invalid
    refresh token', and a login whose e-mail, as the query casts it, is the
    account's (and held by no other record) with 401 'Incorrect email or
    password', whatever the password; none of these requests writes to the
    collection. *)
Theorem deactivation_locks_the_account_out (E : Env) db now req d stored :
  user req = Some d ->
  findById (_id (fields d)) db = Some stored ->
  let db1 := fst (deleteMe db now req) in
  (forall later areq tok decoded,
      extractToken areq = Some tok ->
      tok <> "" ->
      jwt_verify E tok (jwt_secret (config E)) later = Some decoded ->
      payload_id decoded = _id (fields d) ->
      protect E db1 later areq
      = NextErr (ApiError 401
          "The user belonging to this token does no longer exist."))
  /\ (forall later rreq presented decoded,
         cookies_refreshToken rreq = Some presented ->
         presented <> "" ->
         jwt_verify E presented (jwt_refreshSecret (config E)) later
         = Some decoded ->
         payload_id decoded = _id (fields d) ->
         refreshToken E db1 later rreq
         = (db1, NextErr (ApiError 401 "Invalid refresh token")))
  /\ (forall later lreq,
         body_email (body lreq) <> "" ->
         body_password (body lreq) <> "" ->
         (forall x, In x db ->
                    email x = castEmail E (body_email (body lreq)) ->
                    _id x = _id (fields d)) ->
         login E db1 later lreq
         = (db1, NextErr (ApiError 401 "Incorrect email or password"))).
Proof.
  intros Huser Hfind db1.
  assert (Hdb1 : db1 = updateById (_id (fields d))
                         (fun x => set_updatedAt now (set_active false x))
                         db).
  { unfold db1, deleteMe. rewrite Huser, Hfind. reflexivity. }
  assert (Hgone : findById (_id (fields d)) db1 = None).
  { rewrite Hdb1. unfold findById. apply findOne_none_active.
    intros y Hy Hactive. apply in_updateById in Hy.
    destruct Hy as (x & Hx & ->).
    destruct (String.eqb_spec (_id x) (_id (fields d))) as [Hid|Hne].
    - discriminate.
    - apply String.eqb_neq. exact Hne. }
  split; [|split].
  - intros later areq tok decoded Htok Hne Hverify Hid.
    rewrite (protect_verified E db1 later areq tok decoded Htok Hne Hverify).
    rewrite Hid, Hgone. reflexivity.
  - intros later rreq presented decoded Hcookie Hne Hverify Hid.
    unfold refreshToken. rewrite Hcookie, (truthy_nonempty _ Hne).
    cbn [negb]. rewrite Hverify, Hid, Hgone. reflexivity.
  - intros later lreq He Hp Hsole.
    unfold login. rewrite (truthy_nonempty _ He), (truthy_nonempty _ Hp).
    cbn [negb orb].
    rewrite findOne_none_active; [reflexivity|].
    intros y Hy Hactive. rewrite Hdb1 in Hy. apply in_updateById in Hy.
    destruct Hy as (x & Hx & ->).
    destruct (String.eqb_spec (_id x) (_id (fields d))) as [Hid|Hne].
    + discriminate.
    + unfold byEmail. apply String.eqb_neq. intros Hemail. apply Hne.
      apply Hsole; assumption.
Qed.

(** ** Instances of the further properties *)

(** X1 at a concrete input. *)
Lemma bearer_header_round_trip_witness :
  extractToken (requestInterceptor (Some "access.u1.5")
                  (Demo.request Demo.noBody))
  = Some "access.u1.5".
Proof.
  apply (bearer_header_round_trip "access.u1.5" (Demo.request Demo.noBody)).
  - discriminate.
  - unfold noSpace. simpl. intuition discriminate.
Defined.

(** X3 at a concrete input: the header [Bearer] alone beside a valid
    cookie. *)
Lemma bearer_header_without_token_masks_cookie_witness :
  protect Demo.env [Demo.alice] 6000
    {| headers_authorization := Some "Bearer";
       cookies_jwt := Some "access.u1.5";
       cookies_refreshToken := None; params_token := "";
       body := Demo.noBody; user := None |}
  = NextErr (ApiError 401
      "You are not logged in! Please log in to get access.").
Proof.
  apply (bearer_header_without_token_masks_cookie Demo.env [Demo.alice] 6000
           _ "").
  - reflexivity.
  - unfold noSpace. simpl. intuition.
Defined.

(** X5 at concrete inputs: the change at 5000 and the token of second 5. *)
Lemma token_issued_by_the_change_is_accepted_witness :
  (exists req',
      protect Demo.env
        (fst (resetPassword Demo.env [Demo.aliceReset] 5000
                (Demo.withParam "plain"
                   (Demo.request (Demo.newPassword "" "NewSecret456")))))
        6000 (Demo.bearer "access.u1.5" Demo.noBody) = Next req')
  /\ (exists req',
         protect Demo.env
           (fst (updatePassword Demo.env [Demo.alice] 5000
                   (set_user (Some (hydrate false Demo.alice))
                      (Demo.request
                         (Demo.newPassword "Secret123!" "NewSecret456")))))
           6000 (Demo.bearer "access.u1.5" Demo.noBody) = Next req').
Proof.
  split.
  - apply (proj1 (token_issued_by_the_change_is_accepted Demo.env)
             [Demo.aliceReset] 5000 _ Demo.aliceReset 6000 _ "access.u1.5"
             {| payload_id := "u1"; iat := 5; exp := 5 + Demo.lifetime |}).
    + vm_compute; reflexivity.
    + vm_compute; reflexivity.
    + discriminate.
    + simpl; lia.
    + reflexivity.
    + vm_compute; reflexivity.
    + discriminate.
    + vm_compute; reflexivity.
    + reflexivity.
    + vm_compute; discriminate.
  - apply (proj2 (token_issued_by_the_change_is_accepted Demo.env)
             [Demo.alice] 5000 _ (hydrate false Demo.alice) Demo.alice 6000 _
             "access.u1.5"
             {| payload_id := "u1"; iat := 5; exp := 5 + Demo.lifetime |}).
    + reflexivity.
    + vm_compute; reflexivity.
    + vm_compute; reflexivity.
    + discriminate.
    + vm_compute; reflexivity.
    + discriminate.
    + simpl; lia.
    + reflexivity.
    + vm_compute; reflexivity.
    + discriminate.
    + vm_compute; reflexivity.
    + reflexivity.
    + vm_compute; discriminate.
Defined.

(** X6 at a concrete input: six issues onto an empty list. *)
Lemma issues_keep_the_last_five_witness :
  let e n := {| token := "t"; createdAt := n |} in
  fold_left (fun stored x => pushRefreshToken x stored)
    [e 1; e 2; e 3; e 4; e 5; e 6] []
  = Js.slice_last 5 ([] ++ [e 1; e 2; e 3; e 4; e 5; e 6]).
Proof.
  intros e.
  apply (proj1 (issues_keep_the_last_five [e 1; e 2; e 3; e 4; e 5; e 6] []
                  ltac:(simpl; lia))).
Defined.

(** X7 at a concrete input: [aliceSessions] refreshes with the cookie
    [refresh.u1.5]. *)
Lemma refresh_keeps_the_presented_token_witness :
  exists db' u',
    refreshToken Demo.env [Demo.aliceSessions] 6000
      (Demo.withRefreshCookie "refresh.u1.5" (Demo.request Demo.noBody))
    = (db', tokenReply Demo.env 200 "u1" 6000)
    /\ findById "u1" db' = Some u'
    /\ refreshTokens u'
       = pushRefreshToken (issuedEntry Demo.env "u1" 6000)
           (refreshTokens Demo.aliceSessions)
    /\ ((List.length (refreshTokens Demo.aliceSessions) < 5)%nat ->
        In "refresh.u1.5" (map token (refreshTokens u'))
        /\ forall later,
             jwt_verify Demo.env "refresh.u1.5"
               (jwt_refreshSecret (config Demo.env)) later
             = Some {| payload_id := "u1"; iat := 5;
                       exp := 5 + Demo.lifetime |} ->
             exists db'',
               refreshToken Demo.env db' later
                 (Demo.withRefreshCookie "refresh.u1.5"
                    (Demo.request Demo.noBody))
               = (db'', tokenReply Demo.env 200 "u1" later)).
Proof.
  apply (refresh_keeps_the_presented_token Demo.env [Demo.aliceSessions] 6000
           (Demo.withRefreshCookie "refresh.u1.5" (Demo.request Demo.noBody))
           "refresh.u1.5"
           {| payload_id := "u1"; iat := 5; exp := 5 + Demo.lifetime |}
           Demo.aliceSessions).
  - reflexivity.
  - discriminate.
  - vm_compute; reflexivity.
  - vm_compute; reflexivity.
  - simpl. auto.
Defined.

(** X8 at a concrete input: [aliceSessions] logs out, then the cookie is
    presented to the refresh route. *)
Lemma logout_revokes_the_refresh_token_witness :
  refreshToken Demo.env
    (fst (logout Demo.env [Demo.aliceSessions] 6000 Fixtures.sessionRequest))
    7000 (Demo.withRefreshCookie "refresh.u1.5" (Demo.request Demo.noBody))
  = (fst (logout Demo.env [Demo.aliceSessions] 6000 Fixtures.sessionRequest),
     NextErr (ApiError 401 "Invalid refresh token")).
Proof.
  apply (logout_revokes_the_refresh_token Demo.env [Demo.aliceSessions] 6000
           (Demo.withRefreshCookie "refresh.u1.5"
              (Demo.bearer "access.u1.5" Demo.noBody))
           Fixtures.sessionRequest "refresh.u1.5" 7000 _
           {| payload_id := "u1"; iat := 5; exp := 5 + Demo.lifetime |}).
  - vm_compute; reflexivity.
  - reflexivity.
  - discriminate.
  - reflexivity.
  - vm_compute; reflexivity.
  - intros d [= <-]. reflexivity.
Defined.

(** X9 at concrete inputs: a session of second 5 after a reset and after an
    update at 100000. *)
Lemma password_change_keeps_sessions_witness :
  (exists db'',
      refreshToken Demo.env
        (fst (resetPassword Demo.env [Fixtures.aliceResetSessions] 100000
                (Demo.withParam "plain"
                   (Demo.request (Demo.newPassword "" "NewSecret456")))))
        110000
        (Demo.withRefreshCookie "refresh.u1.5" (Demo.request Demo.noBody))
      = (db'', tokenReply Demo.env 200 "u1" 110000))
  /\ (exists db'',
         refreshToken Demo.env
           (fst (updatePassword Demo.env [Demo.aliceSessions] 100000
                   (set_user (Some (hydrate false Demo.aliceSessions))
                      (Demo.request
                         (Demo.newPassword "Secret123!" "NewSecret456")))))
           110000
           (Demo.withRefreshCookie "refresh.u1.5" (Demo.request Demo.noBody))
         = (db'', tokenReply Demo.env 200 "u1" 110000)).
Proof.
  split.
  - apply (proj1 (password_change_keeps_sessions Demo.env)
             [Fixtures.aliceResetSessions] 100000 _
             Fixtures.aliceResetSessions 110000 _ "refresh.u1.5"
             {| payload_id := "u1"; iat := 5; exp := 5 + Demo.lifetime |}).
    + vm_compute; reflexivity.
    + vm_compute; reflexivity.
    + discriminate.
    + simpl; lia.
    + reflexivity.
    + reflexivity.
    + discriminate.
    + vm_compute; reflexivity.
    + reflexivity.
    + simpl. auto.
    + simpl; lia.
  - apply (proj2 (password_change_keeps_sessions Demo.env)
             [Demo.aliceSessions] 100000 _
             (hydrate false Demo.aliceSessions) Demo.aliceSessions 110000 _
             "refresh.u1.5"
             {| payload_id := "u1"; iat := 5; exp := 5 + Demo.lifetime |}).
    + reflexivity.
    + vm_compute; reflexivity.
    + vm_compute; reflexivity.
    + discriminate.
    + vm_compute; reflexivity.
    + discriminate.
    + simpl; lia.
    + reflexivity.
    + reflexivity.
    + discriminate.
    + vm_compute; reflexivity.
    + reflexivity.
    + simpl. auto.
    + simpl; lia.
Defined.

(** X10 at a concrete input: the lock of [aliceLocked] has run out. *)
Lemma login_success_clears_lockout_witness :
  exists db' u',
    login Demo.env [Demo.aliceLocked] 9500000
      (Demo.request (Demo.credentials "a@b.com" "Secret123!"))
    = (db', tokenReply Demo.env 200 "u1" 9500000)
    /\ findOne (fun x => (email x =? "a@b.com")%string) db' = Some u'
    /\ loginAttempts u' = 0
    /\ lockUntil u' = None
    /\ lastLogin u' = Some 9500000
    /\ password u' = password Demo.aliceLocked
    /\ refreshTokens u'
       = pushRefreshToken (issuedEntry Demo.env "u1" 9500000)
           (refreshTokens Demo.aliceLocked).
Proof.
  apply (login_success_clears_lockout Demo.env [Demo.aliceLocked] 9500000
           (Demo.request (Demo.credentials "a@b.com" "Secret123!"))
           Demo.aliceLocked).
  - discriminate.
  - discriminate.
  - reflexivity.
  - intros l [= <-]. lia.
  - reflexivity.
Defined.

(** X11 at a concrete input: a wrong password for [alice]. *)
Lemma failed_login_touches_only_counters_witness :
  Forall2 (fun x x' =>
             set_updatedAt 0 (set_loginAttempts 0 (set_lockUntil None x'))
             = set_updatedAt 0 (set_loginAttempts 0 (set_lockUntil None x))
             /\ (_id x = _id Demo.alice -> updatedAt x' = 6000)
             /\ (_id x <> _id Demo.alice -> x' = x))
    [Demo.alice]
    (fst (login Demo.env [Demo.alice] 6000
            (Demo.request (Demo.credentials "a@b.com" "nope")))).
Proof.
  apply (failed_login_touches_only_counters Demo.env [Demo.alice] 6000
           (Demo.request (Demo.credentials "a@b.com" "nope")) Demo.alice).
  - discriminate.
  - discriminate.
  - reflexivity.
  - reflexivity.
  - reflexivity.
Defined.

(** X12 at a concrete input: the right password of a deactivated account,
    the address typed in capitals. *)
Lemma login_without_active_account_witness :
  login Demo.env [Fixtures.aliceDeactivated] 6000
    (Demo.request (Demo.credentials "A@B.COM" "Secret123!"))
  = ([Fixtures.aliceDeactivated],
     NextErr (ApiError 401 "Incorrect email or password")).
Proof.
  apply (login_without_active_account Demo.env [Fixtures.aliceDeactivated]
           6000 (Demo.request (Demo.credentials "A@B.COM" "Secret123!"))).
  - discriminate.
  - discriminate.
  - intros x [<- | []] _. reflexivity.
Defined.

(** X13 at a concrete input, the address typed in capitals. *)
Lemma login_succeeds_iff_credentials_and_unlocked_witness :
  (exists db' cookies json,
      login Demo.env [Demo.alice] 6000
        (Demo.request (Demo.credentials "A@B.COM" "Secret123!"))
      = (db', Json 200 cookies json))
  <-> exists d,
        findByCredentials Demo.env "A@B.COM" "Secret123!" [Demo.alice]
        = Some d
        /\ isLocked (fields d) 6000 = false.
Proof.
  apply (login_succeeds_iff_credentials_and_unlocked Demo.env [Demo.alice]
           6000 (Demo.request (Demo.credentials "A@B.COM" "Secret123!"))).
  - discriminate.
  - discriminate.
Defined.





(** X18 at a concrete input: the token [vplain] of [aliceUnverified]. *)
Lemma verifyEmail_single_use_witness :
  exists db',
    verifyEmail Demo.env [Fixtures.aliceUnverified] 6000
      (Demo.withParam "vplain" (Demo.request Demo.noBody))
    = (db', Json 200 [] (MessageBody "success" "Email verified successfully!"))
    /\ verifyEmail Demo.env db' 7000
         (Demo.withParam "vplain" (Demo.request Demo.noBody))
       = (db', NextErr (ApiError 400 "Token is invalid or has expired")).
Proof.
  destruct (verifyEmail_single_use Demo.env [Fixtures.aliceUnverified] 6000
              (Demo.withParam "vplain" (Demo.request Demo.noBody))
              Fixtures.aliceUnverified)
    as (db' & Hreply & _ & _ & Hagain).
  - reflexivity.
  - intros x [<- | []] _. reflexivity.
  - exists db'. split; [assumption|]. apply Hagain. reflexivity.
Defined.

(** X19 at a concrete input: [alice] asks at 100000 and resets at 200000. *)
Lemma forgotten_password_round_trip_witness :
  exists db1,
    forgotPassword Demo.env "plain" [Demo.alice] 100000
      (Demo.request (Demo.credentials "a@b.com" ""))
    = (db1, Json 200 [] (MessageBody "success" "Token sent to email!"))
    /\ (exists db2,
           resetPassword Demo.env db1 200000
             (Demo.withParam "plain"
                (Demo.request (Demo.newPassword "" "NewSecret456")))
           = (db2, tokenReply Demo.env 200 "u1" 200000))
    /\ resetPassword Demo.env db1 700000
         (Demo.withParam "plain"
            (Demo.request (Demo.newPassword "" "NewSecret456")))
       = (db1, NextErr (ApiError 400 "Token is invalid or has expired")).
Proof.
  destruct (forgotten_password_round_trip Demo.env "plain" [Demo.alice]
              100000 (Demo.request (Demo.credentials "a@b.com" ""))
              Demo.alice)
    as (db1 & Hreply & Hreset).
  - repeat constructor. simpl. intuition.
  - reflexivity.
  - vm_compute; reflexivity.
  - intros x [<- | []] _. reflexivity.
  - exists db1. split; [assumption|]. split.
    + apply (proj1 (Hreset 200000
                      (Demo.withParam "plain"
                         (Demo.request (Demo.newPassword "" "NewSecret456")))
                      eq_refl)).
      * lia.
      * discriminate.
      * simpl; lia.
      * reflexivity.
    + apply (proj2 (Hreset 700000
                      (Demo.withParam "plain"
                         (Demo.request (Demo.newPassword "" "NewSecret456")))
                      eq_refl)).
      lia.
Defined.

(** X20 at a concrete input: [plain] is replaced by [plain2]. *)
Lemma second_request_replaces_reset_token_witness :
  let db2 :=
    fst (forgotPassword Demo.env "plain2"
           (fst (forgotPassword Demo.env "plain" [Demo.alice] 100000
                   (Demo.request (Demo.credentials "a@b.com" ""))))
           200000 (Demo.request (Demo.credentials "a@b.com" ""))) in
  resetPassword Demo.env db2 300000
    (Demo.withParam "plain"
       (Demo.request (Demo.newPassword "" "NewSecret456")))
  = (db2, NextErr (ApiError 400 "Token is invalid or has expired")).
Proof.
  apply (second_request_replaces_reset_token Demo.env "plain" "plain2"
           [Demo.alice] 100000 200000
           (Demo.request (Demo.credentials "a@b.com" "")) Demo.alice).
  - reflexivity.
  - discriminate.
  - intros x [<- | []] _. reflexivity.
  - reflexivity.
Defined.

(** X21 at a concrete input: a confirmation that differs. *)
Lemma rejected_reset_keeps_the_token_witness :
  resetPassword Demo.env [Demo.aliceReset] 200000
    (Demo.withParam "plain" (Demo.request Fixtures.mistyped))
  = ([Demo.aliceReset],
     NextErr (Thrown "ValidationError" "User validation failed")).
Proof.
  apply (rejected_reset_keeps_the_token Demo.env [Demo.aliceReset] 200000
           (Demo.withParam "plain" (Demo.request Fixtures.mistyped))
           Demo.aliceReset).
  - reflexivity.
  - left. discriminate.
Defined.

(** X22 at concrete inputs: at 40 s a token that expires at second 100,
    and a token whose expiry is beyond the range of dates. *)
Lemma remaining_time_agrees_with_expiry_witness :
  (exists left,
      getTokenExpiration Fixtures.decodeTwo "t100" = Some (Some (100 * 1000))
      /\ getTimeUntilExpiration Fixtures.decodeTwo "t100" 40000 = Some left
      /\ 0 <= left
      /\ (isTokenExpired Fixtures.decodeTwo "t100" 40000 = true
          <-> 100 * 1000 <= 40000)
      /\ (isTokenExpired Fixtures.decodeTwo "t100" 40000 = true -> left = 0)
      /\ (0 < left ->
          isTokenExpired Fixtures.decodeTwo "t100" 40000 = false
          /\ left * 1000 <= 100 * 1000 - 40000 < (left + 1) * 1000))
  /\ (getTokenExpiration Fixtures.decodeTwo "far" = Some None
      /\ isTokenExpired Fixtures.decodeTwo "far" 40000 = false
      /\ getTimeUntilExpiration Fixtures.decodeTwo "far" 40000 = None).
Proof.
  split.
  - apply (proj2 (proj2 (remaining_time_agrees_with_expiry Fixtures.decodeTwo
                           "t100" 40000 ltac:(lia)))
             {| claim_id := Some "u1"; claim_iat := Some 40;
                claim_exp := Some 100 |} 100).
    + reflexivity.
    + reflexivity.
    + discriminate.
    + simpl; lia.
  - apply (proj1 (proj2 (remaining_time_agrees_with_expiry Fixtures.decodeTwo
                           "far" 40000 ltac:(lia)))
             {| claim_id := Some "u1"; claim_iat := Some 40;
                claim_exp := Some 10000000000000000 |} 10000000000000000).
    + reflexivity.
    + reflexivity.
    + simpl; lia.
Defined.

(** X23 at a concrete input: page 2 of 25 entries, ten a page. *)
Lemma pagination_meta_fits_the_total_witness :
  let m := generatePaginationMeta 2 10 25 in
  (totalPages m - 1) * 10 < 25 <= totalPages m * 10
  /\ (hasNextPage m = true <-> 2 * 10 < 25)
  /\ (hasPrevPage m = true <-> 1 < 2)
  /\ nextPage m = (if 2 * 10 <? 25 then Some (2 + 1) else None)
  /\ prevPage m = (if 1 <? 2 then Some (2 - 1) else None).
Proof.
  apply (pagination_meta_fits_the_total 2 10 25).
  - vm_compute. split; [reflexivity | discriminate].
  - vm_compute. split; discriminate.
  - vm_compute. split; discriminate.
Defined.



(** X28 at a concrete input: [alice] logs in at 5000 and presents the token
    of second 5. *)
Lemma login_token_is_accepted_witness :
  exists req',
    protect Demo.env
      (fst (login Demo.env [Demo.alice] 5000
              (Demo.request (Demo.credentials "a@b.com" "Secret123!"))))
      6000 (Demo.bearer "access.u1.5" Demo.noBody)
    = Next req'.
Proof.
  apply (login_token_is_accepted Demo.env [Demo.alice] 5000
           (Demo.request (Demo.credentials "a@b.com" "Secret123!"))
           Demo.alice 6000 (Demo.bearer "access.u1.5" Demo.noBody)
           "access.u1.5"
           {| payload_id := "u1"; iat := 5; exp := 5 + Demo.lifetime |}).
  - discriminate.
  - discriminate.
  - reflexivity.
  - reflexivity.
  - intros l Hl. discriminate Hl.
  - reflexivity.
  - intros c [= <-]. lia.
  - vm_compute; reflexivity.
  - discriminate.
  - vm_compute; reflexivity.
  - reflexivity.
  - vm_compute; discriminate.
Defined.


(** X30 at a concrete input: [alice] deletes the account at 6000 and then
    presents the access token, the refresh token and the password. *)
Lemma deactivation_locks_the_account_out_witness :
  let db1 :=
    fst (deleteMe [Demo.aliceSessions] 6000
           (set_user (Some (hydrate false Demo.aliceSessions))
              (Demo.request Demo.noBody))) in
  protect Demo.env db1 7000 (Demo.bearer "access.u1.5" Demo.noBody)
  = NextErr (ApiError 401
      "The user belonging to this token does no longer exist.")
  /\ refreshToken Demo.env db1 7000
       (Demo.withRefreshCookie "refresh.u1.5" (Demo.request Demo.noBody))
     = (db1, NextErr (ApiError 401 "Invalid refresh token"))
  /\ login Demo.env db1 7000
       (Demo.request (Demo.credentials "a@b.com" "Secret123!"))
     = (db1, NextErr (ApiError 401 "Incorrect email or password")).
Proof.
  destruct (deactivation_locks_the_account_out Demo.env [Demo.aliceSessions]
              6000
              (set_user (Some (hydrate false Demo.aliceSessions))
                 (Demo.request Demo.noBody))
              (hydrate false Demo.aliceSessions) Demo.aliceSessions
              eq_refl eq_refl) as (Hprotect & Hrefresh & Hlogin).
  split; [|split].
  - apply (Hprotect 7000 (Demo.bearer "access.u1.5" Demo.noBody)
             "access.u1.5"
             {| payload_id := "u1"; iat := 5; exp := 5 + Demo.lifetime |}).
    + vm_compute; reflexivity.
    + discriminate.
    + vm_compute; reflexivity.
    + reflexivity.
  - apply (Hrefresh 7000
             (Demo.withRefreshCookie "refresh.u1.5" (Demo.request Demo.noBody))
             "refresh.u1.5"
             {| payload_id := "u1"; iat := 5; exp := 5 + Demo.lifetime |}).
    + reflexivity.
    + discriminate.
    + vm_compute; reflexivity.
    + reflexivity.
  - apply (Hlogin 7000
             (Demo.request (Demo.credentials "a@b.com" "Secret123!"))).
    + discriminate.
    + discriminate.
    + intros x [<- | []] _. reflexivity.
Defined.
